(** * YaMDb: the review API's serializers and views

    A shallow embedding of [api/serializers.py] and [api/views.py].  The
    tables of the relational store are lists of records, each with the
    sequence its keys come from; a request payload is a finite map from
    field names to values, a string being the bytes of its UTF-8
    encoding; and every handler is a function from the store to a
    response and the store it leaves behind.

    What the handlers call into but do not define is kept apart:
    - the Django / REST framework behaviour they rely on (exception to
      status mapping, serializer field handling, the generic view mixins),
      written out in the modules [str], [http], [serializers],
      [shortcuts], [permissions] and [viewsets];
    - declarations of the project that live outside the files embedded here
      ([users/models.py], [users/validators.py], [api/permissions.py], the
      first migration) and framework functions whose result is opaque
      (token generation), taken as the fields of the classes [UsersApp],
      [Permissions] and [Django]. *)

From Stdlib Require Import ZArith NArith QArith Ascii String List Lia.
From stdpp Require Import base option list sorting gmap strings.

Local Open Scope string_scope.
Local Open Scope list_scope.
Local Open Scope Z_scope.

(** ** HTTP responses and framework exceptions *)

Module status.
Definition HTTP_200_OK : Z := 200.
Definition HTTP_201_CREATED : Z := 201.
Definition HTTP_204_NO_CONTENT : Z := 204.
Definition HTTP_400_BAD_REQUEST : Z := 400.
Definition HTTP_401_UNAUTHORIZED : Z := 401.
Definition HTTP_403_FORBIDDEN : Z := 403.
Definition HTTP_404_NOT_FOUND : Z := 404.
Definition HTTP_405_METHOD_NOT_ALLOWED : Z := 405.
Definition HTTP_500_INTERNAL_SERVER_ERROR : Z := 500.
End status.

(** The exceptions a handler can raise; [ValidationError] carries its
    detail (the messages, or the names of the failing fields), and
    [ServerError] stands for any Python exception the framework does not
    map to a response of its own. *)
Inductive APIException :=
| ValidationError (detail : list string)
| Http404
| NotAuthenticated
| PermissionDenied
| MethodNotAllowed
| ServerError.

(** A computation that returns or raises. *)
Inductive result (A : Type) :=
| Return (a : A)
| Raise (e : APIException).
Arguments Return {A} a.
Arguments Raise {A} e.

#[global] Instance result_ret : MRet result := λ A a, Return a.
#[global] Instance result_bind : MBind result := λ A B k m,
  match m with
  | Return a => k a
  | Raise e => Raise e
  end.

Definition is_validation_error {A} (m : result A) : bool :=
  match m with
  | Raise (ValidationError _) => true
  | _ => false
  end.

(** ** The data model *)

Record User := {
  user_pk : Z;
  username : string;
  email : string;
  first_name : string;
  last_name : string;
  bio : string;
  role : string
}.

Record Title := {
  title_pk : Z;
  title_name : string;
  title_year : Z;
  title_description : string;
  title_category : option string;
  title_genre : list string
}.

Record Review := {
  review_pk : Z;
  review_text : string;
  review_author : Z;
  review_score : Z;
  review_title : Z
}.

Record Comment := {
  comment_pk : Z;
  comment_text : string;
  comment_author : Z;
  comment_review : Z
}.

(** An e-mail handed to [send_mail]. *)
Record Mail := {
  mail_subject : string;
  mail_message : string;
  mail_recipient_list : list string
}.

(** The store: the four tables the handlers touch, the outbox of the
    mail backend, and the key sequence of each table (the last key it
    handed out, by the name of the table). *)
Record Store := {
  users : list User;
  titles : list Title;
  reviews : list Review;
  comments : list Comment;
  outbox : list Mail;
  sequences : gmap string Z
}.

Definition set_users (f : list User → list User) (st : Store) : Store :=
  {| users := f (users st); titles := titles st; reviews := reviews st;
     comments := comments st; outbox := outbox st;
     sequences := sequences st |}.

Definition set_reviews (f : list Review → list Review) (st : Store) : Store :=
  {| users := users st; titles := titles st; reviews := f (reviews st);
     comments := comments st; outbox := outbox st;
     sequences := sequences st |}.

Definition set_comments (f : list Comment → list Comment) (st : Store) : Store :=
  {| users := users st; titles := titles st; reviews := reviews st;
     comments := f (comments st); outbox := outbox st;
     sequences := sequences st |}.

Definition set_outbox (f : list Mail → list Mail) (st : Store) : Store :=
  {| users := users st; titles := titles st; reviews := reviews st;
     comments := comments st; outbox := f (outbox st);
     sequences := sequences st |}.

(** The last key the sequence of a table handed out; 0 before the first. *)
Definition sequence (table : string) (st : Store) : Z :=
  default 0 (sequences st !! table).

Definition set_sequence (table : string) (key : Z) (st : Store) : Store :=
  {| users := users st; titles := titles st; reviews := reviews st;
     comments := comments st; outbox := outbox st;
     sequences := <[table := key]> (sequences st) |}.

(** The primary key an insert into a table receives, the sequence having
    handed out [last] before: one past the largest key the table has ever
    held, be it handed out by the sequence or stored with a row.  The key
    of a deleted row is not handed out again. *)
Definition next_pk {A} (pk : A → Z) (rows : list A) (last : Z) : Z :=
  1 + Z.max last (fold_right Z.max 0 (map pk rows)).

(** A value of a JSON payload, as far as the review and comment
    serializers look at it. *)
Inductive Value :=
| VStr (s : string)
| VInt (z : Z).

(** The response body shapes the handlers produce. *)
Inductive Body :=
| Data (d : gmap string string)
| Detail (errors : list string)
| Text (s : string)
| Values (d : gmap string Value)
| Reviews (rs : list Review)
| Comments (cs : list Comment)
| Empty.

Record Response := {
  status_code : Z;
  body : Body
}.

Module http.
(** [rest_framework.views.exception_handler]: the status each raised
    exception is answered with. *)
Definition exception_handler (e : APIException) : Response :=
  match e with
  | ValidationError detail =>
      {| status_code := status.HTTP_400_BAD_REQUEST; body := Detail detail |}
  | Http404 =>
      {| status_code := status.HTTP_404_NOT_FOUND; body := Detail ["Not found."] |}
  | NotAuthenticated =>
      {| status_code := status.HTTP_401_UNAUTHORIZED; body := Detail [] |}
  | PermissionDenied =>
      {| status_code := status.HTTP_403_FORBIDDEN; body := Detail [] |}
  | MethodNotAllowed =>
      {| status_code := status.HTTP_405_METHOD_NOT_ALLOWED; body := Detail [] |}
  | ServerError =>
      {| status_code := status.HTTP_500_INTERNAL_SERVER_ERROR; body := Empty |}
  end.

(** [django.http.HttpResponseBadRequest]. *)
Definition HttpResponseBadRequest (content : string) : Response :=
  {| status_code := 400; body := Text content |}.

(** A handler's outcome as the client sees it. *)
Definition respond {S} (st : S) (m : result (Response * S)) : Response * S :=
  match m with
  | Return r => r
  | Raise e => (exception_handler e, st)
  end.
End http.

(** ** Python strings *)

(** A [str] is held as the bytes of its UTF-8 encoding. *)
Module str.
Definition code (a : ascii) : N := N_of_ascii a.

(** The characters [str.isspace] holds of, by their encoding: U+0009 to
    U+000D and U+001C to U+0020 in one byte; U+0085 and U+00A0 in two;
    U+1680, U+2000 to U+200A, U+2028, U+2029, U+202F, U+205F and U+3000
    in three. *)
Definition space1 (a : ascii) : bool :=
  ((9 <=? code a) && (code a <=? 13) || (28 <=? code a) && (code a <=? 32))%N.

Definition space2 (a b : ascii) : bool :=
  ((code a =? 194) && ((code b =? 133) || (code b =? 160)))%N.

Definition space3 (a b c : ascii) : bool :=
  ((code a =? 225) && (code b =? 154) && (code c =? 128)
   || (code a =? 226) && (code b =? 128)
      && ((128 <=? code c) && (code c <=? 138)
          || (code c =? 168) || (code c =? 169) || (code c =? 175))
   || (code a =? 226) && (code b =? 129) && (code c =? 159)
   || (code a =? 227) && (code b =? 128) && (code c =? 128))%N.

Section stripping.
Variable sp1 : ascii → bool.
Variable sp2 : ascii → ascii → bool.
Variable sp3 : ascii → ascii → ascii → bool.


(** The bytes past the leading white-space characters. *)
Fixpoint strip_leading (l : list ascii) : list ascii :=
  match l with
  | a :: l1 =>
      if sp1 a then strip_leading l1
      else
        match l1 with
        | b :: l2 =>
            if sp2 a b then strip_leading l2
            else
              match l2 with
              | c :: l3 => if sp3 a b c then strip_leading l3 else l
              | [] => l
              end
        | [] => l
        end
  | [] => l
  end.
End stripping.

Definition lstrip (l : list ascii) : list ascii :=
  strip_leading space1 space2 space3 l.

(** The trailing white space is the leading white space of the reversed
    bytes, each character read backwards. *)
Definition rstrip (l : list ascii) : list ascii :=
  rev (strip_leading space1 (λ b a, space2 a b) (λ c b a, space3 a b c)
         (rev l)).

(** [str.strip()] *)
Definition strip (s : string) : string :=
  string_of_list_ascii (rstrip (lstrip (list_ascii_of_string s))).

(** [len(s)]: the number of characters, which is the number of bytes that
    do not continue a character. *)
Definition len (s : string) : nat :=
  length (List.filter (λ a, negb ((128 <=? code a) && (code a <=? 191))%N)
            (list_ascii_of_string s)).

(** The string holds the null character. *)
Definition has_null (s : string) : bool :=
  existsb (λ a, (code a =? 0)%N) (list_ascii_of_string s).

(** The string holds a surrogate (U+D800 to U+DFFF): the byte 237
    followed by one from 160 on. *)
Fixpoint surrogate_in (l : list ascii) : bool :=
  match l with
  | a :: l1 =>
      match l1 with
      | b :: _ => ((code a =? 237) && (160 <=? code b))%N || surrogate_in l1
      | [] => false
      end
  | [] => false
  end.

Definition has_surrogate (s : string) : bool :=
  surrogate_in (list_ascii_of_string s).
End str.

(** ** Serializer machinery of the REST framework *)

Module serializers.
Section fields.
Context {V : Type}.

(** A serializer class as its [Meta] gives it: the field names, and which
    of them are read-only ([read_only_fields], or [read_only=True] on a
    declared field). *)
Record Meta := {
  fields : list string;
  read_only : list string
}.

(** What the fields do with an input value: which are required, and the
    field's own validation ([None] is a validation error on that field). *)
Record Rules := {
  required : string → bool;
  run_validation : string → V → option V
}.

Definition writable_fields (m : Meta) : list string :=
  filter (λ f, f ∉ read_only m) (fields m).

(** [Serializer.to_internal_value]: every writable field is looked up in
    the payload; an absent one is skipped under [partial], an error when
    required; a present one is validated.  Returns the failing fields and
    the validated data. *)
Fixpoint to_internal_value (r : Rules) (partial : bool) (fs : list string)
    (data : gmap string V) : list string * gmap string V :=
  match fs with
  | [] => ([], ∅)
  | f :: fs' =>
      let '(errors, ret) := to_internal_value r partial fs' data in
      match data !! f with
      | None =>
          if negb partial && required r f then (f :: errors, ret)
          else (errors, ret)
      | Some v =>
          match run_validation r f v with
          | Some v' => (errors, <[f := v']> ret)
          | None => (f :: errors, ret)
          end
      end
  end.

(** [is_valid(raise_exception=True)], up to the object-level [validate]
    hook: the validated data, or a [ValidationError] naming the fields. *)
Definition is_valid (m : Meta) (r : Rules) (partial : bool)
    (data : gmap string V) : result (gmap string V) :=
  match to_internal_value r partial (writable_fields m) data with
  | ([], ret) => Return ret
  | (errors, _) => Raise (ValidationError errors)
  end.
End fields.
Arguments Rules V : clear implicits.

(** [CharField.run_validation] with the field's defaults
    ([trim_whitespace=True], [allow_blank=False]): the value is trimmed;
    a value that is blank once trimmed is an error, and so is one with a
    null character or a surrogate (the two validators every [CharField]
    carries). *)
Definition CharField (data : string) : option string :=
  let value := str.strip data in
  if bool_decide (value = "") then None
  else if str.has_null value || str.has_surrogate value then None
  else Some value.
End serializers.

(** ** Requests *)

(** What a handler reads of a request: the HTTP method, the authenticated
    user ([None] for an anonymous request) and the parsed payload. *)
Record Request (V : Type) := {
  method : string;
  user : option User;
  data : gmap string V
}.
Arguments method {V} _.
Arguments user {V} _.
Arguments data {V} _.

(** [self.kwargs]: the numeric captures of the URL ([title_id],
    [review_id], [pk]). *)
Abbreviation Kwargs := (gmap string Z).

Definition SAFE_METHODS : list string := ["GET"; "HEAD"; "OPTIONS"].

(** ** Declarations outside the embedded files *)

(** The users app: [users/models.py], [users/validators.py] and the first
    migration. *)
Class UsersApp := {
  (** the [is_admin] property of the user model *)
  is_admin : User → bool;
  (** [users.validators.username_validation] accepts the name *)
  username_validation : string → bool;
  (** validation of the profile fields the first migration declares
      ([email], [first_name], [last_name], [bio]), the trimming of the
      field included: the users table, the primary key of the instance
      being updated if any, the field, the value *)
  profile_field : list User → option Z → string → string → option string;
  (** whether the serializer field derived for [email] is required *)
  email_required : bool
}.

(** The reviews app: the field declarations of [reviews/models.py] the
    review and comment serializers are derived from. *)
Class ReviewsApp := {
  (** the model field behind [text]: the validated text, as the field
      hands it on *)
  text_field : Value → option string;
  (** the model field behind [score]: the validated integer *)
  score_field : Value → option Z;
  (** [Review.delete()], with what the model declares for dependent rows *)
  review_delete : Review → Store → Store
}.

(** [api/permissions.py]. *)
Class Permissions := {
  author_moderator_admin_has_permission : string → option User → bool;
  author_moderator_admin_has_object_permission :
    string → option User → Z → bool
}.

(** Framework functions whose results are opaque: the token generator of
    [django.contrib.auth.tokens] read at a clock value, the access token
    of [rest_framework_simplejwt], and the e-mail normalisation of the
    user manager. *)
Class Django := {
  make_token : Z → User → string;
  check_token : Z → User → string → bool;
  access_token_for_user : Z → User → string;
  normalize_email : string → string
}.

(** ** api/serializers.py *)

Module ReviewSerializer.
Section with_apps.
Context `{ReviewsApp}.

Definition Meta : serializers.Meta := {|
  serializers.fields := ["id"; "text"; "author"; "score"; "pub_date"; "title"];
  (* [author] and [title] are declared read-only; [id] and [pub_date] are
     set by the store *)
  serializers.read_only := ["id"; "author"; "pub_date"; "title"]
|}.

(** The view's part of the serializer context. *)
Record Context := {
  request : Request Value;
  kwargs : Kwargs
}.

(** [Review.objects.filter(author=author, title=title_id).exists()] *)
Definition review_exists (author : User) (title_id : option Z)
    (st : Store) : bool :=
  existsb
    (λ r, bool_decide (review_author r = user_pk author)
          && bool_decide (Some (review_title r) = title_id))
    (reviews st).

(** [ReviewSerializer.validate] *)
Definition validate {D} (ctx : Context) (st : Store) (data : D) : result D :=
  if negb (bool_decide (method (request ctx) = "POST")) then Return data
  else
    match user (request ctx) with
    | None => Raise ServerError
    | Some author =>
        let title_id := kwargs ctx !! "title_id" in
        if review_exists author title_id st then
          Raise (ValidationError
                   ["Вы уже оставляли отзыв на это произведение"])
        else Return data
    end.

(** [ReviewSerializer.validate_score] *)
Definition validate_score (value : Z) : result Z :=
  if negb ((1 <=? value) && (value <=? 10)) then
    Raise (ValidationError ["Оценка может быть только от 1 до 10"])
  else Return value.

(** The field handling the serializer derives from the model, with the
    [validate_score] hook run on the validated score. *)
Definition rules : serializers.Rules Value := {|
  serializers.required := λ f, bool_decide (f ∈ ["text"; "score"]);
  serializers.run_validation := λ f v,
    if bool_decide (f = "text") then VStr <$> text_field v
    else if bool_decide (f = "score") then
      z ← score_field v;
      match validate_score z with
      | Return z' => Some (VInt z')
      | Raise _ => None
      end
    else None
|}.

(** [serializer.is_valid(raise_exception=True)]: the fields, then
    [validate]. *)
Definition is_valid (ctx : Context) (partial : bool) (st : Store)
    : result (gmap string Value) :=
  attrs ← serializers.is_valid Meta rules partial (data (request ctx));
  validate ctx st attrs.
End with_apps.
End ReviewSerializer.

Module CommentSerializer.
Section with_apps.
Context `{ReviewsApp}.

Definition Meta : serializers.Meta := {|
  serializers.fields := ["id"; "text"; "author"; "pub_date"];
  serializers.read_only := ["id"; "author"; "pub_date"]
|}.

Definition rules : serializers.Rules Value := {|
  serializers.required := λ f, bool_decide (f = "text");
  serializers.run_validation := λ f v,
    if bool_decide (f = "text") then VStr <$> text_field v else None
|}.

Definition is_valid (req : Request Value) (partial : bool)
    : result (gmap string Value) :=
  serializers.is_valid Meta rules partial (data req).
End with_apps.
End CommentSerializer.

(** ** Lookups of the object-relational mapper *)

Module shortcuts.
(** [get_object_or_404(Title, id=title_id)]; an absent [title_id] is the
    lookup [id=None], which matches no row. *)
Definition get_title_or_404 (title_id : option Z) (st : Store) : result Title :=
  match title_id with
  | None => Raise Http404
  | Some i =>
      match find (λ t, bool_decide (title_pk t = i)) (titles st) with
      | Some t => Return t
      | None => Raise Http404
      end
  end.

(** [get_object_or_404(Review, id=review_id, title=title)] *)
Definition get_review_or_404 (review_id : option Z) (title : Title)
    (st : Store) : result Review :=
  match review_id with
  | None => Raise Http404
  | Some i =>
      match find (λ r, bool_decide (review_pk r = i)
                       && bool_decide (review_title r = title_pk title))
                 (reviews st) with
      | Some r => Return r
      | None => Raise Http404
      end
  end.

(** [get_object_or_404(User, username=name)] *)
Definition get_user_or_404 (name : string) (st : Store) : result User :=
  match find (λ u, bool_decide (username u = name)) (users st) with
  | Some u => Return u
  | None => Raise Http404
  end.

(** [get_object_or_404(queryset, pk=pk)], as [GenericAPIView.get_object]
    calls it on the view's queryset. *)
Definition get_by_pk_or_404 {A} (pk_of : A → Z) (pk : option Z)
    (queryset : list A) : result A :=
  match pk with
  | None => Raise Http404
  | Some i =>
      match find (λ a, bool_decide (pk_of a = i)) queryset with
      | Some a => Return a
      | None => Raise Http404
      end
  end.
End shortcuts.

(** ** api/views.py: the nested review and comment endpoints *)

Module ReviewViewSet.
(** [serializer.save(author=..., title=...)] on a new review: the
    validated [text] and [score] with the two given references. *)
Definition save (attrs : gmap string Value) (author : User) (title : Title)
    (st : Store) : result (Review * Store) :=
  match attrs !! "text", attrs !! "score" with
  | Some (VStr text), Some (VInt score) =>
      let r := {| review_pk :=
                    next_pk review_pk (reviews st) (sequence "reviews" st);
                  review_text := text; review_author := user_pk author;
                  review_score := score; review_title := title_pk title |} in
      Return (r, set_reviews (λ rs, rs ++ [r])
                   (set_sequence "reviews" (review_pk r) st))
  | _, _ => Raise ServerError
  end.

(** [ReviewViewSet.perform_create] *)
Definition perform_create (req : Request Value) (kwargs : Kwargs)
    (attrs : gmap string Value) (st : Store) : result (Review * Store) :=
  let title_id := kwargs !! "title_id" in
  title ← shortcuts.get_title_or_404 title_id st;
  match user req with
  | Some author => save attrs author title st
  | None => Raise ServerError
  end.

(** [ReviewViewSet.get_queryset] *)
Definition get_queryset (kwargs : Kwargs) (st : Store) : result (list Review) :=
  let title_id := kwargs !! "title_id" in
  title ← shortcuts.get_title_or_404 title_id st;
  Return (filter (λ r, review_title r = title_pk title) (reviews st)).
End ReviewViewSet.

Module CommentViewSet.
Definition save (attrs : gmap string Value) (author : User) (review : Review)
    (st : Store) : result (Comment * Store) :=
  match attrs !! "text" with
  | Some (VStr text) =>
      let c := {| comment_pk :=
                    next_pk comment_pk (comments st) (sequence "comments" st);
                  comment_text := text; comment_author := user_pk author;
                  comment_review := review_pk review |} in
      Return (c, set_comments (λ cs, cs ++ [c])
                   (set_sequence "comments" (comment_pk c) st))
  | _ => Raise ServerError
  end.

(** [CommentViewSet.perform_create] *)
Definition perform_create (req : Request Value) (kwargs : Kwargs)
    (attrs : gmap string Value) (st : Store) : result (Comment * Store) :=
  let title_id := kwargs !! "title_id" in
  title ← shortcuts.get_title_or_404 title_id st;
  let review_id := kwargs !! "review_id" in
  review ← shortcuts.get_review_or_404 review_id title st;
  match user req with
  | Some author => save attrs author review st
  | None => Raise ServerError
  end.

(** [CommentViewSet.get_queryset] *)
Definition get_queryset (kwargs : Kwargs) (st : Store) : result (list Comment) :=
  let title_id := kwargs !! "title_id" in
  title ← shortcuts.get_title_or_404 title_id st;
  let review_id := kwargs !! "review_id" in
  review ← shortcuts.get_review_or_404 review_id title st;
  Return (filter (λ c, comment_review c = review_pk review) (comments st)).
End CommentViewSet.

(** ** The generic views of the REST framework *)

Module permissions.
(** A permission class. *)
Record Permission := {
  has_permission : string → option User → bool;
  has_object_permission : string → option User → Z → bool
}.

(** [rest_framework.permissions.IsAuthenticatedOrReadOnly] *)
Definition IsAuthenticatedOrReadOnly : Permission := {|
  has_permission := λ m u, bool_decide (m ∈ SAFE_METHODS) || bool_decide (is_Some u);
  has_object_permission := λ _ _ _, true
|}.

(** [api.permissions.IsAuthorModeratorAdminOrReadOnly] *)
Definition IsAuthorModeratorAdminOrReadOnly `{Permissions} : Permission := {|
  has_permission := author_moderator_admin_has_permission;
  has_object_permission := author_moderator_admin_has_object_permission
|}.

(** [APIView.permission_denied]: an anonymous request is answered 401, an
    authenticated one 403. *)
Definition permission_denied {A} (u : option User) : result A :=
  match u with
  | None => Raise NotAuthenticated
  | Some _ => Raise PermissionDenied
  end.

(** [APIView.check_permissions] *)
Definition check_permissions {V} (ps : list Permission) (req : Request V)
    : result unit :=
  if forallb (λ p, has_permission p (method req) (user req)) ps
  then Return tt else permission_denied (user req).

(** [APIView.check_object_permissions]; the object is seen through its
    author. *)
Definition check_object_permissions {V} (ps : list Permission)
    (req : Request V) (author : Z) : result unit :=
  if forallb (λ p, has_object_permission p (method req) (user req) author) ps
  then Return tt else permission_denied (user req).
End permissions.

Module viewsets.
(** The actions a [ModelViewSet] routes to. *)
Inductive Action :=
| List_
| Create
| Retrieve
| Update
| PartialUpdate
| Destroy.

(** The router's table: the method and whether the URL names an object;
    HEAD is served by the handler of GET. *)
Definition route (m : string) (detail : bool) : option Action :=
  let get := bool_decide (m = "GET") || bool_decide (m = "HEAD") in
  if detail then
    if get then Some Retrieve
    else if bool_decide (m = "PUT") then Some Update
    else if bool_decide (m = "PATCH") then Some PartialUpdate
    else if bool_decide (m = "DELETE") then Some Destroy
    else None
  else
    if get then Some List_
    else if bool_decide (m = "POST") then Some Create
    else None.

Section model_viewset.
Context {Obj : Type}.

(** What a [ModelViewSet] subclass provides or inherits. *)
Record ViewSet := {
  permission_classes : list permissions.Permission;
  get_queryset : Kwargs → Store → result (list Obj);
  is_valid : Request Value → Kwargs → bool → Store → result (gmap string Value);
  perform_create :
    Request Value → Kwargs → gmap string Value → Store → result (Obj * Store);
  perform_update : Obj → gmap string Value → Store → Obj * Store;
  perform_destroy : Obj → Store → Store;
  pk_of : Obj → Z;
  author_of : Obj → Z;
  render : list Obj → Body
}.

(** [GenericAPIView.get_object] *)
Definition get_object (vs : ViewSet) (req : Request Value) (kwargs : Kwargs)
    (st : Store) : result Obj :=
  queryset ← get_queryset vs kwargs st;
  obj ← shortcuts.get_by_pk_or_404 (pk_of vs) (kwargs !! "pk") queryset;
  _ ← permissions.check_object_permissions (permission_classes vs) req
        (author_of vs obj);
  Return obj.

(** [CreateModelMixin.create] *)
Definition create (vs : ViewSet) (req : Request Value) (kwargs : Kwargs)
    (st : Store) : result (Response * Store) :=
  attrs ← is_valid vs req kwargs false st;
  '(obj, st') ← perform_create vs req kwargs attrs st;
  Return ({| status_code := status.HTTP_201_CREATED; body := render vs [obj] |}, st').

(** [ListModelMixin.list] *)
Definition list_ (vs : ViewSet) (req : Request Value) (kwargs : Kwargs)
    (st : Store) : result (Response * Store) :=
  queryset ← get_queryset vs kwargs st;
  Return ({| status_code := status.HTTP_200_OK; body := render vs queryset |}, st).

(** [RetrieveModelMixin.retrieve] *)
Definition retrieve (vs : ViewSet) (req : Request Value) (kwargs : Kwargs)
    (st : Store) : result (Response * Store) :=
  obj ← get_object vs req kwargs st;
  Return ({| status_code := status.HTTP_200_OK; body := render vs [obj] |}, st).

(** [UpdateModelMixin.update] and [partial_update] *)
Definition update (vs : ViewSet) (partial : bool) (req : Request Value)
    (kwargs : Kwargs) (st : Store) : result (Response * Store) :=
  instance ← get_object vs req kwargs st;
  attrs ← is_valid vs req kwargs partial st;
  let '(obj, st') := perform_update vs instance attrs st in
  Return ({| status_code := status.HTTP_200_OK; body := render vs [obj] |}, st').

(** [DestroyModelMixin.destroy] *)
Definition destroy (vs : ViewSet) (req : Request Value) (kwargs : Kwargs)
    (st : Store) : result (Response * Store) :=
  instance ← get_object vs req kwargs st;
  Return ({| status_code := status.HTTP_204_NO_CONTENT; body := Empty |},
          perform_destroy vs instance st).

(** [APIView.dispatch]: check the view's permissions, then run the action
    the request is routed to; OPTIONS is answered with the view's
    metadata, any other method with 405. *)
Definition handle (vs : ViewSet) (req : Request Value) (kwargs : Kwargs)
    (st : Store) : result (Response * Store) :=
  _ ← permissions.check_permissions (permission_classes vs) req;
  match route (method req) (bool_decide (is_Some (kwargs !! "pk"))) with
  | Some List_ => list_ vs req kwargs st
  | Some Create => create vs req kwargs st
  | Some Retrieve => retrieve vs req kwargs st
  | Some Update => update vs false req kwargs st
  | Some PartialUpdate => update vs true req kwargs st
  | Some Destroy => destroy vs req kwargs st
  | None =>
      if bool_decide (method req = "OPTIONS") then
        Return ({| status_code := status.HTTP_200_OK; body := Empty |}, st)
      else Raise MethodNotAllowed
  end.

(** The answer the client gets: an exception goes through the exception
    handler and leaves the store as it was. *)
Definition dispatch (vs : ViewSet) (req : Request Value) (kwargs : Kwargs)
    (st : Store) : Response * Store :=
  http.respond st (handle vs req kwargs st).
End model_viewset.
Arguments ViewSet Obj : clear implicits.
End viewsets.

(** The two nested viewsets as the generic views see them. *)
Module endpoints.
Section with_apps.
Context `{ReviewsApp} `{Permissions}.

Definition review_update (r : Review) (attrs : gmap string Value)
    (st : Store) : Review * Store :=
  let r' := {| review_pk := review_pk r;
               review_text := match attrs !! "text" with
                              | Some (VStr t) => t
                              | _ => review_text r
                              end;
               review_author := review_author r;
               review_score := match attrs !! "score" with
                               | Some (VInt z) => z
                               | _ => review_score r
                               end;
               review_title := review_title r |} in
  (r', set_reviews
         (map (λ x, if bool_decide (review_pk x = review_pk r) then r' else x))
         st).

Definition comment_update (c : Comment) (attrs : gmap string Value)
    (st : Store) : Comment * Store :=
  let c' := {| comment_pk := comment_pk c;
               comment_text := match attrs !! "text" with
                               | Some (VStr t) => t
                               | _ => comment_text c
                               end;
               comment_author := comment_author c;
               comment_review := comment_review c |} in
  (c', set_comments
         (map (λ x, if bool_decide (comment_pk x = comment_pk c) then c' else x))
         st).

Definition permission_classes : list permissions.Permission :=
  [permissions.IsAuthenticatedOrReadOnly;
   permissions.IsAuthorModeratorAdminOrReadOnly].

Definition review_viewset : viewsets.ViewSet Review := {|
  viewsets.permission_classes := permission_classes;
  viewsets.get_queryset := ReviewViewSet.get_queryset;
  viewsets.is_valid := λ req kwargs partial st,
    ReviewSerializer.is_valid
      {| ReviewSerializer.request := req; ReviewSerializer.kwargs := kwargs |}
      partial st;
  viewsets.perform_create := ReviewViewSet.perform_create;
  viewsets.perform_update := review_update;
  viewsets.perform_destroy := review_delete;
  viewsets.pk_of := review_pk;
  viewsets.author_of := review_author;
  viewsets.render := Reviews
|}.

Definition comment_viewset : viewsets.ViewSet Comment := {|
  viewsets.permission_classes := permission_classes;
  viewsets.get_queryset := CommentViewSet.get_queryset;
  viewsets.is_valid := λ req _ partial _, CommentSerializer.is_valid req partial;
  viewsets.perform_create := CommentViewSet.perform_create;
  viewsets.perform_update := comment_update;
  viewsets.perform_destroy := λ c,
    set_comments (filter (λ x, comment_pk x ≠ comment_pk c));
  viewsets.pk_of := comment_pk;
  viewsets.author_of := comment_author;
  viewsets.render := Comments
|}.
End with_apps.
End endpoints.

(** ** api/serializers.py: the user serializers *)

Module UserSerializer.
Section with_apps.
Context `{UsersApp}.

Definition Meta : serializers.Meta := {|
  serializers.fields :=
    ["username"; "email"; "first_name"; "last_name"; "bio"; "role"];
  serializers.read_only := []
|}.

(** The [choices] of [role] in migration 0002. *)
Definition role_choices : list string := ["user"; "moderator"; "admin"].

(** The [UniqueValidator] the serializer derives from [unique=True]: no
    other row carries the value. *)
Definition username_is_unique (table : list User) (instance : option Z)
    (value : string) : bool :=
  negb (existsb
          (λ u, bool_decide (username u = value)
                && negb (bool_decide (Some (user_pk u) = instance)))
          table).

(** The fields derived from the user model.  [username] and [role] are
    declared by migration 0002: [username] is a [CharField] whose trimmed
    value has at most 150 characters, passes [username_validation] and is
    unique; [role] is one of the choices or blank.  The other fields are
    declared elsewhere. *)
Definition rules (table : list User) (instance : option Z)
    : serializers.Rules string := {|
  serializers.required := λ f,
    if bool_decide (f = "username") then true
    else if bool_decide (f = "email") then email_required
    else false;
  serializers.run_validation := λ f v,
    if bool_decide (f = "username") then
      value ← serializers.CharField v;
      if (str.len value <=? 150)%nat
         && username_validation value
         && username_is_unique table instance value
      then Some value else None
    else if bool_decide (f = "role") then
      if bool_decide (v ∈ role_choices) || bool_decide (v = "")
      then Some v else None
    else profile_field table instance f v
|}.

(** [setattr(instance, attr, value)] *)
Definition setattr (u : User) (attr value : string) : User :=
  let pick name old := if bool_decide (attr = name) then value else old in
  {| user_pk := user_pk u;
     username := pick "username" (username u);
     email := pick "email" (email u);
     first_name := pick "first_name" (first_name u);
     last_name := pick "last_name" (last_name u);
     bio := pick "bio" (bio u);
     role := pick "role" (role u) |}.

(** [getattr(instance, attr)] on the serialized fields. *)
Definition getattr (u : User) (attr : string) : option string :=
  if bool_decide (attr = "username") then Some (username u)
  else if bool_decide (attr = "email") then Some (email u)
  else if bool_decide (attr = "first_name") then Some (first_name u)
  else if bool_decide (attr = "last_name") then Some (last_name u)
  else if bool_decide (attr = "bio") then Some (bio u)
  else if bool_decide (attr = "role") then Some (role u)
  else None.

(** [ModelSerializer.update]: every validated attribute is set on the
    instance; the validated data holds them in the order of the fields. *)
Definition update (m : serializers.Meta) (instance : User)
    (validated_data : gmap string string) : User :=
  foldl
    (λ u attr,
       match validated_data !! attr with
       | Some value => setattr u attr value
       | None => u
       end)
    instance (serializers.writable_fields m).

(** [instance.save()]: the row with the instance's key is overwritten. *)
Definition save_row (u : User) (st : Store) : Store :=
  set_users (map (λ x, if bool_decide (user_pk x = user_pk u) then u else x)) st.

(** [serializer.data] of an instance. *)
Definition to_representation (m : serializers.Meta) (u : User)
    : gmap string string :=
  list_to_map
    (omap (λ f, pair f <$> getattr u f) (serializers.fields m)).
End with_apps.
End UserSerializer.

(** [ReadOnlyRole(UserSerializer)] *)
Module ReadOnlyRole.
Definition Meta : serializers.Meta := {|
  serializers.fields := serializers.fields UserSerializer.Meta;
  serializers.read_only := ["role"]
|}.
End ReadOnlyRole.

Module SignupSerializer.
Definition Meta : serializers.Meta := {|
  serializers.fields := ["username"; "email"];
  serializers.read_only := []
|}.

(** The serializer is unbound: the fields are those of the user model
    with no instance to spare from the uniqueness check. *)
Definition is_valid `{UsersApp} (data : gmap string string) (st : Store)
    : result (gmap string string) :=
  serializers.is_valid Meta (UserSerializer.rules (users st) None) false data.
End SignupSerializer.

Module TokenSerializer.
Definition Meta : serializers.Meta := {|
  serializers.fields := ["username"; "confirmation_code"];
  serializers.read_only := []
|}.

(** Both fields are declared [CharField(required=True)]: required,
    trimmed and not blank. *)
Definition rules : serializers.Rules string := {|
  serializers.required := λ _, true;
  serializers.run_validation := λ _ v, serializers.CharField v
|}.

Definition is_valid (data : gmap string string)
    : result (gmap string string) :=
  serializers.is_valid Meta rules false data.
End TokenSerializer.

(** ** api/views.py: users, signup and token *)

Module UserViewSet.
Section with_apps.
Context `{UsersApp}.

(** [UserViewSet.get_user_info], the [me] action as its decorator binds
    it: the permission class is [IsAuthenticated] and the methods are GET
    and PATCH, any other being answered 405. *)
Definition get_user_info (req : Request string) (st : Store)
    : Response * Store :=
  match user req with
  | None => (http.exception_handler NotAuthenticated, st)
  | Some request_user =>
      if bool_decide (method req = "PATCH") then
        let serializer_class :=
          if is_admin request_user then UserSerializer.Meta
          else ReadOnlyRole.Meta in
        http.respond st (
          validated_data ←
            serializers.is_valid serializer_class
              (UserSerializer.rules (users st) (Some (user_pk request_user)))
              true (data req);
          let instance :=
            UserSerializer.update serializer_class request_user validated_data in
          Return
            ({| status_code := status.HTTP_200_OK;
                body := Data (UserSerializer.to_representation
                                serializer_class instance) |},
             UserSerializer.save_row instance st))
      else if bool_decide (method req = "GET") then
        ({| status_code := status.HTTP_200_OK;
            body := Data (UserSerializer.to_representation
                            UserSerializer.Meta request_user) |}, st)
      else (http.exception_handler MethodNotAllowed, st)
  end.
End with_apps.
End UserViewSet.

Module SignupView.
Section with_apps.
Context `{UsersApp} `{Django}.

(** A keyword of [filter(...)] against a column: the lookup [=None] is
    [IS NULL] and matches no row of a mandatory column. *)
Definition lookup_matches (value : option string) (column : string) : bool :=
  match value with
  | Some v => bool_decide (column = v)
  | None => false
  end.

(** [User.objects.create_user(username=..., email=...)]: a new row with
    the normalised e-mail and the defaults of the other fields (the role
    default is declared in migration 0002). *)
Definition create_user (name : string) (mail : option string) (st : Store)
    : User * Store :=
  let u := {| user_pk := next_pk user_pk (users st) (sequence "users" st);
              username := name;
              email := normalize_email (default "" mail);
              first_name := ""; last_name := ""; bio := "";
              role := "user" |} in
  (u, set_users (λ us, us ++ [u]) (set_sequence "users" (user_pk u) st)).

(** [send_mail(subject, message, None, recipient_list)] *)
Definition send_mail (subject message : string) (recipient_list : list string)
    (st : Store) : Store :=
  set_outbox
    (λ ms, ms ++ [{| mail_subject := subject; mail_message := message;
                     mail_recipient_list := recipient_list |}])
    st.

(** [SignupView.post], handled at clock value [now]. *)
Definition post (now : Z) (req : Request string) (st : Store)
    : Response * Store :=
  let username_and_email_exists :=
    existsb
      (λ u, lookup_matches (data req !! "username") (username u)
            && lookup_matches (data req !! "email") (email u))
      (users st) in
  if username_and_email_exists then
    ({| status_code := status.HTTP_200_OK; body := Data (data req) |}, st)
  else
    http.respond st (
      serializer_data ← SignupSerializer.is_valid (data req) st;
      match serializer_data !! "username" with
      | None => Raise ServerError
      | Some name =>
          let '(new_user, st1) :=
            create_user name (serializer_data !! "email") st in
          let confirmation_code := make_token now new_user in
          let email_message :=
            ("Привет, " ++ username new_user ++ "!"
             ++ "Твой код подтверждения: " ++ confirmation_code)%string in
          let st2 :=
            send_mail "Confirmation code for YaMDb" email_message
              [email new_user] st1 in
          Return ({| status_code := status.HTTP_200_OK;
                     body := Data serializer_data |}, st2)
      end).
End with_apps.
End SignupView.

Module GetTokenView.
Section with_apps.
Context `{Django}.

(** [GetTokenView.post], handled at clock value [now]. *)
Definition post (now : Z) (req : Request string) (st : Store)
    : Response * Store :=
  http.respond st (
    data ← TokenSerializer.is_valid (data req);
    match data !! "username", data !! "confirmation_code" with
    | Some name, Some confirmation_code =>
        user ← shortcuts.get_user_or_404 name st;
        if negb (check_token now user confirmation_code) then
          Return (http.HttpResponseBadRequest "Неверный код подтверждения", st)
        else
          let token := access_token_for_user now user in
          Return ({| status_code := status.HTTP_200_OK;
                     body := Data {[ "token" := token ]} |}, st)
    | _, _ => Raise ServerError
    end).
End with_apps.
End GetTokenView.

(** ** api/views.py and api/serializers.py: titles and their rating *)

Module TitleViewSet.
(** [Avg]: no value over no rows, else the sum over the count.  The
    database's average is taken exactly, as a rational. *)
Definition Avg (xs : list Z) : option Q :=
  match xs with
  | [] => None
  | _ => Some (Qmake (foldr Z.add 0 xs) (Pos.of_nat (length xs)))
  end.

(** The [reviews__score] of a title: the scores of the reviews whose
    [title] is this one. *)
Definition reviews__score (t : Title) (st : Store) : list Z :=
  map review_score (filter (λ r, review_title r = title_pk t) (reviews st)).

(** A row of the annotated queryset. *)
Record Annotated := {
  instance : Title;
  reviews__score__avg : option Q
}.

Definition annotate (st : Store) (t : Title) : Annotated :=
  {| instance := t; reviews__score__avg := Avg (reviews__score t st) |}.

Definition by_name (a b : Annotated) : Prop :=
  String.leb (title_name (instance a)) (title_name (instance b)) = true.

#[global] Instance by_name_dec a b : Decision (by_name a b).
Proof. unfold by_name. apply _. Defined.

(** [Title.objects.all().annotate(Avg('reviews__score')).order_by('name')] *)
Definition queryset (st : Store) : list Annotated :=
  merge_sort by_name (map (annotate st) (titles st)).

(** [TitleViewSet.get_serializer_class]: [true] stands for
    [GetTitleSerializer], [false] for [TitleSerializer]. *)
Definition get_serializer_class (action : string) : bool :=
  bool_decide (action ∈ ["list"; "retrieve"]).
End TitleViewSet.

Module TitleSerializer.
(** Modelled from the spec: the columns of a title ([fields = '__all__']
    over the model of [reviews/models.py]) are its name, year,
    description, category and genres, next to the key; [rating] is the
    declared field, read-only as declared. *)
Definition Meta : serializers.Meta := {|
  serializers.fields :=
    ["id"; "name"; "year"; "description"; "category"; "genre"; "rating"];
  serializers.read_only := ["id"; "rating"]
|}.

(** [IntegerField.to_representation]: Python's [int(value)], which drops
    the fractional part. *)
Definition IntegerField_to_representation (value : Q) : Z :=
  Z.quot (Qnum value) (Zpos (Qden value)).

(** The [rating] of a serialized row: the field reads the attribute
    [reviews__score__avg]; [None] is rendered as null. *)
Definition rating (row : TitleViewSet.Annotated) : option Z :=
  IntegerField_to_representation <$> TitleViewSet.reviews__score__avg row.
End TitleSerializer.

(** [GetTitleSerializer] declares the same fields, with [category] and
    [genre] read-only as well. *)
Module GetTitleSerializer.
Definition Meta : serializers.Meta := {|
  serializers.fields := serializers.fields TitleSerializer.Meta;
  serializers.read_only := ["id"; "category"; "genre"; "rating"]
|}.

Definition rating := TitleSerializer.rating.
End GetTitleSerializer.

(** ** A concrete project to run the handlers on *)

Module demo.
(** Admins are the users whose role is [admin]; the validator refuses the
    name [me]; the remaining profile fields accept any text, trimmed. *)
Definition users_app : UsersApp := {|
  is_admin := λ u, bool_decide (role u = "admin");
  username_validation := λ v, negb (bool_decide (v = "me"));
  profile_field := λ _ _ _ v, Some (str.strip v);
  email_required := true
|}.

Definition reviews_app : ReviewsApp := {|
  text_field := λ v,
    match v with VStr s => serializers.CharField s | VInt _ => None end;
  score_field := λ v, match v with VInt z => Some z | VStr _ => None end;
  review_delete := λ r,
    set_reviews (filter (λ x, review_pk x ≠ review_pk r))
|}.

Definition perms : Permissions := {|
  author_moderator_admin_has_permission := λ m u,
    bool_decide (m ∈ SAFE_METHODS) || bool_decide (is_Some u);
  author_moderator_admin_has_object_permission := λ m u author,
    bool_decide (m ∈ SAFE_METHODS)
    || match u with
       | Some x => bool_decide (user_pk x = author)
                   || bool_decide (role x ∈ ["moderator"; "admin"])
       | None => false
       end
|}.

(** A token generator in the shape of the framework's: the code is
    computed from the state of the user it is made for, and is accepted
    for a user whose state still yields it. *)
Definition django : Django := {|
  make_token := λ now u,
    (username u ++ "-" ++ email u)%string;
  check_token := λ now u code,
    bool_decide (code = (username u ++ "-" ++ email u)%string);
  access_token_for_user := λ now u, ("jwt-" ++ username u)%string;
  normalize_email := λ e, e
|}.

Definition alice : User := {|
  user_pk := 1; username := "alice"; email := "alice@example.com";
  first_name := ""; last_name := ""; bio := ""; role := "user"
|}.

Definition root : User := {|
  user_pk := 2; username := "root"; email := "root@example.com";
  first_name := ""; last_name := ""; bio := ""; role := "admin"
|}.

Definition film : Title := {|
  title_pk := 1; title_name := "Film"; title_year := 1999;
  title_description := ""; title_category := None; title_genre := []
|}.

Definition book : Title := {|
  title_pk := 2; title_name := "Book"; title_year := 1869;
  title_description := ""; title_category := None; title_genre := []
|}.

Definition review1 : Review := {|
  review_pk := 1; review_text := "fine"; review_author := 1;
  review_score := 1; review_title := 1
|}.

Definition review2 : Review := {|
  review_pk := 2; review_text := "good"; review_author := 2;
  review_score := 2; review_title := 1
|}.

Definition store : Store := {|
  users := [alice; root];
  titles := [film; book];
  reviews := [review1; review2];
  comments := [];
  outbox := [];
  sequences := {[ "users" := 2; "reviews" := 2 ]}
|}.
End demo.

(** ** api/views.py: the users, categories and genres viewsets *)

(** The answer of an endpoint that serializes one row or a list of rows. *)
Inductive Payload :=
| One (d : gmap string string)
| Many (ds : list (gmap string string))
| Errors (detail : list string)
| NoContent.

Record Answer := {
  answer_status : Z;
  answer_body : Payload
}.

(** What the exception handler answers, in that shape. *)
Definition answer_exception (e : APIException) : Answer :=
  {| answer_status := status_code (http.exception_handler e);
     answer_body := match e with
                    | ValidationError detail => Errors detail
                    | _ => NoContent
                    end |}.

Definition answer_of {S} (st : S) (m : result (Answer * S)) : Answer * S :=
  match m with
  | Return r => r
  | Raise e => (answer_exception e, st)
  end.

(** The rest of [api/permissions.py], the matching of the framework's
    [SearchFilter], and what deleting a user does to the store. *)
Class AdminApp := {
  is_admin_only : permissions.Permission;
  is_admin_or_read_only : permissions.Permission;
  search_matches : string → string → bool;
  user_delete : User → Store → Store
}.

(** [rest_framework.permissions.IsAuthenticated] *)
Definition IsAuthenticated : permissions.Permission := {|
  permissions.has_permission := λ _ u, bool_decide (is_Some u);
  permissions.has_object_permission := λ _ _ _, true
|}.

(** [UserViewSet], the actions it inherits from [ModelViewSet]. *)
Module UserViewSetActions.
Section with_apps.
Context `{UsersApp} `{AdminApp}.

(** The lookup of the URL ([lookup_field = 'username']) and the [search]
    query parameter, next to the request. *)
Record Call := {
  request : Request string;
  lookup : option string;
  search : option string
}.

Definition permission_classes : list permissions.Permission :=
  [IsAuthenticated; is_admin_only].

(** [http_method_names = ['post', 'get', 'patch', 'delete']] *)
Definition http_method_names : list string :=
  ["POST"; "GET"; "PATCH"; "DELETE"].

(** [filter_queryset] with [SearchFilter] over [search_fields =
    ('username',)]. *)
Definition filter_queryset (term : option string) (queryset : list User)
    : list User :=
  match term with
  | None => queryset
  | Some t => List.filter (λ u, search_matches t (username u)) queryset
  end.

(** [get_object]: the user with the username of the URL among the
    filtered queryset, or 404. *)
Definition get_object (c : Call) (st : Store) : result User :=
  match lookup c with
  | None => Raise Http404
  | Some name =>
      match find (λ u, bool_decide (username u = name))
                 (filter_queryset (search c) (users st)) with
      | None => Raise Http404
      | Some u =>
          _ ← permissions.check_object_permissions permission_classes
                (request c) (user_pk u);
          Return u
      end
  end.

(** [User.objects.create] on the validated data: a new row with the validated
    attributes over the defaults of the other fields. *)
Definition create_row (validated_data : gmap string string) (st : Store)
    : User * Store :=
  let blank := {| user_pk := next_pk user_pk (users st) (sequence "users" st);
                  username := ""; email := ""; first_name := "";
                  last_name := ""; bio := ""; role := "user" |} in
  let u := UserSerializer.update UserSerializer.Meta blank validated_data in
  (u, set_users (λ us, us ++ [u]) (set_sequence "users" (user_pk u) st)).

Definition list_ (c : Call) (st : Store) : result (Answer * Store) :=
  Return ({| answer_status := status.HTTP_200_OK;
             answer_body :=
               Many (map (UserSerializer.to_representation UserSerializer.Meta)
                       (filter_queryset (search c) (users st))) |}, st).

Definition create (c : Call) (st : Store) : result (Answer * Store) :=
  validated_data ←
    serializers.is_valid UserSerializer.Meta
      (UserSerializer.rules (users st) None) false (data (request c));
  let '(u, st') := create_row validated_data st in
  Return ({| answer_status := status.HTTP_201_CREATED;
             answer_body :=
               One (UserSerializer.to_representation UserSerializer.Meta u) |},
          st').

Definition retrieve (c : Call) (st : Store) : result (Answer * Store) :=
  u ← get_object c st;
  Return ({| answer_status := status.HTTP_200_OK;
             answer_body :=
               One (UserSerializer.to_representation UserSerializer.Meta u) |},
          st).

Definition partial_update (c : Call) (st : Store) : result (Answer * Store) :=
  instance ← get_object c st;
  validated_data ←
    serializers.is_valid UserSerializer.Meta
      (UserSerializer.rules (users st) (Some (user_pk instance))) true
      (data (request c));
  let u := UserSerializer.update UserSerializer.Meta instance validated_data in
  Return ({| answer_status := status.HTTP_200_OK;
             answer_body :=
               One (UserSerializer.to_representation UserSerializer.Meta u) |},
          UserSerializer.save_row u st).

Definition destroy (c : Call) (st : Store) : result (Answer * Store) :=
  instance ← get_object c st;
  Return ({| answer_status := status.HTTP_204_NO_CONTENT;
             answer_body := NoContent |},
          user_delete instance st).

(** The [me] action on [users/me/]: the permission class of the action,
    the methods its decorator binds, then [get_user_info]. *)
Definition me (c : Call) (st : Store) : result (Answer * Store) :=
  _ ← permissions.check_permissions [IsAuthenticated] (request c);
  if negb (bool_decide (method (request c) ∈ ["GET"; "PATCH"])) then
    Raise MethodNotAllowed
  else
    let '(response, st') := UserViewSet.get_user_info (request c) st in
    Return ({| answer_status := status_code response;
               answer_body := match body response with
                              | Data d => One d
                              | Detail detail => Errors detail
                              | _ => NoContent
                              end |}, st').

(** [dispatch]: the router matches [users/me/] before the detail URL, so
    the lookup [me] is the [me] action.  Any other request goes through
    the permissions of the viewset, then the methods it allows, then the
    action the router binds to the method and the URL. *)
Definition handle (c : Call) (st : Store) : result (Answer * Store) :=
  if bool_decide (lookup c = Some "me") then me c st
  else
    _ ← permissions.check_permissions permission_classes (request c);
    let m := method (request c) in
    if negb (bool_decide (m ∈ http_method_names)) then Raise MethodNotAllowed
    else
      match lookup c with
      | None =>
          if bool_decide (m = "GET") then list_ c st
          else if bool_decide (m = "POST") then create c st
          else Raise MethodNotAllowed
      | Some _ =>
          if bool_decide (m = "GET") then retrieve c st
          else if bool_decide (m = "PATCH") then partial_update c st
          else if bool_decide (m = "DELETE") then destroy c st
          else Raise MethodNotAllowed
      end.

Definition dispatch (c : Call) (st : Store) : Answer * Store :=
  answer_of st (handle c st).
End with_apps.
End UserViewSetActions.

(** A row of the category or of the genre table. *)
Record SlugRow := {
  row_pk : Z;
  row_name : string;
  row_slug : string
}.

(** The category or the genre table: its rows and the last key its
    sequence handed out. *)
Record Table := {
  rows : list SlugRow;
  last_key : Z
}.

(** The field declarations of the category and genre models, which the
    two serializers are derived from: the validation of a field given
    the rows of the table, returning the value the field hands on. *)
Class CatalogApp := {
  catalog_field : list SlugRow → string → string → option string
}.

(** [CategorySerializer] and [GenreSerializer]: every field but [id]. *)
Module CategorySerializer.
Definition Meta : serializers.Meta := {|
  serializers.fields := ["name"; "slug"];
  serializers.read_only := []
|}.

Definition rules `{CatalogApp} (table : list SlugRow)
    : serializers.Rules string := {|
  serializers.required := λ _, true;
  serializers.run_validation := catalog_field table
|}.

Definition to_representation (r : SlugRow) : gmap string string :=
  {[ "name" := row_name r; "slug" := row_slug r ]}.
End CategorySerializer.

(** [ListCreateDestroyViewSet], as [CategoryViewSet] and [GenreViewSet]
    configure it: the table is the queryset, the lookup is the slug, the
    search is over the name. *)
Module ListCreateDestroyViewSet.
Section with_apps.
Context `{CatalogApp} `{AdminApp}.

Record Call := {
  request : Request string;
  slug : option string;
  search : option string
}.

Definition permission_classes : list permissions.Permission :=
  [is_admin_or_read_only].

Definition filter_queryset (term : option string) (queryset : list SlugRow)
    : list SlugRow :=
  match term with
  | None => queryset
  | Some t => List.filter (λ r, search_matches t (row_name r)) queryset
  end.

(** [get_object] with [lookup_field = 'slug'], among the filtered
    queryset. *)
Definition get_object (c : Call) (table : Table) : result SlugRow :=
  match slug c with
  | None => Raise Http404
  | Some s =>
      match find (λ r, bool_decide (row_slug r = s))
                 (filter_queryset (search c) (rows table)) with
      | None => Raise Http404
      | Some r =>
          _ ← permissions.check_object_permissions permission_classes
                (request c) (row_pk r);
          Return r
      end
  end.

Definition list_ (c : Call) (table : Table) : result (Answer * Table) :=
  Return ({| answer_status := status.HTTP_200_OK;
             answer_body :=
               Many (map CategorySerializer.to_representation
                       (filter_queryset (search c) (rows table))) |}, table).

Definition create (c : Call) (table : Table) : result (Answer * Table) :=
  validated_data ←
    serializers.is_valid CategorySerializer.Meta
      (CategorySerializer.rules (rows table)) false (data (request c));
  match validated_data !! "name", validated_data !! "slug" with
  | Some name, Some s =>
      let r := {| row_pk := next_pk row_pk (rows table) (last_key table);
                  row_name := name; row_slug := s |} in
      Return ({| answer_status := status.HTTP_201_CREATED;
                 answer_body := One (CategorySerializer.to_representation r) |},
              {| rows := rows table ++ [r]; last_key := row_pk r |})
  | _, _ => Raise ServerError
  end.

(** [destroy]: the row found is deleted by its key. *)
Definition destroy (c : Call) (table : Table) : result (Answer * Table) :=
  instance ← get_object c table;
  Return ({| answer_status := status.HTTP_204_NO_CONTENT;
             answer_body := NoContent |},
          {| rows :=
               List.filter
                 (λ r, negb (bool_decide (row_pk r = row_pk instance)))
                 (rows table);
             last_key := last_key table |}).

(** [dispatch]: the permissions, then the action the router binds: the
    list URL has [list] and [create], the detail URL has [destroy]
    alone. *)
Definition handle (c : Call) (table : Table) : result (Answer * Table) :=
  _ ← permissions.check_permissions permission_classes (request c);
  let m := method (request c) in
  if bool_decide (m = "OPTIONS") then
    Return ({| answer_status := status.HTTP_200_OK;
               answer_body := NoContent |}, table)
  else
    match slug c with
    | None =>
        if bool_decide (m = "GET") || bool_decide (m = "HEAD")
        then list_ c table
        else if bool_decide (m = "POST") then create c table
        else Raise MethodNotAllowed
    | Some _ =>
        if bool_decide (m = "DELETE") then destroy c table
        else Raise MethodNotAllowed
    end.

Definition dispatch (c : Call) (table : Table) : Answer * Table :=
  answer_of table (handle c table).
End with_apps.
End ListCreateDestroyViewSet.

Module demo_admin.
(** Admins alone pass [IsAdminOnly]; anyone reads and admins write under
    [IsAdminOrReadOnly]; the search matches a prefix; a deleted user
    takes their reviews along. *)
Definition admin_app : AdminApp := {|
  is_admin_only := {|
    permissions.has_permission := λ _ u,
      match u with
      | Some x => bool_decide (role x = "admin")
      | None => false
      end;
    permissions.has_object_permission := λ _ _ _, true |};
  is_admin_or_read_only := {|
    permissions.has_permission := λ m u,
      bool_decide (m ∈ SAFE_METHODS)
      || match u with
         | Some x => bool_decide (role x = "admin")
         | None => false
         end;
    permissions.has_object_permission := λ _ _ _, true |};
  search_matches := λ t v, String.prefix t v;
  user_delete := λ u st,
    set_reviews (List.filter (λ r, negb (bool_decide (review_author r = user_pk u))))
      (set_users (List.filter (λ x, negb (bool_decide (user_pk x = user_pk u)))) st)
|}.

Definition catalog_app : CatalogApp := {|
  catalog_field := λ table f v,
    value ← serializers.CharField v;
    if bool_decide (f = "slug")
       && existsb (λ r, bool_decide (row_slug r = value)) table
    then None
    else Some value
|}.

Definition categories : Table := {|
  rows := [{| row_pk := 1; row_name := "Films"; row_slug := "films" |};
           {| row_pk := 2; row_name := "Books"; row_slug := "books" |}];
  last_key := 2
|}.
End demo_admin.

(** ** The vocabulary of the properties *)

(** No stored title carries the [title_id] of the path. *)
Definition title_missing (kw : Kwargs) (st : Store) : Prop :=
  ¬ ∃ t, t ∈ titles st ∧ Some (title_pk t) = kw !! "title_id".

(** No stored review carries the key named [key] in the path and belongs
    to the title of the path: the key names no review at all, or a review
    of another title. *)
Definition review_missing (key : string) (kw : Kwargs) (st : Store) : Prop :=
  ¬ ∃ r, r ∈ reviews st ∧ Some (review_pk r) = kw !! key
         ∧ Some (review_title r) = kw !! "title_id".

(** The serializer class [get_user_info] picks for a PATCH. *)
Definition me_serializer_class `{UsersApp} (u : User) : serializers.Meta :=
  if is_admin u then UserSerializer.Meta else ReadOnlyRole.Meta.

(** The stored row with a given key. *)
Definition stored_user (pk : Z) (st : Store) : option User :=
  find (λ x, bool_decide (user_pk x = pk)) (users st).

(** A stored user carries the username and the e-mail of the payload. *)
Definition pair_registered (data : gmap string string) (st : Store) : Prop :=
  ∃ u, u ∈ users st ∧ data !! "username" = Some (username u)
       ∧ data !! "email" = Some (email u).

(** A stored user carries the username of the payload, trimmed as the
    serializer reads it. *)
Definition username_taken (data : gmap string string) (st : Store) : Prop :=
  ∃ u raw, u ∈ users st ∧ data !! "username" = Some raw
           ∧ str.strip raw = username u.

(** No two stored users share a username. *)
Definition usernames_unique (st : Store) : Prop :=
  NoDup (map username (users st)).

(** No two stored reviews share their author and title, nor their key. *)
Definition reviews_unique (st : Store) : Prop :=
  NoDup (map (λ r, (review_author r, review_title r)) (reviews st))
  ∧ NoDup (map review_pk (reviews st)).

(** Every stored score lies between 1 and 10. *)
Definition scores_in_range (st : Store) : Prop :=
  Forall (λ r, 1 ≤ review_score r ≤ 10) (reviews st).

(** [value] is the text a character field reads in [raw]: the trimmed
    text, which is not blank and holds neither a null character nor a
    surrogate. *)
Definition field_text (raw value : string) : Prop :=
  value = str.strip raw ∧ value ≠ ""
  ∧ str.has_null value = false ∧ str.has_surrogate value = false.

(** The request was authenticated against the store: its user, if any,
    is a stored row. *)
Definition authenticated {V} (req : Request V) (st : Store) : Prop :=
  ∀ u, user req = Some u → u ∈ users st.

(** Every writable field of [m] the payload carries passes the field's
    validation. *)
Definition fields_validate {V} (m : serializers.Meta)
    (r : serializers.Rules V) (data : gmap string V) : Prop :=
  ∀ f v, f ∈ serializers.writable_fields m → data !! f = Some v →
         is_Some (serializers.run_validation r f v).

(** No two stored users share their key. *)
Definition users_keyed (st : Store) : Prop :=
  NoDup (map user_pk (users st)).

(** * Properties *)

(** ** Strings and character fields *)

Section strip_facts.
Variable sp1 : ascii → bool.
Variable sp2 : ascii → ascii → bool.
Variable sp3 : ascii → ascii → ascii → bool.





End strip_facts.




(** What [CharField] returns is the trimmed input, and it is not blank. *)
Lemma CharField_strip v value :
  serializers.CharField v = Some value → value = str.strip v ∧ value ≠ "".
Proof.
  unfold serializers.CharField.
  destruct (decide (str.strip v = "")) as [He|Hne].
  - by rewrite (bool_decide_eq_true_2 _ He).
  - rewrite (bool_decide_eq_false_2 _ Hne).
    destruct (str.has_null _ || str.has_surrogate _); [done|].
    by intros [= <-].
Qed.


(** A blank value is refused. *)
Lemma CharField_blank v :
  str.strip v = "" → serializers.CharField v = None.
Proof.
  intros He. unfold serializers.CharField.
  by rewrite (bool_decide_eq_true_2 _ He).
Qed.

(** What [CharField] accepts, and what it returns. *)
Lemma CharField_spec v value :
  serializers.CharField v = Some value ↔ field_text v value.
Proof.
  unfold serializers.CharField, field_text. split.
  - destruct (decide (str.strip v = "")) as [He|Hne].
    + by rewrite (bool_decide_eq_true_2 _ He).
    + rewrite (bool_decide_eq_false_2 _ Hne).
      destruct (str.has_null _) eqn:Hn, (str.has_surrogate _) eqn:Hs;
        try done.
      intros [= <-]. done.
  - intros (-> & Hne & -> & ->).
    by rewrite (bool_decide_eq_false_2 _ Hne).
Qed.

(** Trimming on concrete strings: white space goes at both ends, the
    no-break space among it, and stays inside; the length counts
    characters, not bytes. *)
Example strip_and_len :
  str.strip "  bob " = "bob"
  ∧ str.strip "a b" = "a b"
  ∧ str.strip "   " = ""
  ∧ str.strip (String (ascii_of_nat 194) (String (ascii_of_nat 160) "bob"))
    = "bob"
  ∧ str.len "привет" = 6%nat
  ∧ String.length "привет" = 12%nat.
Proof. vm_compute. repeat split. Qed.

(** ** Serializers in general *)

Section serializer_facts.
Context {V : Type}.
Implicit Types (m : serializers.Meta) (r : serializers.Rules V).
Implicit Types (data ret : gmap string V) (fs : list string).

(** Field validation raises nothing but a validation error. *)
Lemma is_valid_raises m r partial data e :
  serializers.is_valid m r partial data = Raise e →
  ∃ detail, e = ValidationError detail.
Proof.
  unfold serializers.is_valid.
  destruct (serializers.to_internal_value _ _ _ _) as [[|f errors] ret];
    intros [= <-]; eauto.
Qed.

(** The validated data holds writable fields only. *)
Lemma to_internal_value_keys r partial fs data f :
  f ∉ fs → (serializers.to_internal_value r partial fs data).2 !! f = None.
Proof.
  induction fs as [|g fs IH]; intros Hf; simpl; [apply lookup_empty|].
  apply not_elem_of_cons in Hf as [Hne Hf]. specialize (IH Hf).
  destruct (serializers.to_internal_value r partial fs data) as [errors ret].
  simpl in IH.
  destruct (data !! g) as [v|]; [destruct (serializers.run_validation r g v)|];
    simpl; try done.
  - by rewrite lookup_insert_ne.
  - by destruct (negb partial && serializers.required r g).
Qed.

(** A value in the validated data is the validated form of the payload's
    value for that field. *)
Lemma to_internal_value_lookup r partial fs data f v' :
  (serializers.to_internal_value r partial fs data).2 !! f = Some v' →
  ∃ v, data !! f = Some v ∧ serializers.run_validation r f v = Some v'.
Proof.
  induction fs as [|g fs IH]; simpl; [by rewrite lookup_empty|].
  destruct (serializers.to_internal_value r partial fs data) as [errors ret].
  simpl in IH.
  destruct (data !! g) as [v|] eqn:Hg;
    [destruct (serializers.run_validation r g v) eqn:Hv|]; simpl; try done.
  - destruct (decide (g = f)) as [->|Hne].
    + rewrite lookup_insert_eq. intros [= <-]. eauto.
    + by rewrite lookup_insert_ne.
  - by destruct (negb partial && serializers.required r g).
Qed.

Lemma is_valid_read_only m r partial data ret f :
  serializers.is_valid m r partial data = Return ret →
  f ∈ serializers.read_only m → ret !! f = None.
Proof.
  unfold serializers.is_valid. intros Hv Hro.
  pose proof (to_internal_value_keys r partial
                (serializers.writable_fields m) data f) as Hk.
  destruct (serializers.to_internal_value _ _ _ _) as [[|g errors] ret'];
    [|done].
  injection Hv as <-. apply Hk.
  unfold serializers.writable_fields. rewrite list_elem_of_filter. tauto.
Qed.
End serializer_facts.

(** ** Reviews: one per author and title, scores from 1 to 10 *)

Section review_validation.
Context `{ReviewsApp}.

Lemma review_exists_spec author title_id st :
  ReviewSerializer.review_exists author title_id st = true ↔
  ∃ r, r ∈ reviews st ∧ review_author r = user_pk author
       ∧ Some (review_title r) = title_id.
Proof.
  unfold ReviewSerializer.review_exists. rewrite existsb_exists.
  split; intros (r & Hin & Hr).
  - exists r. apply andb_prop in Hr as [Ha Ht].
    apply bool_decide_eq_true in Ha, Ht. by rewrite list_elem_of_In.
  - exists r. destruct Hr as [Ha Ht]. rewrite <- list_elem_of_In.
    split; [done|]. apply andb_true_intro.
    by rewrite !bool_decide_eq_true.
Qed.

(** C1.  The duplicate-review check of [ReviewSerializer.validate], for a
    request of user [author] with method [m] on the title of the path:
    it raises a validation error exactly when the method is POST and a
    review of that author on that title is stored; otherwise it returns
    the data it was given, and in particular any other method passes
    unchanged.  Carried to [is_valid]: creating a second review fails
    with a validation error whatever the payload, and for an update
    validation is that of the fields alone. *)
Theorem review_duplicate_check (m : string) (author : User)
    (payload : gmap string Value) (kw : Kwargs) (st : Store)
    (attrs : gmap string Value) (partial : bool) :
  let ctx := {| ReviewSerializer.request :=
                  {| method := m; user := Some author; data := payload |};
                ReviewSerializer.kwargs := kw |} in
  let duplicate := ∃ r, r ∈ reviews st ∧ review_author r = user_pk author
                        ∧ Some (review_title r) = kw !! "title_id" in
  ((∃ detail,
      ReviewSerializer.validate ctx st attrs = Raise (ValidationError detail))
   ↔ m = "POST" ∧ duplicate)
  ∧ (¬ (m = "POST" ∧ duplicate) →
     ReviewSerializer.validate ctx st attrs = Return attrs)
  ∧ (m ≠ "POST" → ReviewSerializer.validate ctx st attrs = Return attrs)
  ∧ (m = "POST" → duplicate →
     is_validation_error (ReviewSerializer.is_valid ctx false st) = true)
  ∧ (m ≠ "POST" →
     ReviewSerializer.is_valid ctx partial st
     = serializers.is_valid ReviewSerializer.Meta ReviewSerializer.rules
         partial payload).
Proof.
  intros ctx duplicate.
  assert (Hval : ReviewSerializer.validate ctx st attrs
                 = if bool_decide (m = "POST")
                      && ReviewSerializer.review_exists author (kw !! "title_id") st
                   then Raise (ValidationError
                                 ["Вы уже оставляли отзыв на это произведение"])
                   else Return attrs).
  { unfold ReviewSerializer.validate; simpl.
    destruct (bool_decide (m = "POST")); simpl; [|done].
    by destruct (ReviewSerializer.review_exists _ _ _). }
  assert (Hdup : bool_decide (m = "POST")
                 && ReviewSerializer.review_exists author (kw !! "title_id") st
                 = true ↔ m = "POST" ∧ duplicate).
  { rewrite andb_true_iff, bool_decide_eq_true, review_exists_spec. done. }
  split; [|split; [|split; [|split]]].
  - rewrite Hval. destruct (_ && _).
    + split; [intros _; by apply Hdup | eauto].
    + split; [intros [? [=]] | intros Hd; apply Hdup in Hd; done].
  - intros Hn. rewrite Hval. destruct (_ && _); [|done].
    destruct Hn. by apply Hdup.
  - intros Hn. rewrite Hval. rewrite (bool_decide_eq_false_2 _ Hn). done.
  - intros Hm Hd. unfold ReviewSerializer.is_valid; simpl.
    destruct (serializers.is_valid _ _ _ _) as [a|e] eqn:Hf; simpl.
    + unfold ReviewSerializer.validate; simpl.
      rewrite (bool_decide_eq_true_2 _ Hm); simpl.
      apply review_exists_spec in Hd. by rewrite Hd.
    + apply is_valid_raises in Hf as [d ->]. done.
  - intros Hn. unfold ReviewSerializer.is_valid; simpl.
    destruct (serializers.is_valid _ _ _ _) as [a|e]; simpl; [|done].
    unfold ReviewSerializer.validate; simpl.
    by rewrite (bool_decide_eq_false_2 _ Hn).
Qed.

Lemma validate_score_spec (value : Z) :
  ReviewSerializer.validate_score value
  = if bool_decide (1 ≤ value ≤ 10) then Return value
    else Raise (ValidationError ["Оценка может быть только от 1 до 10"]).
Proof.
  unfold ReviewSerializer.validate_score.
  case_bool_decide as Hr.
  - destruct Hr as [H1%Z.leb_le H2%Z.leb_le]. by rewrite H1, H2.
  - destruct (1 <=? value) eqn:E1, (value <=? 10) eqn:E2; simpl; try done.
    destruct Hr. split; by apply Z.leb_le.
Qed.

Lemma score_out_of_range_rejected (v : Value) (z : Z) :
  score_field v = Some z → ¬ (1 ≤ z ≤ 10) →
  serializers.run_validation ReviewSerializer.rules "score" v = None.
Proof.
  intros Hf Hr. simpl. rewrite Hf. simpl. rewrite validate_score_spec.
  by rewrite bool_decide_eq_false_2.
Qed.

(** C2.  [validate_score] accepts a score, returning it unchanged,
    exactly when it lies between 1 and 10; every other integer raises a
    validation error; 1 and 10 are accepted.  Through the serializer's
    field handling: a submitted score that the model field reads as the
    integer [z] is accepted if and only if [1 <= z <= 10]. *)
Theorem score_accepted_iff_in_range (value : Z) (v : Value) :
  (ReviewSerializer.validate_score value = Return value ↔ 1 ≤ value ≤ 10)
  ∧ (is_validation_error (ReviewSerializer.validate_score value) = true
     ↔ ¬ (1 ≤ value ≤ 10))
  ∧ ReviewSerializer.validate_score 1 = Return 1
  ∧ ReviewSerializer.validate_score 10 = Return 10
  ∧ (score_field v = Some value →
     (serializers.run_validation ReviewSerializer.rules "score" v
      = Some (VInt value) ↔ 1 ≤ value ≤ 10)
     ∧ (serializers.run_validation ReviewSerializer.rules "score" v = None
        ↔ ¬ (1 ≤ value ≤ 10))).
Proof.
  pose proof (validate_score_spec value) as Hs.
  split; [|split; [|split; [|split]]]; try done.
  - rewrite Hs. case_bool_decide; split; done.
  - rewrite Hs. case_bool_decide; simpl; split; done.
  - intros Hf. simpl. rewrite Hf. simpl. rewrite Hs.
    case_bool_decide; split; split; done.
Qed.
End review_validation.

(** ** Nested endpoints: references that do not resolve *)

Section lookups.
Implicit Types (kw : Kwargs) (st : Store).

Lemma find_none_iff {A} (p : A → bool) (l : list A) :
  find p l = None ↔ ∀ x, x ∈ l → p x = false.
Proof.
  induction l as [|a l IH]; simpl.
  - split; [intros _ x Hx; by apply elem_of_nil in Hx | done].
  - destruct (p a) eqn:Ha.
    + split; [done|]. intros Hall. specialize (Hall a (list_elem_of_here _ _)).
      congruence.
    + rewrite IH. split.
      * intros Hall x [->|Hx]%elem_of_cons; auto.
      * intros Hall x Hx. apply Hall. by apply list_elem_of_further.
Qed.

Lemma find_some_elem {A} (p : A → bool) (l : list A) a :
  find p l = Some a → a ∈ l ∧ p a = true.
Proof.
  intros [Hin Hp]%find_some. by rewrite list_elem_of_In.
Qed.

(** The lookups read their own table only. *)
Lemma get_title_or_404_frame title_id st st' :
  titles st' = titles st →
  shortcuts.get_title_or_404 title_id st'
  = shortcuts.get_title_or_404 title_id st.
Proof. unfold shortcuts.get_title_or_404. by intros ->. Qed.

Lemma get_review_or_404_frame review_id title st st' :
  reviews st' = reviews st →
  shortcuts.get_review_or_404 review_id title st'
  = shortcuts.get_review_or_404 review_id title st.
Proof. unfold shortcuts.get_review_or_404. by intros ->. Qed.

Lemma get_title_or_404_missing kw st :
  title_missing kw st →
  shortcuts.get_title_or_404 (kw !! "title_id") st = Raise Http404.
Proof.
  unfold title_missing, shortcuts.get_title_or_404. intros Hm.
  destruct (kw !! "title_id") as [i|]; [|done].
  destruct (find _ _) as [t|] eqn:Hf; [|done].
  apply find_some_elem in Hf as [Hin Hp%bool_decide_eq_true].
  destruct Hm. exists t. by rewrite Hp.
Qed.

Lemma get_title_or_404_found kw st t :
  shortcuts.get_title_or_404 (kw !! "title_id") st = Return t →
  t ∈ titles st ∧ kw !! "title_id" = Some (title_pk t).
Proof.
  unfold shortcuts.get_title_or_404.
  destruct (kw !! "title_id") as [i|]; [|done].
  destruct (find _ _) as [t'|] eqn:Hf; [|done]. intros [= ->].
  apply find_some_elem in Hf as [Hin Hp%bool_decide_eq_true]. by subst.
Qed.

Lemma get_review_or_404_missing key kw st t :
  kw !! "title_id" = Some (title_pk t) →
  review_missing key kw st →
  shortcuts.get_review_or_404 (kw !! key) t st = Raise Http404.
Proof.
  unfold review_missing, shortcuts.get_review_or_404. intros Ht Hm.
  destruct (kw !! key) as [i|]; [|done].
  destruct (find _ _) as [r|] eqn:Hf; [|done].
  apply find_some_elem in Hf as [Hin [Hp Hq]%andb_prop].
  apply bool_decide_eq_true in Hp, Hq.
  destruct Hm. exists r. by rewrite Ht, Hp, Hq.
Qed.

Lemma get_by_pk_or_404_missing kw st t :
  kw !! "title_id" = Some (title_pk t) →
  review_missing "pk" kw st →
  shortcuts.get_by_pk_or_404 review_pk (kw !! "pk")
    (filter (λ r, review_title r = title_pk t) (reviews st)) = Raise Http404.
Proof.
  unfold review_missing, shortcuts.get_by_pk_or_404. intros Ht Hm.
  destruct (kw !! "pk") as [i|]; [|done].
  destruct (find _ _) as [r|] eqn:Hf; [|done].
  apply find_some_elem in Hf as [[Hq Hin]%list_elem_of_filter Hp].
  apply bool_decide_eq_true in Hp.
  destruct Hm. exists r. by rewrite Ht, Hp, Hq.
Qed.
End lookups.

Section generic_views.
Context {Obj : Type}.
Implicit Types (vs : viewsets.ViewSet Obj) (req : Request Value).
Implicit Types (kw : Kwargs) (st : Store).

(** Only a POST on the list URL is routed to [create]. *)
Lemma route_create m detail :
  viewsets.route m detail = Some viewsets.Create → m = "POST" ∧ detail = false.
Proof.
  unfold viewsets.route.
  destruct detail; repeat (case_bool_decide; simpl; try done);
    destruct (bool_decide (m = "GET") || bool_decide (m = "HEAD")); done.
Qed.

(** A create whose payload the serializer refuses is answered with the
    serializer's exception, before [perform_create] is reached. *)
Lemma dispatch_create_invalid vs req kw st e :
  viewsets.route (method req) (bool_decide (is_Some (kw !! "pk")))
    = Some viewsets.Create →
  permissions.check_permissions (viewsets.permission_classes vs) req
    = Return tt →
  viewsets.is_valid vs req kw false st = Raise e →
  viewsets.dispatch vs req kw st = (http.exception_handler e, st).
Proof.
  intros Hroute Hperm Hv.
  unfold viewsets.dispatch, viewsets.handle. rewrite Hperm. simpl.
  rewrite Hroute. unfold viewsets.create. by rewrite Hv.
Qed.

(** A routed, permitted request whose lookup raises [Http404] is answered
    404 and leaves the store as it was: for [create] the lookup is that
    of [perform_create] and is reached once the payload is valid; for the
    other actions it is that of [get_queryset], or of [get_object] on
    the queryset. *)
Lemma dispatch_lookup_404 vs req kw st action :
  viewsets.route (method req) (bool_decide (is_Some (kw !! "pk")))
    = Some action →
  permissions.check_permissions (viewsets.permission_classes vs) req
    = Return tt →
  (action = viewsets.Create →
   ∃ attrs, viewsets.is_valid vs req kw false st = Return attrs
            ∧ viewsets.perform_create vs req kw attrs st = Raise Http404) →
  (action ≠ viewsets.Create →
   viewsets.get_queryset vs kw st = Raise Http404
   ∨ (action ≠ viewsets.List_
      ∧ ∃ qs, viewsets.get_queryset vs kw st = Return qs
              ∧ shortcuts.get_by_pk_or_404 (viewsets.pk_of vs) (kw !! "pk") qs
                = Raise Http404)) →
  viewsets.dispatch vs req kw st = (http.exception_handler Http404, st).
Proof.
  intros Hroute Hperm Hcreate Hother.
  unfold viewsets.dispatch, viewsets.handle. rewrite Hperm. simpl.
  rewrite Hroute. destruct action.
  - destruct Hother as [Hq|[Hl _]]; [done| |done].
    unfold viewsets.list_. by rewrite Hq.
  - destruct Hcreate as (attrs & Hv & Hc); [done|].
    unfold viewsets.create. rewrite Hv. simpl. by rewrite Hc.
  - unfold viewsets.retrieve, viewsets.get_object.
    destruct Hother as [Hq|[_ (qs & Hq & Hp)]]; [done| |];
      rewrite Hq; simpl; [done|]. by rewrite Hp.
  - unfold viewsets.update, viewsets.get_object.
    destruct Hother as [Hq|[_ (qs & Hq & Hp)]]; [done| |];
      rewrite Hq; simpl; [done|]. by rewrite Hp.
  - unfold viewsets.update, viewsets.get_object.
    destruct Hother as [Hq|[_ (qs & Hq & Hp)]]; [done| |];
      rewrite Hq; simpl; [done|]. by rewrite Hp.
  - unfold viewsets.destroy, viewsets.get_object.
    destruct Hother as [Hq|[_ (qs & Hq & Hp)]]; [done| |];
      rewrite Hq; simpl; [done|]. by rewrite Hp.
Qed.
End generic_views.

Section nested_endpoints.
Context `{ReviewsApp} `{Permissions}.
Implicit Types (req : Request Value) (kw : Kwargs) (st : Store).

(** An anonymous write does not pass the permission classes of the
    nested endpoints. *)
Lemma anonymous_write_denied req :
  user req = None → method req ∉ SAFE_METHODS →
  permissions.check_permissions endpoints.permission_classes req
  = Raise NotAuthenticated.
Proof.
  intros Hu Hm. unfold permissions.check_permissions,
    endpoints.permission_classes. simpl.
  rewrite Hu. by rewrite (bool_decide_eq_false_2 _ Hm).
Qed.

(** On a permitted POST the review serializer raises nothing but a
    validation error. *)
Lemma review_is_valid_raises req kw st e :
  method req = "POST" →
  permissions.check_permissions endpoints.permission_classes req = Return tt →
  viewsets.is_valid endpoints.review_viewset req kw false st = Raise e →
  ∃ detail, e = ValidationError detail.
Proof.
  intros Hm Hperm. simpl. unfold ReviewSerializer.is_valid. simpl.
  destruct (serializers.is_valid _ _ _ _) as [attrs|e'] eqn:Hv; simpl.
  - unfold ReviewSerializer.validate. simpl. rewrite Hm. simpl.
    destruct (user req) as [author|] eqn:Hu.
    + destruct (ReviewSerializer.review_exists _ _ _); [|done].
      intros [= <-]. eauto.
    + rewrite (anonymous_write_denied req Hu) in Hperm; [done|].
      rewrite Hm. unfold SAFE_METHODS. intros Hin.
      repeat (apply elem_of_cons in Hin as [Hin|Hin]; [discriminate Hin|]).
      by apply elem_of_nil in Hin.
  - intros [= <-]. by apply is_valid_raises in Hv.
Qed.

Lemma review_get_queryset_404 kw st :
  title_missing kw st → ReviewViewSet.get_queryset kw st = Raise Http404.
Proof.
  intros Hm. unfold ReviewViewSet.get_queryset.
  by rewrite (get_title_or_404_missing _ _ Hm).
Qed.

Lemma review_perform_create_404 req kw attrs st :
  title_missing kw st →
  ReviewViewSet.perform_create req kw attrs st = Raise Http404.
Proof.
  intros Hm. unfold ReviewViewSet.perform_create.
  by rewrite (get_title_or_404_missing _ _ Hm).
Qed.

Lemma comment_lookup_404 kw st {A} (k : Review → result A) :
  title_missing kw st ∨ review_missing "review_id" kw st →
  (title ← shortcuts.get_title_or_404 (kw !! "title_id") st;
   review ← shortcuts.get_review_or_404 (kw !! "review_id") title st;
   k review) = Raise Http404.
Proof.
  intros [Hm|Hm].
  - by rewrite (get_title_or_404_missing _ _ Hm).
  - destruct (shortcuts.get_title_or_404 _ _) as [t|e] eqn:Ht; simpl.
    + apply get_title_or_404_found in Ht as [_ Ht].
      by rewrite (get_review_or_404_missing _ _ _ _ Ht Hm).
    + unfold shortcuts.get_title_or_404 in Ht.
      destruct (kw !! "title_id"); [destruct (find _ _)|]; congruence.
Qed.

Lemma comment_get_queryset_404 kw st :
  title_missing kw st ∨ review_missing "review_id" kw st →
  CommentViewSet.get_queryset kw st = Raise Http404.
Proof. apply comment_lookup_404. Qed.

Lemma comment_perform_create_404 req kw attrs st :
  title_missing kw st ∨ review_missing "review_id" kw st →
  CommentViewSet.perform_create req kw attrs st = Raise Http404.
Proof. apply comment_lookup_404. Qed.

Lemma review_get_object_404 kw st :
  review_missing "pk" kw st →
  ReviewViewSet.get_queryset kw st = Raise Http404
  ∨ ∃ qs, ReviewViewSet.get_queryset kw st = Return qs
          ∧ shortcuts.get_by_pk_or_404 review_pk (kw !! "pk") qs
            = Raise Http404.
Proof.
  intros Hm. unfold ReviewViewSet.get_queryset.
  destruct (shortcuts.get_title_or_404 _ _) as [t|e] eqn:Hg; simpl.
  - right. eexists. split; [done|].
    apply get_title_or_404_found in Hg as [_ Hg].
    by apply get_by_pk_or_404_missing.
  - left. unfold shortcuts.get_title_or_404 in Hg.
    destruct (kw !! "title_id"); [destruct (find _ _)|]; congruence.
Qed.

(** C7, as the code has it.  In the four methods of the two viewsets a
    [title_id] that names no stored title raises [Http404], and in the
    comment viewset so does a [review_id] that names no stored review of
    that title (no review at all, or a review of another title).  Through
    the generic views every request that is routed, passes the view's
    permission check and, when it is a create, carries a payload the
    serializer accepts, is answered 404 in those cases and leaves the
    store unchanged; on the review endpoint the same holds for the
    object actions when the key of the path names no review of the
    title.  A create is validated before [perform_create] looks anything
    up: on both endpoints a routed, permitted create whose payload the
    serializer refuses is answered with the serializer's error, which is
    a 400, and leaves the store unchanged, whether or not the title and
    the review of the path exist. *)
Theorem nested_lookup_failure_is_404 req kw st action :
  let routed :=
    viewsets.route (method req) (bool_decide (is_Some (kw !! "pk")))
    = Some action in
  let permitted :=
    permissions.check_permissions endpoints.permission_classes req
    = Return tt in
  let not_found := (http.exception_handler Http404, st) in
  (title_missing kw st →
   ReviewViewSet.get_queryset kw st = Raise Http404
   ∧ CommentViewSet.get_queryset kw st = Raise Http404
   ∧ ∀ attrs,
       ReviewViewSet.perform_create req kw attrs st = Raise Http404
       ∧ CommentViewSet.perform_create req kw attrs st = Raise Http404)
  ∧ (review_missing "review_id" kw st →
     CommentViewSet.get_queryset kw st = Raise Http404
     ∧ ∀ attrs, CommentViewSet.perform_create req kw attrs st = Raise Http404)
  ∧ (routed → permitted →
     (action = viewsets.Create →
      ∃ attrs, viewsets.is_valid endpoints.review_viewset req kw false st
               = Return attrs) →
     title_missing kw st
     ∨ ((action ∉ [viewsets.List_; viewsets.Create])
        ∧ review_missing "pk" kw st) →
     viewsets.dispatch endpoints.review_viewset req kw st = not_found)
  ∧ (routed → permitted →
     (action = viewsets.Create →
      ∃ attrs, viewsets.is_valid endpoints.comment_viewset req kw false st
               = Return attrs) →
     title_missing kw st ∨ review_missing "review_id" kw st →
     viewsets.dispatch endpoints.comment_viewset req kw st = not_found)
  ∧ status_code (not_found.1) = status.HTTP_404_NOT_FOUND
  ∧ (routed → permitted → action = viewsets.Create →
     ∀ e, viewsets.is_valid endpoints.review_viewset req kw false st = Raise e →
          viewsets.dispatch endpoints.review_viewset req kw st
          = (http.exception_handler e, st)
          ∧ status_code (http.exception_handler e)
            = status.HTTP_400_BAD_REQUEST)
  ∧ (routed → permitted → action = viewsets.Create →
     ∀ e, viewsets.is_valid endpoints.comment_viewset req kw false st = Raise e →
          viewsets.dispatch endpoints.comment_viewset req kw st
          = (http.exception_handler e, st)
          ∧ status_code (http.exception_handler e)
            = status.HTTP_400_BAD_REQUEST).
Proof.
  intros routed permitted not_found.
  split; [|split; [|split; [|split; [|split; [|split]]]]]; [| | | |done| |].
  - intros Hm. split; [by apply review_get_queryset_404|].
    split; [apply comment_get_queryset_404; by left|].
    intros attrs. split; [by apply review_perform_create_404|].
    apply comment_perform_create_404. by left.
  - intros Hm. split; [apply comment_get_queryset_404; by right|].
    intros attrs. apply comment_perform_create_404. by right.
  - intros Hroute Hperm Hvalid Hmiss.
    apply (dispatch_lookup_404 endpoints.review_viewset req kw st action);
      [done|done| |].
    + intros Hc. destruct (Hvalid Hc) as [attrs Hv]. exists attrs.
      split; [done|]. destruct Hmiss as [Hm|[Hn _]].
      * by apply review_perform_create_404.
      * subst action. destruct Hn.
        apply list_elem_of_further, list_elem_of_here.
    + intros Hc. destruct Hmiss as [Hm|[Hn Hm]].
      * left. by apply review_get_queryset_404.
      * destruct (review_get_object_404 kw st Hm) as [Hq|Hq]; [by left|].
        right. split; [|done]. intros ->. destruct Hn.
        apply list_elem_of_here.
  - intros Hroute Hperm Hvalid Hmiss.
    apply (dispatch_lookup_404 endpoints.comment_viewset req kw st action);
      [done|done| |].
    + intros Hc. destruct (Hvalid Hc) as [attrs Hv]. exists attrs.
      split; [done|]. by apply comment_perform_create_404.
    + intros _. left. by apply comment_get_queryset_404.
  - intros Hroute Hperm -> e Hv.
    split; [by apply dispatch_create_invalid|].
    apply route_create in Hroute as [Hm _].
    by destruct (review_is_valid_raises req kw st e Hm Hperm Hv) as [d ->].
  - intros Hroute Hperm -> e Hv.
    split; [by apply dispatch_create_invalid|].
    simpl in Hv. unfold CommentSerializer.is_valid in Hv.
    by apply is_valid_raises in Hv as [d ->].
Qed.
End nested_endpoints.

Section review_create.
Context `{ReviewsApp} `{Permissions}.

(** A create request is validated before [perform_create] looks the
    title up: a score out of range is answered 400 whether or not the
    title exists. *)
Lemma review_create_bad_score_400 (req : Request Value) (kw : Kwargs)
    (st : Store) v z :
  method req = "POST" → kw !! "pk" = None →
  permissions.check_permissions endpoints.permission_classes req = Return tt →
  data req !! "score" = Some v → score_field v = Some z → ¬ (1 ≤ z ≤ 10) →
  ∃ detail,
    viewsets.dispatch endpoints.review_viewset req kw st
    = (http.exception_handler (ValidationError detail), st).
Proof.
  intros Hm Hpk Hperm Hd Hf Hr.
  unfold viewsets.dispatch, viewsets.handle.
  change (viewsets.permission_classes endpoints.review_viewset)
    with endpoints.permission_classes.
  rewrite Hperm. simpl. rewrite Hm, Hpk. simpl.
  unfold viewsets.create. simpl.
  unfold ReviewSerializer.is_valid, serializers.is_valid. simpl.
  pose proof (score_out_of_range_rejected v z Hf Hr) as Hs.
  change (serializers.writable_fields ReviewSerializer.Meta)
    with ["text"; "score"].
  simpl. rewrite Hd. simpl in Hs. rewrite Hs.
  destruct (data req !! "text") as [t|]; [destruct (VStr <$> text_field t)|];
    simpl; eauto.
Qed.
End review_create.

(** C7, as the claim states it, fails: a create request on a title that
    does not exist is answered 400, not 404, when its score is out of
    range. *)
Lemma review_create_on_missing_title_is_400 :
  let req := {| method := "POST"; user := Some demo.alice;
                data := {[ "text" := VStr "x"; "score" := VInt 11 ]} |} in
  let kw : Kwargs := {[ "title_id" := 999 ]} in
  let answer :=
    viewsets.dispatch
      (@endpoints.review_viewset demo.reviews_app demo.perms)
      req kw demo.store in
  title_missing kw demo.store
  ∧ answer = ({| status_code := 400; body := Detail ["score"] |}, demo.store)
  ∧ status_code (answer.1) ≠ status.HTTP_404_NOT_FOUND.
Proof.
  split; [|split].
  - intros (t & Hin & Hid).
    apply elem_of_cons in Hin as [->|Hin];
      [|apply list_elem_of_singleton in Hin as ->];
      vm_compute in Hid; discriminate Hid.
  - vm_compute. reflexivity.
  - vm_compute. discriminate.
Qed.

(** The comment endpoint does the same: a comment with no text on a
    title that does not exist is answered 400. *)
Example comment_create_on_missing_title_is_400 :
  viewsets.dispatch (@endpoints.comment_viewset demo.reviews_app demo.perms)
    {| method := "POST"; user := Some demo.alice; data := ∅ |}
    {[ "title_id" := 999; "review_id" := 1 ]} demo.store
  = ({| status_code := 400; body := Detail ["text"] |}, demo.store).
Proof. vm_compute. reflexivity. Qed.

(** ** The self-profile endpoint *)

Section profile.
Context `{UsersApp}.
Implicit Types (u : User) (st : Store) (vd : gmap string string).

Lemma writable_UserSerializer :
  serializers.writable_fields UserSerializer.Meta
  = ["username"; "email"; "first_name"; "last_name"; "bio"; "role"].
Proof. reflexivity. Qed.

Lemma writable_ReadOnlyRole :
  serializers.writable_fields ReadOnlyRole.Meta
  = ["username"; "email"; "first_name"; "last_name"; "bio"].
Proof. reflexivity. Qed.

(** Updating through [ReadOnlyRole] keeps the role and the key. *)
Lemma update_ReadOnlyRole_role u vd :
  role (UserSerializer.update ReadOnlyRole.Meta u vd) = role u.
Proof.
  unfold UserSerializer.update. rewrite writable_ReadOnlyRole. simpl.
  repeat match goal with |- context [vd !! ?f] => destruct (vd !! f) end;
    reflexivity.
Qed.

Lemma update_pk m u vd :
  user_pk (UserSerializer.update m u vd) = user_pk u.
Proof.
  unfold UserSerializer.update.
  generalize (serializers.writable_fields m) as fs. intros fs. revert u.
  induction fs as [|f fs IH]; intros u; simpl; [done|].
  rewrite IH. by destruct (vd !! f).
Qed.

(** A validated attribute of either class is what the updated instance
    carries. *)
Lemma update_getattr u vd f v :
  vd !! f = Some v →
  (f ∈ serializers.writable_fields UserSerializer.Meta →
   UserSerializer.getattr (UserSerializer.update UserSerializer.Meta u vd) f
   = Some v)
  ∧ (f ∈ serializers.writable_fields ReadOnlyRole.Meta →
     UserSerializer.getattr (UserSerializer.update ReadOnlyRole.Meta u vd) f
     = Some v).
Proof.
  intros Hv. unfold UserSerializer.update.
  rewrite writable_UserSerializer, writable_ReadOnlyRole.
  split; intros Hf;
    repeat (apply elem_of_cons in Hf as [->|Hf]);
    try (by apply elem_of_nil in Hf);
    simpl; rewrite Hv;
    repeat match goal with |- context [vd !! ?g] => destruct (vd !! g) end;
    reflexivity.
Qed.

(** What a PATCH on [me] does once the payload is valid. *)
Lemma get_user_info_patch (req : Request string) st u vd :
  user req = Some u → method req = "PATCH" →
  serializers.is_valid (me_serializer_class u)
    (UserSerializer.rules (users st) (Some (user_pk u))) true (data req)
  = Return vd →
  UserViewSet.get_user_info req st
  = ({| status_code := status.HTTP_200_OK;
        body := Data (UserSerializer.to_representation (me_serializer_class u)
                        (UserSerializer.update (me_serializer_class u) u vd)) |},
     UserSerializer.save_row
       (UserSerializer.update (me_serializer_class u) u vd) st).
Proof.
  intros Hu Hm Hv. unfold UserViewSet.get_user_info, me_serializer_class in *.
  rewrite Hu, Hm. simpl. by rewrite Hv.
Qed.

(** A PATCH on [me] that fails validation is answered 400 and stores
    nothing. *)
Lemma get_user_info_patch_invalid (req : Request string) st u e :
  user req = Some u → method req = "PATCH" →
  serializers.is_valid (me_serializer_class u)
    (UserSerializer.rules (users st) (Some (user_pk u))) true (data req)
  = Raise e →
  UserViewSet.get_user_info req st = (http.exception_handler e, st).
Proof.
  intros Hu Hm Hv. unfold UserViewSet.get_user_info, me_serializer_class in *.
  rewrite Hu, Hm. simpl. by rewrite Hv.
Qed.
End profile.

Section serializer_present.
Context {V : Type}.

(** With no failing field, a writable field present in the payload is in
    the validated data, validated. *)
Lemma to_internal_value_present (r : serializers.Rules V) partial fs
    (data : gmap string V) f v :
  (serializers.to_internal_value r partial fs data).1 = [] →
  f ∈ fs → data !! f = Some v →
  ∃ v', serializers.run_validation r f v = Some v'
        ∧ (serializers.to_internal_value r partial fs data).2 !! f = Some v'.
Proof.
  induction fs as [|g fs IH]; intros Herr Hin Hd; [by apply elem_of_nil in Hin|].
  simpl in *.
  destruct (serializers.to_internal_value r partial fs data) as [errors ret].
  simpl in IH.
  destruct (decide (g = f)) as [->|Hne].
  - rewrite Hd in *. destruct (serializers.run_validation r f v) as [v'|];
      simpl in *; [|done].
    exists v'. by rewrite lookup_insert_eq.
  - apply elem_of_cons in Hin as [?|Hin]; [congruence|].
    destruct (data !! g) as [w|];
      [destruct (serializers.run_validation r g w)|
       destruct (negb partial && serializers.required r g)];
      simpl in *; try done.
    + destruct (IH Herr Hin Hd) as (v' & ? & ?). exists v'.
      by rewrite lookup_insert_ne.
    + by apply IH.
Qed.

Lemma is_valid_present (m : serializers.Meta) (r : serializers.Rules V)
    partial (data ret : gmap string V) f v :
  serializers.is_valid m r partial data = Return ret →
  f ∈ serializers.writable_fields m → data !! f = Some v →
  ∃ v', serializers.run_validation r f v = Some v' ∧ ret !! f = Some v'.
Proof.
  unfold serializers.is_valid. intros Hv Hin Hd.
  pose proof (to_internal_value_present r partial
                (serializers.writable_fields m) data f v) as Hp.
  destruct (serializers.to_internal_value _ _ _ _) as [[|g errors] ret'];
    [|done].
  injection Hv as <-. by apply Hp.
Qed.

(** Under [partial] no field fails exactly when every field the payload
    carries passes its validation. *)
Lemma to_internal_value_partial (r : serializers.Rules V) fs
    (data : gmap string V) :
  (serializers.to_internal_value r true fs data).1 = [] ↔
  ∀ f v, f ∈ fs → data !! f = Some v →
         is_Some (serializers.run_validation r f v).
Proof.
  induction fs as [|g fs IH]; simpl.
  - split; [|done]. intros _ f v Hin. by apply elem_of_nil in Hin.
  - destruct (serializers.to_internal_value r true fs data) as [errors ret].
    simpl in IH.
    destruct (data !! g) as [w|] eqn:Hg;
      [destruct (serializers.run_validation r g w) as [w'|] eqn:Hw|];
      simpl.
    + rewrite IH. split.
      * intros Hall f v [->|Hin]%elem_of_cons Hd; [|by apply Hall].
        rewrite Hg in Hd. injection Hd as <-. by rewrite Hw.
      * intros Hall f v Hin. apply Hall. by apply list_elem_of_further.
    + split; [done|]. intros Hall.
      destruct (Hall g w (list_elem_of_here _ _) Hg) as [w' Hw'].
      congruence.
    + rewrite IH. split.
      * intros Hall f v [->|Hin]%elem_of_cons Hd; [congruence|by apply Hall].
      * intros Hall f v Hin. apply Hall. by apply list_elem_of_further.
Qed.

(** A partial update is accepted exactly when the writable fields the
    payload carries validate. *)
Lemma is_valid_partial (m : serializers.Meta) (r : serializers.Rules V)
    (data : gmap string V) :
  fields_validate m r data ↔
  ∃ ret, serializers.is_valid m r true data = Return ret.
Proof.
  unfold fields_validate, serializers.is_valid.
  rewrite <- to_internal_value_partial.
  destruct (serializers.to_internal_value _ _ _ _) as [[|g errors] ret];
    simpl; split; try done; eauto.
  by intros [? ?].
Qed.
End serializer_present.

Section profile_store.
Context `{UsersApp}.
Implicit Types (u : User) (st : Store).

Lemma stored_user_save_row u st pk :
  stored_user pk (UserSerializer.save_row u st)
  = if bool_decide (pk = user_pk u)
    then (λ _, u) <$> stored_user pk st
    else stored_user pk st.
Proof.
  unfold stored_user, UserSerializer.save_row. simpl.
  induction (users st) as [|x xs IH]; simpl.
  - by case_bool_decide.
  - destruct (decide (user_pk x = user_pk u)) as [Hx|Hx].
    + rewrite (bool_decide_eq_true_2 _ Hx).
      destruct (decide (pk = user_pk u)) as [->|Hpk].
      * by rewrite !bool_decide_eq_true_2.
      * rewrite (bool_decide_eq_false_2 (pk = _)) in * by done.
        rewrite !bool_decide_eq_false_2 by congruence. done.
    + rewrite (bool_decide_eq_false_2 _ Hx).
      destruct (decide (user_pk x = pk)) as [Hp|Hp].
      * rewrite (bool_decide_eq_true_2 _ Hp).
        rewrite bool_decide_eq_false_2 by congruence. done.
      * rewrite (bool_decide_eq_false_2 _ Hp). apply IH.
Qed.
End profile_store.

Section profile_patch.
Context `{UsersApp}.
Implicit Types (u : User) (st : Store).

Lemma getattr_role u r :
  UserSerializer.getattr u "role" = Some r → role u = r.
Proof. by intros [= <-]. Qed.

(** What the validation of [username] returns: the trimmed value, which
    is not blank, has at most 150 characters, passes the project's
    validator and is carried by no other row. *)
Lemma username_validated (table : list User) instance v value :
  serializers.run_validation (UserSerializer.rules table instance)
    "username" v = Some value →
  serializers.CharField v = Some value
  ∧ (str.len value ≤ 150)%nat
  ∧ username_validation value = true
  ∧ UserSerializer.username_is_unique table instance value = true.
Proof.
  simpl. destruct (serializers.CharField v) as [w|]; simpl; [|done].
  destruct (str.len w <=? 150)%nat eqn:Hl; simpl; [|done].
  destruct (username_validation w) eqn:Hn; simpl; [|done].
  destruct (UserSerializer.username_is_unique table instance w) eqn:Hq;
    simpl; [|done].
  intros [= <-]. apply Nat.leb_le in Hl. done.
Qed.

(** And every such value is returned. *)
Lemma username_accepted (table : list User) instance v value :
  field_text v value → (str.len value ≤ 150)%nat →
  username_validation value = true →
  UserSerializer.username_is_unique table instance value = true →
  serializers.run_validation (UserSerializer.rules table instance)
    "username" v = Some value.
Proof.
  intros Hcf%CharField_spec Hl%Nat.leb_le Hn Hu. simpl.
  rewrite Hcf. simpl. by rewrite Hl, Hn, Hu.
Qed.

(** A payload that names a role among the choices, and nothing else,
    passes the validation of [UserSerializer]. *)
Lemma role_payload_is_valid (table : list User) instance r :
  r ∈ UserSerializer.role_choices →
  serializers.is_valid UserSerializer.Meta
    (UserSerializer.rules table instance) true {[ "role" := r ]}
  = Return {[ "role" := r ]}.
Proof.
  intros Hr. unfold serializers.is_valid. rewrite writable_UserSerializer.
  cbn [serializers.to_internal_value].
  rewrite lookup_singleton_eq.
  rewrite !lookup_singleton_ne by done.
  cbn [serializers.run_validation UserSerializer.rules].
  rewrite (bool_decide_eq_false_2 ("role" = "username")) by done.
  rewrite (bool_decide_eq_true_2 ("role" = "role")) by done.
  rewrite (bool_decide_eq_true_2 _ Hr). simpl.
  by rewrite insert_empty.
Qed.

(** C3.  A PATCH on [me] by the authenticated user [u], whose stored row
    is [u]: when [u] is not an admin the stored role is what it was,
    whatever the payload holds; when [u] is an admin, the role of an
    accepted payload is the role stored afterwards, and a payload naming
    one of the role choices is accepted.  For either, the PATCH is
    answered 200 when every writable field the payload carries passes
    its validation ([role] is not among them for a non-admin, whose
    payload may carry any role), and 400 with nothing stored otherwise;
    a value of another profile field in an accepted payload is stored as
    validated, the username trimmed; and no other user's row changes. *)
Theorem me_patch_role (req : Request string) st u :
  user req = Some u → method req = "PATCH" →
  stored_user (user_pk u) st = Some u →
  let resp := (UserViewSet.get_user_info req st).1 in
  let st' := (UserViewSet.get_user_info req st).2 in
  let rules := UserSerializer.rules (users st) (Some (user_pk u)) in
  (is_admin u = false → role <$> stored_user (user_pk u) st' = Some (role u))
  ∧ (is_admin u = true → ∀ r,
       data req !! "role" = Some r →
       status_code resp = status.HTTP_200_OK →
       role <$> stored_user (user_pk u) st' = Some r)
  ∧ (is_admin u = true → ∀ r,
       r ∈ UserSerializer.role_choices → data req = {[ "role" := r ]} →
       status_code resp = status.HTTP_200_OK)
  ∧ (∀ f v,
       f ∈ ["username"; "email"; "first_name"; "last_name"; "bio"] →
       data req !! f = Some v →
       status_code resp = status.HTTP_200_OK →
       ∃ v', serializers.run_validation rules f v = Some v'
             ∧ stored_user (user_pk u) st' ≫= (λ x, UserSerializer.getattr x f)
               = Some v')
  ∧ (∀ pk, pk ≠ user_pk u → stored_user pk st' = stored_user pk st)
  ∧ (fields_validate (me_serializer_class u) rules (data req) →
     status_code resp = status.HTTP_200_OK)
  ∧ (¬ fields_validate (me_serializer_class u) rules (data req) →
     status_code resp = status.HTTP_400_BAD_REQUEST ∧ st' = st)
  ∧ (∀ v, data req !! "username" = Some v →
          status_code resp = status.HTTP_200_OK →
          username <$> stored_user (user_pk u) st' = Some (str.strip v)).
Proof.
  intros Hu Hm Hst resp st' rules.
  destruct (serializers.is_valid (me_serializer_class u) rules true (data req))
    as [vd|e] eqn:Hv.
  - pose proof (get_user_info_patch req st u vd Hu Hm Hv) as Hg.
    assert (fields_validate (me_serializer_class u) rules (data req)) as Hfv.
    { apply is_valid_partial. eauto. }
    subst resp st'. rewrite Hg. simpl.
    rewrite !stored_user_save_row, update_pk.
    rewrite (bool_decide_eq_true_2 (user_pk u = user_pk u)) by done.
    rewrite Hst. simpl.
    unfold me_serializer_class in *.
    split; [|split; [|split; [|split; [|split; [|split; [|split]]]]]];
      [| | | | |done|done|].
    + intros Ha. rewrite Ha. by rewrite update_ReadOnlyRole_role.
    + intros Ha r Hr _. rewrite Ha in *.
      destruct (is_valid_present _ _ _ _ _ "role" r Hv) as (v' & Hrv & Hvd);
        [rewrite writable_UserSerializer; repeat constructor|done|].
      assert (v' = r) as ->.
      { simpl in Hrv. destruct (_ || _); congruence. }
      f_equal. apply getattr_role.
      apply (update_getattr u vd "role" r Hvd).
      rewrite writable_UserSerializer. repeat constructor.
    + done.
    + intros f v Hf Hd _.
      assert (f ∈ serializers.writable_fields UserSerializer.Meta
              ∧ f ∈ serializers.writable_fields ReadOnlyRole.Meta) as [Hf1 Hf2].
      { rewrite writable_UserSerializer, writable_ReadOnlyRole.
        split; [|done].
        change (f ∈ ["username"; "email"; "first_name"; "last_name"; "bio"]
                    ++ ["role"]).
        apply elem_of_app. by left. }
      destruct (is_admin u).
      * destruct (is_valid_present _ _ _ _ _ f v Hv Hf1 Hd) as (v' & Hrv & Hvd).
        exists v'. split; [done|].
        by apply (update_getattr u vd f v' Hvd).
      * destruct (is_valid_present _ _ _ _ _ f v Hv Hf2 Hd) as (v' & Hrv & Hvd).
        exists v'. split; [done|].
        by apply (update_getattr u vd f v' Hvd).
    + intros pk Hpk. rewrite stored_user_save_row, update_pk.
      by rewrite (bool_decide_eq_false_2 _ Hpk).
    + intros v Hd _.
      assert ("username" ∈ serializers.writable_fields UserSerializer.Meta
              ∧ "username" ∈ serializers.writable_fields ReadOnlyRole.Meta)
        as [Hf1 Hf2].
      { rewrite writable_UserSerializer, writable_ReadOnlyRole.
        split; apply list_elem_of_here. }
      assert (∃ v', serializers.run_validation rules "username" v = Some v'
                    ∧ UserSerializer.getattr
                        (UserSerializer.update
                           (if is_admin u then UserSerializer.Meta
                            else ReadOnlyRole.Meta) u vd) "username"
                      = Some v') as (v' & Hrv & Hga).
      { destruct (is_admin u).
        - destruct (is_valid_present _ _ _ _ _ _ v Hv Hf1 Hd)
            as (v' & Hrv & Hvd).
          exists v'. split; [done|].
          by apply (update_getattr u vd "username" v' Hvd).
        - destruct (is_valid_present _ _ _ _ _ _ v Hv Hf2 Hd)
            as (v' & Hrv & Hvd).
          exists v'. split; [done|].
          by apply (update_getattr u vd "username" v' Hvd). }
      injection Hga as ->. f_equal.
      apply username_validated in Hrv as (Hcf & _). 
      by apply CharField_strip in Hcf as [-> _].
  - pose proof (get_user_info_patch_invalid req st u e Hu Hm Hv) as Hg.
    assert (¬ fields_validate (me_serializer_class u) rules (data req)) as Hfv.
    { rewrite is_valid_partial. intros [ret Hret]. congruence. }
    apply is_valid_raises in Hv as Hd. destruct Hd as [detail ->].
    subst resp st'. rewrite Hg. simpl.
    split; [|split; [|split; [|split; [|split; [|split; [|split]]]]]];
      try done.
    + intros _. by rewrite Hst.
    + intros Ha r Hr Hdata. unfold me_serializer_class in Hv.
      rewrite Ha, Hdata in Hv. subst rules.
      by rewrite (role_payload_is_valid _ _ r Hr) in Hv.
Qed.
End profile_patch.

(** Alice, who is no admin, asks for the admin role and keeps the role
    she had. *)
Lemma me_patch_role_witness :
  role <$> stored_user 1
    (@UserViewSet.get_user_info demo.users_app
       {| method := "PATCH"; user := Some demo.alice;
          data := {[ "role" := "admin" ]} |}
       demo.store).2
  = Some "user".
Proof.
  refine (proj1 (me_patch_role (H := demo.users_app)
                   {| method := "PATCH"; user := Some demo.alice;
                      data := {[ "role" := "admin" ]} |}
                   demo.store demo.alice _ _ _) _);
    reflexivity.
Defined.

(** The admin of the same store changes their own role. *)
Example me_patch_role_admin :
  role <$> stored_user 2
    (@UserViewSet.get_user_info demo.users_app
       {| method := "PATCH"; user := Some demo.root;
          data := {[ "role" := "moderator" ]} |}
       demo.store).2
  = Some "moderator".
Proof. vm_compute. reflexivity. Qed.

(** Alice changes her name and asks for the admin role in one PATCH: the
    answer is 200, the name is stored trimmed, the role is kept. *)
Example me_patch_by_non_admin :
  let answer :=
    @UserViewSet.get_user_info demo.users_app
      {| method := "PATCH"; user := Some demo.alice;
         data := {[ "username" := "carol "; "role" := "admin" ]} |}
      demo.store in
  status_code (answer.1) = 200
  ∧ (λ u, (username u, role u)) <$> stored_user 1 (answer.2)
    = Some ("carol", "user").
Proof. vm_compute. split; reflexivity. Qed.

(** ** Signup *)

Section signup.
Context `{UsersApp} `{Django}.
Implicit Types (req : Request string) (st : Store).

Lemma lookup_matches_spec (value : option string) column :
  SignupView.lookup_matches value column = true ↔ value = Some column.
Proof.
  unfold SignupView.lookup_matches. destruct value as [v|]; [|done].
  rewrite bool_decide_eq_true. split; congruence.
Qed.

Lemma username_and_email_exists_spec req st :
  existsb
    (λ u, SignupView.lookup_matches (data req !! "username") (username u)
          && SignupView.lookup_matches (data req !! "email") (email u))
    (users st) = true
  ↔ pair_registered (data req) st.
Proof.
  rewrite existsb_exists. unfold pair_registered.
  split; intros (u & Hin & Hu); exists u.
  - apply andb_prop in Hu as [?%lookup_matches_spec ?%lookup_matches_spec].
    by rewrite list_elem_of_In.
  - destruct Hu as [Hn He]. rewrite <- list_elem_of_In. split; [done|].
    apply andb_true_intro. by rewrite !lookup_matches_spec.
Qed.

Lemma signup_post_registered (now : Z) req st :
  pair_registered (data req) st →
  SignupView.post now req st
  = ({| status_code := status.HTTP_200_OK; body := Data (data req) |}, st).
Proof.
  intros Hp%username_and_email_exists_spec.
  unfold SignupView.post. by rewrite Hp.
Qed.

(** C9.  A signup whose username and e-mail are those of a stored user is
    answered 200 with the request data, and the store is left as it was:
    no user is added and nothing is put in the outbox.  The answer does
    not depend on the token generator either: no code is made. *)
Theorem signup_registered_pair_no_effect (now : Z) req st :
  pair_registered (data req) st →
  SignupView.post now req st
  = ({| status_code := status.HTTP_200_OK; body := Data (data req) |}, st)
  ∧ users (SignupView.post now req st).2 = users st
  ∧ outbox (SignupView.post now req st).2 = outbox st.
Proof.
  intros Hp. by rewrite (signup_post_registered now req st Hp).
Qed.
End signup.

Lemma signup_registered_pair_witness :
  @SignupView.post demo.users_app demo.django 0
    {| method := "POST"; user := None;
       data := {[ "username" := "alice"; "email" := "alice@example.com" ]} |}
    demo.store
  = ({| status_code := 200;
        body := Data {[ "username" := "alice";
                        "email" := "alice@example.com" ]} |},
     demo.store).
Proof.
  refine (proj1 (signup_registered_pair_no_effect (H := demo.users_app)
                   (H0 := demo.django) 0
                   {| method := "POST"; user := None;
                      data := {[ "username" := "alice";
                                 "email" := "alice@example.com" ]} |}
                   demo.store _)).
  exists demo.alice. split; [apply list_elem_of_here|].
  split; reflexivity.
Defined.

Section serializer_required.
Context {V : Type}.

(** Outside [partial], a required writable field of a valid payload is
    present in it. *)
Lemma is_valid_required (m : serializers.Meta) (r : serializers.Rules V)
    (data ret : gmap string V) f :
  serializers.is_valid m r false data = Return ret →
  f ∈ serializers.writable_fields m → serializers.required r f = true →
  is_Some (data !! f).
Proof.
  unfold serializers.is_valid.
  generalize (serializers.writable_fields m) as fs. intros fs Hv Hin Hreq.
  assert ((serializers.to_internal_value r false fs data).1 = []) as Herr.
  { destruct (serializers.to_internal_value _ _ _ _) as [[|g errors] ret'];
      done. }
  clear Hv. induction fs as [|g fs IH]; [by apply elem_of_nil in Hin|].
  simpl in Herr.
  destruct (serializers.to_internal_value r false fs data) as [errors ret'].
  simpl in IH.
  destruct (decide (g = f)) as [->|Hne].
  - destruct (data !! f) as [v|]; [eauto|]. simpl in Herr.
    by rewrite Hreq in Herr.
  - apply elem_of_cons in Hin as [?|Hin]; [congruence|]. apply IH; [done|].
    destruct (data !! g) as [w|];
      [destruct (serializers.run_validation r g w)|
       destruct (serializers.required r g)];
      simpl in Herr; done.
Qed.

(** A writable field of the payload that fails its validation fails the
    serializer, and is named in the error. *)
Lemma is_valid_field_error (m : serializers.Meta) (r : serializers.Rules V)
    partial (data : gmap string V) f v :
  f ∈ serializers.writable_fields m → data !! f = Some v →
  serializers.run_validation r f v = None →
  ∃ detail, f ∈ detail
            ∧ serializers.is_valid m r partial data
              = Raise (ValidationError detail).
Proof.
  unfold serializers.is_valid.
  generalize (serializers.writable_fields m) as fs. intros fs Hin Hd Hf.
  assert (f ∈ (serializers.to_internal_value r partial fs data).1) as Herr.
  { induction fs as [|g fs IH]; [by apply elem_of_nil in Hin|]. simpl.
    destruct (serializers.to_internal_value r partial fs data)
      as [errors ret']. simpl in IH.
    destruct (decide (g = f)) as [->|Hne].
    - rewrite Hd, Hf. simpl. apply list_elem_of_here.
    - apply elem_of_cons in Hin as [?|Hin]; [congruence|].
      specialize (IH Hin).
      destruct (data !! g) as [w|];
        [destruct (serializers.run_validation r g w)|
         destruct (negb partial && serializers.required r g)];
        simpl; try done; by apply list_elem_of_further. }
  destruct (serializers.to_internal_value _ _ _ _) as [[|g errors] ret'];
    simpl in Herr; [by apply elem_of_nil in Herr|eauto].
Qed.
End serializer_required.

Section signup_validation.
Context `{UsersApp} `{Django}.
Implicit Types (req : Request string) (st : Store).

Lemma username_is_unique_taken (table : list User) u :
  u ∈ table → UserSerializer.username_is_unique table None (username u) = false.
Proof.
  intros Hin. unfold UserSerializer.username_is_unique.
  apply negb_false_iff, existsb_exists. exists u.
  rewrite <- list_elem_of_In. split; [done|].
  by rewrite bool_decide_eq_true_2.
Qed.

(** A value that is, once trimmed, the name of a stored row other than
    the instance is refused as a username. *)
Lemma taken_username_refused (table : list User) instance u raw :
  u ∈ table → Some (user_pk u) ≠ instance →
  str.strip raw = username u →
  serializers.run_validation (UserSerializer.rules table instance)
    "username" raw = None.
Proof.
  intros Hin Hpk Htrim. simpl. unfold serializers.CharField.
  rewrite Htrim. destruct (bool_decide (username u = "")); [done|].
  destruct (str.has_null _ || str.has_surrogate _); [done|]. simpl.
  assert (UserSerializer.username_is_unique table instance (username u)
          = false) as ->; [|by rewrite !andb_false_r].
  unfold UserSerializer.username_is_unique.
  apply negb_false_iff, existsb_exists. exists u.
  rewrite <- list_elem_of_In. split; [done|].
  rewrite bool_decide_eq_true_2 by done.
  by rewrite bool_decide_eq_false_2.
Qed.

Lemma signup_post_unregistered now req st :
  ¬ pair_registered (data req) st →
  SignupView.post now req st
  = http.respond st (
      serializer_data ← SignupSerializer.is_valid (data req) st;
      match serializer_data !! "username" with
      | None => Raise ServerError
      | Some name =>
          let new_user :=
            (SignupView.create_user name (serializer_data !! "email") st).1 in
          let st1 :=
            (SignupView.create_user name (serializer_data !! "email") st).2 in
          Return ({| status_code := status.HTTP_200_OK;
                     body := Data serializer_data |},
                  SignupView.send_mail "Confirmation code for YaMDb"
                    ("Привет, " ++ username new_user ++ "!"
                     ++ "Твой код подтверждения: "
                     ++ make_token now new_user)%string
                    [email new_user] st1)
      end).
Proof.
  intros Hp. unfold SignupView.post.
  destruct (existsb _ _) eqn:He; [|done].
  by apply username_and_email_exists_spec in He.
Qed.

(** C10.  A signup whose username is that of a stored user, while no
    stored user carries both its username and its e-mail, is not taken
    as registered: the serializer rejects it with a validation error
    that names [username], the answer is 400, and the store is left as
    it was, so no user is created.  The username is compared as the
    serializer reads it, trimmed. *)
Theorem signup_taken_username_rejected (now : Z) req st :
  username_taken (data req) st → ¬ pair_registered (data req) st →
  ∃ detail,
    "username" ∈ detail
    ∧ SignupSerializer.is_valid (data req) st = Raise (ValidationError detail)
    ∧ SignupView.post now req st
      = ({| status_code := status.HTTP_400_BAD_REQUEST;
            body := Detail detail |}, st).
Proof.
  intros (u & raw & Hin & Hu & Htrim) Hp.
  destruct (is_valid_field_error SignupSerializer.Meta
              (UserSerializer.rules (users st) None) false (data req)
              "username" raw) as (detail & Hd & Hv).
  - repeat constructor.
  - done.
  - by apply (taken_username_refused _ _ u).
  - exists detail. split; [done|]. split; [done|].
    rewrite (signup_post_unregistered now req st Hp).
    unfold SignupSerializer.is_valid. by rewrite Hv.
Qed.
End signup_validation.

Lemma signup_taken_username_witness :
  ∃ detail,
    "username" ∈ detail
    ∧ @SignupSerializer.is_valid demo.users_app
        {[ "username" := "root"; "email" := "elsewhere@example.com" ]}
        demo.store
      = Raise (ValidationError detail)
    ∧ @SignupView.post demo.users_app demo.django 7
        {| method := "POST"; user := None;
           data := {[ "username" := "root";
                      "email" := "elsewhere@example.com" ]} |}
        demo.store
      = ({| status_code := 400; body := Detail detail |}, demo.store).
Proof.
  refine (signup_taken_username_rejected (H := demo.users_app)
            (H0 := demo.django) 7
            {| method := "POST"; user := None;
               data := {[ "username" := "root";
                          "email" := "elsewhere@example.com" ]} |}
            demo.store _ _).
  - exists demo.root, "root". split; [|split; reflexivity].
    apply list_elem_of_further, list_elem_of_here.
  - intros (u & Hin & _ & He).
    apply elem_of_cons in Hin as [->|Hin];
      [|apply list_elem_of_singleton in Hin as ->];
      vm_compute in He; discriminate He.
Defined.

Section signup_outcomes.
Context `{UsersApp} `{Django}.
Implicit Types (req : Request string) (st : Store).


(** The key an insert receives is carried by no row. *)
Lemma next_pk_fresh {A} (pk : A → Z) (rows : list A) (last : Z) :
  next_pk pk rows last ∉ map pk rows.
Proof.
  unfold next_pk.
  assert (∀ x, x ∈ map pk rows → x ≤ fold_right Z.max 0 (map pk rows)) as Hle.
  { induction rows as [|a rows IH]; simpl; intros x Hx;
      [by apply elem_of_nil in Hx|].
    apply elem_of_cons in Hx as [->|Hx]; [lia|]. specialize (IH x Hx). lia. }
  intros Hin. specialize (Hle _ Hin). lia.
Qed.

End signup_outcomes.


(** A new pair on the same store: Bob is stored and mailed his code. *)
Example signup_new_user :
  let answer :=
    @SignupView.post demo.users_app demo.django 0
      {| method := "POST"; user := None;
         data := {[ "username" := "bob"; "email" := "bob@example.com" ]} |}
      demo.store in
  status_code (answer.1) = 200
  ∧ map username (users (answer.2)) = ["alice"; "root"; "bob"]
  ∧ map mail_recipient_list (outbox (answer.2)) = [["bob@example.com"]].
Proof. vm_compute. repeat split. Qed.

(** A username sent with white space around it is stored trimmed, and the
    pair of the payload is then not the stored one: the same request
    sent again is refused, the trimmed name being taken. *)
Example signup_padded_username :
  let req := {| method := "POST"; user := None;
                data := {[ "username" := "bob ";
                           "email" := "bob@example.com" ]} |} in
  let first := @SignupView.post demo.users_app demo.django 0 req demo.store in
  let second := @SignupView.post demo.users_app demo.django 1 req (first.2) in
  status_code (first.1) = 200
  ∧ map username (users (first.2)) = ["alice"; "root"; "bob"]
  ∧ second = ({| status_code := 400; body := Detail ["username"] |}, first.2).
Proof. vm_compute. repeat split. Qed.

(** A name of 76 Cyrillic letters takes 152 bytes and is within the 150
    characters of the field. *)
Example signup_long_name :
  let name := "яяяяяяяяяяяяяяяяяяяяяяяяяяяяяяяяяяяяяяяяяяяяяяяяяяяяяяяяяяяяяяяяяяяяяяяяяяяя" in
  let answer :=
    @SignupView.post demo.users_app demo.django 0
      {| method := "POST"; user := None;
         data := {[ "username" := name; "email" := "ya@example.com" ]} |}
      demo.store in
  String.length name = 152%nat
  ∧ status_code (answer.1) = 200
  ∧ map username (users (answer.2)) = ["alice"; "root"; name].
Proof. vm_compute. repeat split. Qed.

(** The key of a deleted row is not handed out again: with the row of
    key 2 gone, the next user is stored under key 3. *)
Example signup_key_not_reused :
  let st := set_users (filter (λ u, user_pk u ≠ 2)) demo.store in
  let answer :=
    @SignupView.post demo.users_app demo.django 0
      {| method := "POST"; user := None;
         data := {[ "username" := "bob"; "email" := "bob@example.com" ]} |}
      st in
  map user_pk (users (answer.2)) = [1; 3].
Proof. vm_compute. reflexivity. Qed.

(** ** Token exchange *)

Section token.
Context `{Django}.
Implicit Types (req : Request string) (st : Store).

(** A payload whose username and confirmation code pass the character
    field passes the token serializer, which hands both on trimmed. *)
Lemma token_payload_is_valid (payload : gmap string string)
    raw_name raw_code name code :
  payload !! "username" = Some raw_name →
  payload !! "confirmation_code" = Some raw_code →
  serializers.CharField raw_name = Some name →
  serializers.CharField raw_code = Some code →
  ∃ vd, TokenSerializer.is_valid payload = Return vd
        ∧ vd !! "username" = Some name
        ∧ vd !! "confirmation_code" = Some code.
Proof.
  intros Hn Hc Hne Hce.
  unfold TokenSerializer.is_valid, serializers.is_valid.
  change (serializers.writable_fields TokenSerializer.Meta)
    with ["username"; "confirmation_code"].
  cbn [serializers.to_internal_value]. rewrite Hn, Hc.
  cbn [serializers.run_validation TokenSerializer.rules].
  rewrite Hne, Hce.
  eexists. split; [reflexivity|].
  split; [by rewrite lookup_insert_eq|].
  rewrite lookup_insert_ne by done. by rewrite lookup_insert_eq.
Qed.

Lemma get_user_or_404_found name st u :
  shortcuts.get_user_or_404 name st = Return u →
  u ∈ users st ∧ username u = name.
Proof.
  unfold shortcuts.get_user_or_404.
  destruct (find _ _) as [x|] eqn:Hf; [|done]. intros [= ->].
  apply find_some_elem in Hf as [Hin Hp%bool_decide_eq_true]. done.
Qed.

(** Usernames being unique, the lookup by the name of a stored user
    finds that user. *)
Lemma get_user_or_404_stored st u :
  usernames_unique st → u ∈ users st →
  shortcuts.get_user_or_404 (username u) st = Return u.
Proof.
  unfold usernames_unique, shortcuts.get_user_or_404.
  induction (users st) as [|x xs IH]; intros Hnd Hin;
    [by apply elem_of_nil in Hin|].
  simpl in *. apply NoDup_cons in Hnd as [Hx Hnd].
  destruct (decide (username x = username u)) as [He|Hne].
  - rewrite (bool_decide_eq_true_2 _ He).
    apply elem_of_cons in Hin as [->|Hin]; [done|].
    destruct Hx. rewrite He. apply list_elem_of_fmap. eauto.
  - rewrite (bool_decide_eq_false_2 _ Hne).
    apply elem_of_cons in Hin as [->|Hin]; [done|]. by apply IH.
Qed.

(** C5.  A token exchange with a username and a confirmation code, read
    as the serializer's character fields read them (trimmed, and not
    blank), whose username is that of the stored user [u], usernames
    being unique: the user record looked up is [u], and the code is
    checked against it; when the generator accepts the code for [u] the
    answer is 200 with an access token for [u], when it does not the
    answer is the 400 of [HttpResponseBadRequest]; the store is
    unchanged either way. *)
Theorem token_exchange (now : Z) req st raw_name raw_code name code u :
  data req !! "username" = Some raw_name →
  data req !! "confirmation_code" = Some raw_code →
  field_text raw_name name → field_text raw_code code →
  usernames_unique st → u ∈ users st → username u = name →
  shortcuts.get_user_or_404 name st = Return u
  ∧ (check_token now u code = true →
     GetTokenView.post now req st
     = ({| status_code := status.HTTP_200_OK;
           body := Data {[ "token" := access_token_for_user now u ]} |}, st))
  ∧ (check_token now u code = false →
     GetTokenView.post now req st
     = ({| status_code := status.HTTP_400_BAD_REQUEST;
           body := Text "Неверный код подтверждения" |}, st)).
Proof.
  intros Hn Hc Hne%CharField_spec Hce%CharField_spec Hnd Hin Hname.
  destruct (token_payload_is_valid (data req) _ _ name code Hn Hc Hne Hce)
    as (vd & Hv & Hvn & Hvc).
  pose proof (get_user_or_404_stored st u Hnd Hin) as Hu.
  rewrite Hname in Hu.
  split; [done|].
  split; intros Hk; unfold GetTokenView.post;
    rewrite Hv; simpl; rewrite Hvn, Hvc, Hu; simpl; by rewrite Hk.
Qed.

(** C6, as the code has it.  A token exchange leaves the store as it
    found it, whatever its answer.  A later exchange is therefore
    answered as if the earlier one had not taken place, and one repeated
    at the same clock value is answered as the first was: a code that was
    exchanged successfully is exchanged successfully again. *)
Theorem token_exchange_is_repeatable (now later : Z) req req' st :
  (GetTokenView.post now req st).2 = st
  ∧ GetTokenView.post later req' (GetTokenView.post now req st).2
    = GetTokenView.post later req' st
  ∧ (GetTokenView.post now req (GetTokenView.post now req st).2).1
    = (GetTokenView.post now req st).1.
Proof.
  assert (Hframe : ∀ t r, (GetTokenView.post t r st).2 = st).
  { intros t r. unfold GetTokenView.post.
    destruct (TokenSerializer.is_valid (data r)) as [vd|e]; simpl; [|done].
    destruct (vd !! "username") as [name|]; [|done].
    destruct (vd !! "confirmation_code") as [code|]; [|done].
    destruct (shortcuts.get_user_or_404 name st) as [u|e]; simpl; [|done].
    by destruct (check_token t u code). }
  split; [apply Hframe|]. by rewrite !Hframe.
Qed.
End token.

Lemma token_exchange_witness :
  @GetTokenView.post demo.django 0
    {| method := "POST"; user := None;
       data := {[ "username" := " alice";
                  "confirmation_code" := "alice-alice@example.com " ]} |}
    demo.store
  = ({| status_code := 200; body := Data {[ "token" := "jwt-alice" ]} |},
     demo.store).
Proof.
  refine (proj1 (proj2
            (token_exchange (H := demo.django) 0
               {| method := "POST"; user := None;
                  data := {[ "username" := " alice";
                             "confirmation_code" :=
                               "alice-alice@example.com " ]} |}
               demo.store " alice" "alice-alice@example.com "
               "alice" "alice-alice@example.com"
               demo.alice _ _ _ _ _ _ _)) _);
    try reflexivity.
  - by repeat split.
  - by repeat split.
  - unfold usernames_unique. simpl. repeat constructor.
    + intros Hin. apply list_elem_of_singleton in Hin. discriminate Hin.
    + intros Hin. by apply elem_of_nil in Hin.
  - apply list_elem_of_here.
Defined.

(** C6, as the claim states it, fails: the code made for Alice is
    exchanged for a token, and then exchanged for a token once more. *)
Lemma confirmation_code_exchanged_twice :
  let code := @make_token demo.django 0 demo.alice in
  let req := {| method := "POST"; user := None;
                data := {[ "username" := "alice";
                           "confirmation_code" := code ]} |} in
  let first := @GetTokenView.post demo.django 10 req demo.store in
  let second := @GetTokenView.post demo.django 20 req (first.2) in
  first.1 = {| status_code := 200; body := Data {[ "token" := "jwt-alice" ]} |}
  ∧ second.1
    = {| status_code := 200; body := Data {[ "token" := "jwt-alice" ]} |}.
Proof. vm_compute. split; reflexivity. Qed.

(** ** The rating of a title *)

Section rating.
Implicit Types (st : Store) (t : Title).

Lemma queryset_rows st row :
  row ∈ TitleViewSet.queryset st
  ↔ ∃ t, t ∈ titles st ∧ row = TitleViewSet.annotate st t.
Proof.
  unfold TitleViewSet.queryset. rewrite merge_sort_Permutation.
  rewrite list_elem_of_fmap.
  split; intros (t & Ht1 & Ht2); exists t; done.
Qed.

Lemma Avg_cons x xs :
  TitleViewSet.Avg (x :: xs)
  = Some (Qmake (foldr Z.add 0 (x :: xs)) (Pos.of_nat (length (x :: xs)))).
Proof. reflexivity. Qed.

Lemma Zpos_of_nat_length {A} (x : A) xs :
  Zpos (Pos.of_nat (length (x :: xs))) = Z.of_nat (length (x :: xs)).
Proof.
  rewrite <- positive_nat_Z, Nat2Pos.id; [done|]. simpl. lia.
Qed.

Lemma foldr_add_nonneg (xs : list Z) :
  Forall (λ s, 0 ≤ s) xs → 0 ≤ foldr Z.add 0 xs.
Proof. induction 1; simpl; lia. Qed.

(** C8, as the code has it.  The rows the titles endpoints serialize are
    the stored titles, each annotated with the average of the scores of
    its reviews.  The [rating] of a row is null when the title has no
    review, and otherwise the average with its fractional part dropped:
    the quotient, rounded toward zero, of the sum of the scores by their
    number, which for scores that are not negative is the integer [r]
    with [r <= average < r + 1].  It is never read from a payload: the
    data either title serializer validates holds no [rating]. *)
Theorem title_rating st t :
  let row := TitleViewSet.annotate st t in
  let scores := TitleViewSet.reviews__score t st in
  let total := foldr Z.add 0 scores in
  let n := Z.of_nat (length scores) in
  (∀ row', row' ∈ TitleViewSet.queryset st
           ↔ ∃ t', t' ∈ titles st ∧ row' = TitleViewSet.annotate st t')
  ∧ (scores = [] → TitleSerializer.rating row = None)
  ∧ (scores ≠ [] →
     TitleViewSet.reviews__score__avg row
     = Some (Qmake total (Pos.of_nat (length scores)))
     ∧ TitleSerializer.rating row = Some (total ÷ n)
     ∧ (Forall (λ s, 0 ≤ s) scores →
        (total ÷ n) * n ≤ total < (total ÷ n + 1) * n))
  ∧ GetTitleSerializer.rating row = TitleSerializer.rating row
  ∧ (∀ V (r : serializers.Rules V) partial (payload vd : gmap string V),
       (serializers.is_valid TitleSerializer.Meta r partial payload
        = Return vd → vd !! "rating" = None)
       ∧ (serializers.is_valid GetTitleSerializer.Meta r partial payload
          = Return vd → vd !! "rating" = None)).
Proof.
  intros row scores total n.
  split; [apply queryset_rows|]. split; [|split; [|split; [done|]]].
  - intros Hs. unfold TitleSerializer.rating, row. simpl.
    fold scores. by rewrite Hs.
  - intros Hs. unfold TitleSerializer.rating, row. simpl.
    fold scores. subst total n. destruct scores as [|x xs]; [done|].
    rewrite Avg_cons. split; [done|]. split.
    + simpl fmap. unfold TitleSerializer.IntegerField_to_representation.
      cbn [Qnum Qden].
      change (S (length xs)) with (length (x :: xs)).
      by rewrite Zpos_of_nat_length.
    + intros Hpos%foldr_add_nonneg.
      set (a := foldr Z.add 0 (x :: xs)) in *.
      set (b := Z.of_nat (length (x :: xs))).
      assert (0 < b) by (subst b; simpl; lia).
      pose proof (Z.quot_rem' a b). pose proof (Z.rem_bound_pos a b).
      nia.
  - intros V r partial payload vd. split; intros Hv;
      apply (is_valid_read_only _ _ _ _ _ _ Hv); repeat constructor.
Qed.
End rating.

(** C8, as the claim states it, fails: the title below has two reviews
    scored 1 and 2, whose average is 3/2, and its rating is 1. *)
Lemma rating_is_not_the_average :
  let row := TitleViewSet.annotate demo.store demo.film in
  TitleViewSet.reviews__score demo.film demo.store = [1; 2]
  ∧ TitleViewSet.reviews__score__avg row = Some (3 # 2)%Q
  ∧ TitleSerializer.rating row = Some 1
  ∧ ¬ (inject_Z 1 == 3 # 2)%Q.
Proof.
  split; [|split; [|split]]; try (vm_compute; reflexivity).
  unfold Qeq. simpl. lia.
Qed.

(** ** The handlers run on the concrete store *)

(** Alice has reviewed the film: a second POST is refused, a PATCH of the
    review she has passes the check. *)
Example second_review_refused :
  let ctx m := {| ReviewSerializer.request :=
                    {| method := m; user := Some demo.alice;
                       data := {[ "text" := VStr "again"; "score" := VInt 7 ]} |};
                  ReviewSerializer.kwargs := {[ "title_id" := 1 ]} |} in
  @ReviewSerializer.is_valid demo.reviews_app (ctx "POST") false demo.store
  = Raise (ValidationError ["Вы уже оставляли отзыв на это произведение"])
  ∧ @ReviewSerializer.is_valid demo.reviews_app (ctx "PATCH") true demo.store
    = Return {[ "text" := VStr "again"; "score" := VInt 7 ]}.
Proof. vm_compute. split; reflexivity. Qed.

Example scores_at_and_past_the_bounds :
  map (λ z, is_validation_error (ReviewSerializer.validate_score z))
    [0; 1; 5; 10; 11; -3]
  = [true; false; false; false; true; true].
Proof. reflexivity. Qed.

(** The reviews of a title that does not exist, and the comments of a
    review looked up under a title it does not belong to, are answered
    404; review 1 belongs to title 1. *)
Example unresolved_references_404 :
  let get kw := {| method := "GET"; user := None; data := ∅ |} in
  let reviews_of kw :=
    (viewsets.dispatch
       (@endpoints.review_viewset demo.reviews_app demo.perms)
       (get kw) kw demo.store).1 in
  let comments_of kw :=
    (viewsets.dispatch
       (@endpoints.comment_viewset demo.reviews_app demo.perms)
       (get kw) kw demo.store).1 in
  status_code (reviews_of {[ "title_id" := 999 ]}) = 404
  ∧ status_code (reviews_of {[ "title_id" := 1 ]}) = 200
  ∧ status_code (reviews_of {[ "title_id" := 2; "pk" := 1 ]}) = 404
  ∧ status_code (comments_of {[ "title_id" := 2; "review_id" := 1 ]}) = 404
  ∧ status_code (comments_of {[ "title_id" := 1; "review_id" := 1 ]}) = 200.
Proof. vm_compute. repeat split. Qed.

(** * Further properties of the handlers *)

(** ** Payload keys a serializer does not write *)

Section serializer_ignores.
Context {V : Type}.

(** A key that is none of the fields looked up does not matter to the
    validation. *)
Lemma to_internal_value_insert_other (r : serializers.Rules V) partial fs
    (data : gmap string V) k v :
  k ∉ fs →
  serializers.to_internal_value r partial fs (<[k:=v]> data)
  = serializers.to_internal_value r partial fs data.
Proof.
  induction fs as [|g fs IH]; intros Hk; [done|].
  apply not_elem_of_cons in Hk as [Hne Hk]. simpl.
  rewrite (IH Hk). by rewrite lookup_insert_ne.
Qed.

Lemma is_valid_insert_other (m : serializers.Meta) (r : serializers.Rules V)
    partial (data : gmap string V) k v :
  k ∉ serializers.writable_fields m →
  serializers.is_valid m r partial (<[k:=v]> data)
  = serializers.is_valid m r partial data.
Proof.
  intros Hk. unfold serializers.is_valid.
  by rewrite to_internal_value_insert_other.
Qed.
End serializer_ignores.

(** ** The self-profile endpoint, beyond the role *)

Section profile_more.
Context `{UsersApp}.
Implicit Types (req : Request string) (u : User) (st : Store).

Lemma to_representation_lookup (m : serializers.Meta) u f :
  serializers.fields m = serializers.fields UserSerializer.Meta →
  UserSerializer.to_representation m u !! f = UserSerializer.getattr u f.
Proof.
  intros Hm. unfold UserSerializer.to_representation. rewrite Hm. simpl.
  unfold UserSerializer.getattr.
  repeat (case_bool_decide;
          [subst f; by rewrite lookup_insert_eq
          |rewrite lookup_insert_ne by done]).
  apply lookup_empty.
Qed.

(** X1.  A GET on [me] is answered 200 with the caller's own record (all
    six serialized fields, the role among them) and leaves the store as
    it was; a method other than GET and PATCH is answered 405 and leaves
    the store as it was. *)
Theorem me_get_own_record req st u :
  user req = Some u →
  (method req = "GET" →
   ∃ d, UserViewSet.get_user_info req st
        = ({| status_code := status.HTTP_200_OK; body := Data d |}, st)
        ∧ d !! "username" = Some (username u)
        ∧ d !! "email" = Some (email u)
        ∧ d !! "first_name" = Some (first_name u)
        ∧ d !! "last_name" = Some (last_name u)
        ∧ d !! "bio" = Some (bio u)
        ∧ d !! "role" = Some (role u)
        ∧ ∀ f, is_Some (d !! f) →
               f ∈ ["username"; "email"; "first_name"; "last_name"; "bio";
                    "role"])
  ∧ (method req ∉ ["GET"; "PATCH"] →
     UserViewSet.get_user_info req st
     = ({| status_code := status.HTTP_405_METHOD_NOT_ALLOWED;
           body := Detail [] |}, st)).
Proof.
  intros Hu. unfold UserViewSet.get_user_info. rewrite Hu. split.
  - intros ->. simpl.
    eexists. split; [reflexivity|].
    repeat (split; [by rewrite to_representation_lookup|]).
    intros f. rewrite to_representation_lookup by done.
    unfold UserSerializer.getattr.
    repeat (case_bool_decide; [subst f; intros _; repeat constructor|]).
    by intros [? [=]].
  - intros Hm.
    rewrite (bool_decide_eq_false_2 (method req = "PATCH")).
    + rewrite (bool_decide_eq_false_2 (method req = "GET")); [done|].
      intros He. apply Hm. rewrite He. apply list_elem_of_here.
    + intros He. apply Hm. rewrite He.
      apply list_elem_of_further, list_elem_of_here.
Qed.

(** X2.  For a caller who is not an admin, the [role] of a PATCH payload
    is not even looked at: with any role value put in the payload, valid
    or not, the answer and the store are what they are without it. *)
Theorem me_patch_ignores_role req st u (r : string) :
  user req = Some u → is_admin u = false →
  UserViewSet.get_user_info
    {| method := "PATCH"; user := user req; data := <["role" := r]> (data req) |}
    st
  = UserViewSet.get_user_info
      {| method := "PATCH"; user := user req; data := data req |} st.
Proof.
  intros Hu Ha. unfold UserViewSet.get_user_info. simpl.
  rewrite Hu, Ha. simpl.
  rewrite is_valid_insert_other; [done|].
  rewrite writable_ReadOnlyRole.
  repeat (apply not_elem_of_cons; split; [done|]). apply not_elem_of_nil.
Qed.

(** X3.  For an admin, a PATCH whose [role] is neither one of the three
    choices nor blank is refused: the answer is 400, the error names
    [role], and nothing is stored. *)
Theorem me_patch_admin_bad_role req st u (r : string) :
  user req = Some u → method req = "PATCH" → is_admin u = true →
  data req !! "role" = Some r →
  r ∉ UserSerializer.role_choices → r ≠ "" →
  ∃ detail,
    "role" ∈ detail
    ∧ UserViewSet.get_user_info req st
      = ({| status_code := status.HTTP_400_BAD_REQUEST;
            body := Detail detail |}, st).
Proof.
  intros Hu Hm Ha Hd Hr Hb.
  destruct (is_valid_field_error UserSerializer.Meta
              (UserSerializer.rules (users st) (Some (user_pk u))) true
              (data req) "role" r) as (detail & Hin & Hv).
  - rewrite writable_UserSerializer. repeat constructor.
  - done.
  - simpl. rewrite (bool_decide_eq_false_2 _ Hr).
    by rewrite (bool_decide_eq_false_2 _ Hb).
  - exists detail. split; [done|].
    apply (get_user_info_patch_invalid req st u (ValidationError detail));
      [done|done|].
    unfold me_serializer_class. by rewrite Ha.
Qed.

(** X4.  A PATCH on [me] that asks for the username of another stored
    user (the value of the payload is that username once trimmed) is
    refused, for an admin and for anyone else: the answer is 400, the
    error names [username], and nothing is stored. *)
Theorem me_patch_taken_username req st u other raw :
  user req = Some u → method req = "PATCH" →
  other ∈ users st → user_pk other ≠ user_pk u →
  data req !! "username" = Some raw → str.strip raw = username other →
  ∃ detail,
    "username" ∈ detail
    ∧ UserViewSet.get_user_info req st
      = ({| status_code := status.HTTP_400_BAD_REQUEST;
            body := Detail detail |}, st).
Proof.
  intros Hu Hm Hin Hpk Hd Htrim.
  destruct (is_valid_field_error (me_serializer_class u)
              (UserSerializer.rules (users st) (Some (user_pk u))) true
              (data req) "username" raw) as (detail & Hdet & Hv).
  - unfold me_serializer_class. destruct (is_admin u);
      [rewrite writable_UserSerializer|rewrite writable_ReadOnlyRole];
      repeat constructor.
  - done.
  - apply (taken_username_refused _ _ other); [done|congruence|done].
  - exists detail. split; [done|].
    by apply (get_user_info_patch_invalid req st u (ValidationError detail)).
Qed.

(** X5.  The 200 answer to a PATCH on [me] shows the record as it is now
    stored, and a GET on [me] by the same user right after it is
    answered with the same body. *)
Theorem me_patch_then_get req st u :
  user req = Some u → method req = "PATCH" →
  stored_user (user_pk u) st = Some u →
  status_code (UserViewSet.get_user_info req st).1 = status.HTTP_200_OK →
  let resp := (UserViewSet.get_user_info req st).1 in
  let st' := (UserViewSet.get_user_info req st).2 in
  ∃ u', stored_user (user_pk u) st' = Some u'
        ∧ body resp = Data (UserSerializer.to_representation
                              UserSerializer.Meta u')
        ∧ UserViewSet.get_user_info
            {| method := "GET"; user := Some u'; data := ∅ |} st'
          = (resp, st').
Proof.
  intros Hu Hm Hst Hok resp st'.
  destruct (serializers.is_valid (me_serializer_class u)
              (UserSerializer.rules (users st) (Some (user_pk u))) true
              (data req)) as [vd|e] eqn:Hv.
  - pose proof (get_user_info_patch req st u vd Hu Hm Hv) as Hg.
    subst resp st'. rewrite Hg. simpl.
    exists (UserSerializer.update (me_serializer_class u) u vd).
    rewrite stored_user_save_row, update_pk.
    rewrite bool_decide_eq_true_2 by done. rewrite Hst. simpl.
    split; [done|].
    assert (UserSerializer.to_representation (me_serializer_class u)
            = UserSerializer.to_representation UserSerializer.Meta) as ->.
    { unfold me_serializer_class. by destruct (is_admin u). }
    done.
  - pose proof (get_user_info_patch_invalid req st u e Hu Hm Hv) as Hg.
    apply is_valid_raises in Hv as [detail ->].
    rewrite Hg in Hok. done.
Qed.
End profile_more.

Lemma me_get_own_record_witness :
  ∃ d, @UserViewSet.get_user_info demo.users_app
         {| method := "GET"; user := Some demo.alice; data := ∅ |} demo.store
       = ({| status_code := status.HTTP_200_OK; body := Data d |}, demo.store)
       ∧ d !! "username" = Some "alice"
       ∧ d !! "email" = Some "alice@example.com"
       ∧ d !! "first_name" = Some ""
       ∧ d !! "last_name" = Some ""
       ∧ d !! "bio" = Some ""
       ∧ d !! "role" = Some "user"
       ∧ ∀ f, is_Some (d !! f) →
              f ∈ ["username"; "email"; "first_name"; "last_name"; "bio"; "role"].
Proof.
  refine (proj1 (me_get_own_record (H := demo.users_app)
                   {| method := "GET"; user := Some demo.alice; data := ∅ |}
                   demo.store demo.alice _) _); reflexivity.
Defined.

Lemma me_patch_ignores_role_witness :
  @UserViewSet.get_user_info demo.users_app
    {| method := "PATCH"; user := Some demo.alice;
       data := <["role" := "owner"]> {[ "bio" := "reader" ]} |} demo.store
  = @UserViewSet.get_user_info demo.users_app
      {| method := "PATCH"; user := Some demo.alice;
         data := {[ "bio" := "reader" ]} |} demo.store.
Proof.
  refine (me_patch_ignores_role (H := demo.users_app)
            {| method := "PATCH"; user := Some demo.alice;
               data := {[ "bio" := "reader" ]} |}
            demo.store demo.alice "owner" _ _); reflexivity.
Defined.

Lemma me_patch_admin_bad_role_witness :
  ∃ detail,
    "role" ∈ detail
    ∧ @UserViewSet.get_user_info demo.users_app
        {| method := "PATCH"; user := Some demo.root;
           data := {[ "role" := "owner" ]} |} demo.store
      = ({| status_code := status.HTTP_400_BAD_REQUEST;
            body := Detail detail |}, demo.store).
Proof.
  refine (me_patch_admin_bad_role (H := demo.users_app)
            {| method := "PATCH"; user := Some demo.root;
               data := {[ "role" := "owner" ]} |}
            demo.store demo.root "owner" _ _ _ _ _ _);
    try reflexivity; [|discriminate].
  intros Hin. unfold UserSerializer.role_choices in Hin.
  repeat (apply elem_of_cons in Hin as [Hin|Hin]; [discriminate Hin|]).
  by apply elem_of_nil in Hin.
Defined.

Lemma me_patch_taken_username_witness :
  ∃ detail,
    "username" ∈ detail
    ∧ @UserViewSet.get_user_info demo.users_app
        {| method := "PATCH"; user := Some demo.alice;
           data := {[ "username" := "root" ]} |} demo.store
      = ({| status_code := status.HTTP_400_BAD_REQUEST;
            body := Detail detail |}, demo.store).
Proof.
  refine (me_patch_taken_username (H := demo.users_app)
            {| method := "PATCH"; user := Some demo.alice;
               data := {[ "username" := "root" ]} |}
            demo.store demo.alice demo.root "root" _ _ _ _ _ _);
    try reflexivity; [|discriminate].
  apply list_elem_of_further, list_elem_of_here.
Defined.

Lemma me_patch_then_get_witness :
  let req := {| method := "PATCH"; user := Some demo.root;
                data := {[ "bio" := "keeper" ]} |} in
  let resp := (@UserViewSet.get_user_info demo.users_app req demo.store).1 in
  let st' := (@UserViewSet.get_user_info demo.users_app req demo.store).2 in
  ∃ u', stored_user 2 st' = Some u'
        ∧ body resp = Data (UserSerializer.to_representation
                              UserSerializer.Meta u')
        ∧ @UserViewSet.get_user_info demo.users_app
            {| method := "GET"; user := Some u'; data := ∅ |} st'
          = (resp, st').
Proof.
  refine (me_patch_then_get (H := demo.users_app)
            {| method := "PATCH"; user := Some demo.root;
               data := {[ "bio" := "keeper" ]} |}
            demo.store demo.root _ _ _ _); reflexivity.
Defined.

(** ** Signup and token exchange, beyond the pair check *)

Section serializer_missing.
Context {V : Type}.

(** Outside [partial], a required writable field that the payload lacks
    fails the serializer, and is named in the error. *)
Lemma is_valid_missing_required (m : serializers.Meta)
    (r : serializers.Rules V) (data : gmap string V) f :
  f ∈ serializers.writable_fields m → serializers.required r f = true →
  data !! f = None →
  ∃ detail, f ∈ detail
            ∧ serializers.is_valid m r false data = Raise (ValidationError detail).
Proof.
  unfold serializers.is_valid.
  generalize (serializers.writable_fields m) as fs. intros fs Hin Hreq Hd.
  assert (f ∈ (serializers.to_internal_value r false fs data).1) as Herr.
  { induction fs as [|g fs IH]; [by apply elem_of_nil in Hin|]. simpl.
    destruct (serializers.to_internal_value r false fs data)
      as [errors ret']. simpl in IH.
    destruct (decide (g = f)) as [->|Hne].
    - rewrite Hd, Hreq. simpl. apply list_elem_of_here.
    - apply elem_of_cons in Hin as [?|Hin]; [congruence|].
      specialize (IH Hin).
      destruct (data !! g) as [w|];
        [destruct (serializers.run_validation r g w)|
         destruct (serializers.required r g)];
        simpl; try done; by apply list_elem_of_further. }
  destruct (serializers.to_internal_value _ _ _ _) as [[|g errors] ret'];
    simpl in Herr; [by apply elem_of_nil in Herr|eauto].
Qed.

(** A value of the validated data comes from the payload, validated. *)
Lemma is_valid_lookup (m : serializers.Meta) (r : serializers.Rules V)
    partial (data ret : gmap string V) f v' :
  serializers.is_valid m r partial data = Return ret →
  ret !! f = Some v' →
  ∃ v, data !! f = Some v ∧ serializers.run_validation r f v = Some v'.
Proof.
  unfold serializers.is_valid. intros Hv Hl.
  pose proof (to_internal_value_lookup r partial
                (serializers.writable_fields m) data f v') as Hk.
  destruct (serializers.to_internal_value _ _ _ _) as [[|g errors] ret'];
    [|done].
  injection Hv as <-. by apply Hk.
Qed.
End serializer_missing.

Section signup_more.
Context `{UsersApp} `{Django}.
Implicit Types (req : Request string) (st : Store).

Lemma username_is_unique_fresh (table : list User) name :
  UserSerializer.username_is_unique table None name = true →
  name ∉ map username table.
Proof.
  unfold UserSerializer.username_is_unique.
  intros Hu%negb_true_iff Hin.
  apply list_elem_of_fmap in Hin as (u & -> & Hin).
  apply not_true_iff_false in Hu. apply Hu.
  apply existsb_exists. exists u. rewrite <- list_elem_of_In.
  split; [done|]. by rewrite bool_decide_eq_true_2.
Qed.

(** What the signup serializer has checked of a username it let through:
    the validated name is the trimmed value of the payload. *)
Lemma signup_validated_username (payload vd : gmap string string) st :
  SignupSerializer.is_valid payload st = Return vd →
  ∃ raw name,
    payload !! "username" = Some raw ∧ name = str.strip raw
    ∧ vd !! "username" = Some name
    ∧ serializers.CharField raw = Some name
    ∧ name ≠ "" ∧ (str.len name ≤ 150)%nat
    ∧ username_validation name = true
    ∧ name ∉ map username (users st).
Proof.
  unfold SignupSerializer.is_valid. intros Hv.
  destruct (is_valid_required _ _ _ _ "username" Hv) as [raw Hd];
    [repeat constructor|done|].
  destruct (is_valid_present _ _ _ _ _ "username" raw Hv)
    as (name & Hrv & Hvd); [repeat constructor|done|].
  exists raw, name.
  apply username_validated in Hrv as (Hcf & Hl & Hn & Hu).
  pose proof (CharField_strip _ _ Hcf) as [Hs Hb].
  apply username_is_unique_fresh in Hu. done.
Qed.

(** A signup that is let through: the answer, and the store it leaves. *)
Lemma signup_post_created (now : Z) req st vd name :
  ¬ pair_registered (data req) st →
  SignupSerializer.is_valid (data req) st = Return vd →
  vd !! "username" = Some name →
  let new_user := (SignupView.create_user name (vd !! "email") st).1 in
  SignupView.post now req st
  = ({| status_code := status.HTTP_200_OK; body := Data vd |},
     SignupView.send_mail "Confirmation code for YaMDb"
       ("Привет, " ++ name ++ "!" ++ "Твой код подтверждения: "
        ++ make_token now new_user)%string
       [email new_user]
       (SignupView.create_user name (vd !! "email") st).2).
Proof.
  intros Hp Hv Hn. rewrite (signup_post_unregistered now req st Hp), Hv.
  simpl. by rewrite Hn.
Qed.

(** The outcomes of a signup, by the user it stores if any. *)
Lemma signup_post_cases (now : Z) req st :
  SignupView.post now req st
  = ({| status_code := status.HTTP_200_OK; body := Data (data req) |}, st)
    ∧ pair_registered (data req) st
  ∨ (∃ detail, SignupView.post now req st
               = ({| status_code := status.HTTP_400_BAD_REQUEST;
                     body := Detail detail |}, st))
  ∨ (∃ vd raw name,
       ¬ pair_registered (data req) st
       ∧ SignupSerializer.is_valid (data req) st = Return vd
       ∧ vd !! "username" = Some name
       ∧ data req !! "username" = Some raw
       ∧ serializers.CharField raw = Some name
       ∧ (name ∉ map username (users st))
       ∧ SignupView.post now req st
         = ({| status_code := status.HTTP_200_OK; body := Data vd |},
            SignupView.send_mail "Confirmation code for YaMDb"
              ("Привет, " ++ name ++ "!" ++ "Твой код подтверждения: "
               ++ make_token now
                    (SignupView.create_user name (vd !! "email") st).1)%string
              [email (SignupView.create_user name (vd !! "email") st).1]
              (SignupView.create_user name (vd !! "email") st).2)).
Proof.
  destruct (existsb
              (λ u, SignupView.lookup_matches (data req !! "username") (username u)
                    && SignupView.lookup_matches (data req !! "email") (email u))
              (users st)) eqn:He.
  - apply username_and_email_exists_spec in He. left.
    split; [by apply signup_post_registered|done].
  - assert (¬ pair_registered (data req) st) as Hp.
    { intros Hp%username_and_email_exists_spec. congruence. }
    right. destruct (SignupSerializer.is_valid (data req) st) as [vd|e] eqn:Hv.
    + right.
      destruct (signup_validated_username _ _ _ Hv)
        as (raw & name & Hd & _ & Hn & Hcf & _ & _ & _ & Hfresh).
      exists vd, raw, name. repeat (split; [done|]).
      by apply signup_post_created.
    + left. unfold SignupSerializer.is_valid in Hv.
      apply is_valid_raises in Hv as Hd. destruct Hd as [detail ->].
      exists detail. rewrite (signup_post_unregistered now req st Hp).
      unfold SignupSerializer.is_valid. by rewrite Hv.
Qed.

(** X6.  Signup keeps usernames unique: when no two stored users share a
    username before a signup request, whatever it holds, none do after
    it. *)
Theorem signup_keeps_usernames_unique (now : Z) req st :
  usernames_unique st → usernames_unique (SignupView.post now req st).2.
Proof.
  unfold usernames_unique. intros Hu.
  destruct (signup_post_cases now req st)
    as [[-> _]|[[detail ->]|(vd & raw & name & _ & _ & _ & _ & _ & Hfresh & ->)]];
    try done.
  simpl. rewrite map_app. simpl. apply NoDup_app. split; [done|].
  split; [|apply NoDup_singleton].
  intros x Hx ->%list_elem_of_singleton. done.
Qed.

End signup_more.

Lemma signup_keeps_usernames_unique_witness :
  usernames_unique
    (@SignupView.post demo.users_app demo.django 0
       {| method := "POST"; user := None;
          data := {[ "username" := "bob"; "email" := "bob@example.com" ]} |}
       demo.store).2.
Proof.
  refine (signup_keeps_usernames_unique (H := demo.users_app)
            (H0 := demo.django) 0
            {| method := "POST"; user := None;
               data := {[ "username" := "bob";
                          "email" := "bob@example.com" ]} |}
            demo.store _).
  unfold usernames_unique. simpl.
  apply NoDup_cons. split.
  - intros ?%list_elem_of_singleton. discriminate.
  - apply NoDup_singleton.
Defined.

Section signup_compose.
Context `{UsersApp} `{Django}.
Implicit Types (req : Request string) (st : Store).



(** X9.  A signup whose username is missing, or is, once trimmed, blank,
    longer than 150 characters or refused by the username validator, and
    whose pair is not that of a stored user, is answered 400 with an
    error that names [username]; no user is stored and no mail is
    sent. *)
Theorem signup_bad_username (now : Z) req st :
  ¬ pair_registered (data req) st →
  (data req !! "username" = None
   ∨ ∃ v, data req !! "username" = Some v
          ∧ (str.strip v = "" ∨ (150 < str.len (str.strip v))%nat
             ∨ username_validation (str.strip v) = false)) →
  ∃ detail,
    "username" ∈ detail
    ∧ SignupView.post now req st
      = ({| status_code := status.HTTP_400_BAD_REQUEST;
            body := Detail detail |}, st).
Proof.
  intros Hp Hbad.
  assert (∃ detail, "username" ∈ detail
                    ∧ SignupSerializer.is_valid (data req) st
                      = Raise (ValidationError detail))
    as (detail & Hin & Hv).
  { unfold SignupSerializer.is_valid. destruct Hbad as [Hd|(v & Hd & Hbad)].
    - apply is_valid_missing_required; [repeat constructor|done|done].
    - apply (is_valid_field_error _ _ _ _ "username" v);
        [repeat constructor|done|].
      destruct (serializers.run_validation _ "username" v) as [w|] eqn:Hrv;
        [|done].
      apply username_validated in Hrv as (Hcf & Hl & Hn & _).
      apply CharField_strip in Hcf as [-> Hb].
      destruct Hbad as [He|[Hlong|Hno]]; [done|lia|congruence]. }
  exists detail. split; [done|].
  rewrite (signup_post_unregistered now req st Hp). by rewrite Hv.
Qed.

End signup_compose.


Lemma signup_bad_username_witness :
  ∃ detail,
    "username" ∈ detail
    ∧ @SignupView.post demo.users_app demo.django 0
        {| method := "POST"; user := None;
           data := {[ "username" := "me"; "email" := "me@example.com" ]} |}
        demo.store
      = ({| status_code := status.HTTP_400_BAD_REQUEST;
            body := Detail detail |}, demo.store).
Proof.
  refine (signup_bad_username (H := demo.users_app) (H0 := demo.django) 0
            {| method := "POST"; user := None;
               data := {[ "username" := "me";
                          "email" := "me@example.com" ]} |}
            demo.store _ _).
  - intros (u & Hin & Hn & _).
    apply elem_of_cons in Hin as [->|Hin];
      [|apply list_elem_of_singleton in Hin as ->];
      vm_compute in Hn; discriminate Hn.
  - right. exists "me". split; [reflexivity|]. right. right. reflexivity.
Defined.


Section token_more.
Context `{Django}.
Implicit Types (req : Request string) (st : Store).

(** X11.  A token request with a username and a confirmation code, read
    as the serializer's character fields read them (trimmed, and not
    blank), whose username is that of no stored user, is answered 404,
    whatever the code; the store is unchanged. *)
Theorem token_unknown_user (now : Z) req st raw_name raw_code name code :
  data req !! "username" = Some raw_name →
  data req !! "confirmation_code" = Some raw_code →
  field_text raw_name name → field_text raw_code code →
  name ∉ map username (users st) →
  GetTokenView.post now req st = (http.exception_handler Http404, st)
  ∧ status_code (GetTokenView.post now req st).1 = status.HTTP_404_NOT_FOUND.
Proof.
  intros Hn Hc Hne%CharField_spec Hce%CharField_spec Hfresh.
  destruct (token_payload_is_valid (data req) _ _ name code Hn Hc Hne Hce)
    as (vd & Hv & Hvn & Hvc).
  assert (shortcuts.get_user_or_404 name st = Raise Http404) as Hu.
  { unfold shortcuts.get_user_or_404.
    destruct (find _ _) as [u|] eqn:Hf; [|done].
    apply find_some_elem in Hf as [Hin Hp%bool_decide_eq_true].
    destruct Hfresh. rewrite <- Hp. by apply list_elem_of_fmap_2. }
  assert (GetTokenView.post now req st = (http.exception_handler Http404, st))
    as ->; [|done].
  unfold GetTokenView.post. rewrite Hv. simpl. by rewrite Hvn, Hvc, Hu.
Qed.

(** X12.  A token request that lacks the username or the confirmation
    code, or carries one that is blank once trimmed, is answered 400
    with an error that names the field, before any user is looked up or
    any code is checked: the answer is the same whatever the store and
    the token generator hold. *)
Theorem token_missing_field (now : Z) req st f :
  f ∈ ["username"; "confirmation_code"] →
  (data req !! f = None
   ∨ ∃ v, data req !! f = Some v ∧ str.strip v = "") →
  ∃ detail,
    f ∈ detail
    ∧ TokenSerializer.is_valid (data req) = Raise (ValidationError detail)
    ∧ ∀ now' st',
        GetTokenView.post now' req st'
        = ({| status_code := status.HTTP_400_BAD_REQUEST;
              body := Detail detail |}, st').
Proof.
  intros Hf Hd.
  assert (f ∈ serializers.writable_fields TokenSerializer.Meta) as Hw by done.
  assert (∃ detail, f ∈ detail
                    ∧ TokenSerializer.is_valid (data req)
                      = Raise (ValidationError detail))
    as (detail & Hin & Hv).
  { unfold TokenSerializer.is_valid. destruct Hd as [Hd|(v & Hd & Hb)].
    - by apply is_valid_missing_required.
    - apply (is_valid_field_error _ _ _ _ f v); [done|done|].
      by apply CharField_blank. }
  exists detail. split; [done|]. split; [done|].
  intros now' st'. unfold GetTokenView.post. by rewrite Hv.
Qed.
End token_more.

Lemma token_unknown_user_witness :
  @GetTokenView.post demo.django 0
    {| method := "POST"; user := None;
       data := {[ "username" := "carol "; "confirmation_code" := "x" ]} |}
    demo.store
  = (http.exception_handler Http404, demo.store)
  ∧ status_code
      (@GetTokenView.post demo.django 0
         {| method := "POST"; user := None;
            data := {[ "username" := "carol "; "confirmation_code" := "x" ]} |}
         demo.store).1
    = status.HTTP_404_NOT_FOUND.
Proof.
  refine (token_unknown_user (H := demo.django) 0
            {| method := "POST"; user := None;
               data := {[ "username" := "carol ";
                          "confirmation_code" := "x" ]} |}
            demo.store "carol " "x" "carol" "x" _ _ _ _ _);
    try reflexivity; try (by repeat split).
  simpl. intros Hin.
  repeat (apply elem_of_cons in Hin as [Hin|Hin]; [discriminate Hin|]).
  by apply elem_of_nil in Hin.
Defined.

Lemma token_missing_field_witness :
  ∃ detail,
    "confirmation_code" ∈ detail
    ∧ TokenSerializer.is_valid {[ "username" := "alice" ]}
      = Raise (ValidationError detail)
    ∧ ∀ now' st',
        @GetTokenView.post demo.django now'
          {| method := "POST"; user := None;
             data := {[ "username" := "alice" ]} |} st'
        = ({| status_code := status.HTTP_400_BAD_REQUEST;
              body := Detail detail |}, st').
Proof.
  refine (token_missing_field (H := demo.django) 0
            {| method := "POST"; user := None;
               data := {[ "username" := "alice" ]} |}
            demo.store "confirmation_code" _ _).
  - apply list_elem_of_further, list_elem_of_here.
  - left. reflexivity.
Defined.

(** ** The nested endpoints: who may write, and what a read leaves *)

Section nested_permissions.
Context `{ReviewsApp} `{Permissions}.
Implicit Types (req : Request Value) (kw : Kwargs) (st : Store).

(** X13.  An anonymous request with a method that is not GET, HEAD or
    OPTIONS is answered 401 by both nested endpoints, whatever the path
    and the payload, and whatever the project's own permission class
    says: nothing is looked up, validated or stored. *)
Theorem nested_anonymous_write_401 req kw st :
  user req = None → method req ∉ SAFE_METHODS →
  viewsets.dispatch endpoints.review_viewset req kw st
  = ({| status_code := status.HTTP_401_UNAUTHORIZED; body := Detail [] |}, st)
  ∧ viewsets.dispatch endpoints.comment_viewset req kw st
    = ({| status_code := status.HTTP_401_UNAUTHORIZED; body := Detail [] |}, st).
Proof.
  intros Hu Hm. pose proof (anonymous_write_denied req Hu Hm) as Hd.
  split; unfold viewsets.dispatch, viewsets.handle.
  - change (viewsets.permission_classes endpoints.review_viewset)
      with endpoints.permission_classes. by rewrite Hd.
  - change (viewsets.permission_classes endpoints.comment_viewset)
      with endpoints.permission_classes. by rewrite Hd.
Qed.
End nested_permissions.

Section safe_methods.
Context {Obj : Type}.
Implicit Types (vs : viewsets.ViewSet Obj) (req : Request Value).
Implicit Types (kw : Kwargs) (st : Store).

(** X14.  A GET, HEAD or OPTIONS request to a model viewset never changes
    the store, whatever its answer. *)
Theorem safe_method_keeps_store vs req kw st :
  method req ∈ SAFE_METHODS →
  (viewsets.dispatch vs req kw st).2 = st.
Proof.
  intros Hm. unfold viewsets.dispatch, viewsets.handle.
  destruct (permissions.check_permissions _ _) as [[]|e]; simpl; [|done].
  assert (viewsets.route (method req) (bool_decide (is_Some (kw !! "pk")))
          = (if bool_decide (method req = "OPTIONS") then None
             else if bool_decide (is_Some (kw !! "pk"))
                  then Some viewsets.Retrieve else Some viewsets.List_))
    as ->.
  { unfold SAFE_METHODS in Hm.
    repeat (apply elem_of_cons in Hm as [->|Hm]);
      [..|by apply elem_of_nil in Hm];
      unfold viewsets.route; simpl; by destruct (bool_decide _). }
  case_bool_decide; [done|].
  case_bool_decide.
  - unfold viewsets.retrieve.
    by destruct (viewsets.get_object vs req kw st).
  - unfold viewsets.list_.
    by destruct (viewsets.get_queryset vs kw st).
Qed.
End safe_methods.

Lemma nested_anonymous_write_witness :
  let req := {| method := "POST"; user := None;
                data := {[ "text" := VStr "x"; "score" := VInt 5 ]} |} in
  let kw : Kwargs := {[ "title_id" := 1 ]} in
  viewsets.dispatch (@endpoints.review_viewset demo.reviews_app demo.perms)
    req kw demo.store
  = ({| status_code := status.HTTP_401_UNAUTHORIZED; body := Detail [] |},
     demo.store)
  ∧ viewsets.dispatch (@endpoints.comment_viewset demo.reviews_app demo.perms)
      req kw demo.store
    = ({| status_code := status.HTTP_401_UNAUTHORIZED; body := Detail [] |},
       demo.store).
Proof.
  refine (nested_anonymous_write_401 (H := demo.reviews_app) (H0 := demo.perms)
            {| method := "POST"; user := None;
               data := {[ "text" := VStr "x"; "score" := VInt 5 ]} |}
            {[ "title_id" := 1 ]} demo.store _ _); [reflexivity|].
  simpl. intros Hin. unfold SAFE_METHODS in Hin.
  repeat (apply elem_of_cons in Hin as [Hin|Hin]; [discriminate Hin|]).
  by apply elem_of_nil in Hin.
Defined.

Lemma safe_method_keeps_store_witness :
  (viewsets.dispatch (@endpoints.review_viewset demo.reviews_app demo.perms)
     {| method := "GET"; user := None; data := ∅ |}
     {[ "title_id" := 1 ]} demo.store).2
  = demo.store.
Proof.
  refine (safe_method_keeps_store
            (@endpoints.review_viewset demo.reviews_app demo.perms)
            {| method := "GET"; user := None; data := ∅ |}
            {[ "title_id" := 1 ]} demo.store _).
  apply list_elem_of_here.
Defined.

(** ** Reviews: what the endpoint keeps true of the stored reviews *)

Section review_store.
Context `{ReviewsApp} `{Permissions}.
Implicit Types (req : Request Value) (kw : Kwargs) (st : Store).

Lemma exception_handler_not_created e :
  status_code (http.exception_handler e) ≠ status.HTTP_201_CREATED.
Proof. by destruct e. Qed.

Lemma route_destroy m detail :
  viewsets.route m detail = Some viewsets.Destroy → m = "DELETE".
Proof.
  unfold viewsets.route.
  destruct detail; repeat (case_bool_decide; simpl; try done);
    destruct (bool_decide (m = "GET") || bool_decide (m = "HEAD")); done.
Qed.

(** The serializer context the view builds. *)
Lemma review_is_valid_fields req kw partial st attrs :
  viewsets.is_valid endpoints.review_viewset req kw partial st = Return attrs →
  serializers.is_valid ReviewSerializer.Meta ReviewSerializer.rules partial
    (data req) = Return attrs
  ∧ (method req = "POST" →
     ∃ author, user req = Some author
               ∧ ReviewSerializer.review_exists author (kw !! "title_id") st
                 = false).
Proof.
  simpl. unfold ReviewSerializer.is_valid. simpl.
  destruct (serializers.is_valid _ _ _ _) as [a|e]; simpl; [|done].
  unfold ReviewSerializer.validate. simpl.
  case_bool_decide as Hm; simpl.
  - destruct (user req) as [author|]; [|done].
    destruct (ReviewSerializer.review_exists _ _ _) eqn:He; [done|].
    intros [= ->]. split; [done|]. eauto.
  - intros [= ->]. split; [done|]. intros Hp. done.
Qed.

(** A validated score is an integer from 1 to 10, a validated text a
    string. *)
Lemma review_attrs_typed partial (payload attrs : gmap string Value) :
  serializers.is_valid ReviewSerializer.Meta ReviewSerializer.rules partial
    payload = Return attrs →
  (∀ v, attrs !! "score" = Some v → ∃ z, v = VInt z ∧ 1 ≤ z ≤ 10)
  ∧ (∀ v, attrs !! "text" = Some v → ∃ t, v = VStr t).
Proof.
  intros Hv. split; intros v Hl;
    destruct (is_valid_lookup _ _ _ _ _ _ _ Hv Hl) as (v0 & _ & Hrv);
    simpl in Hrv.
  - destruct (score_field v0) as [z|]; [|done]. simpl in Hrv.
    rewrite validate_score_spec in Hrv.
    case_bool_decide; [|done]. injection Hrv as <-. eauto.
  - destruct (text_field v0) as [t|]; [|done]. injection Hrv as <-. eauto.
Qed.

Lemma review_get_object_stored req kw st r :
  viewsets.get_object endpoints.review_viewset req kw st = Return r →
  r ∈ reviews st ∧ Some (review_title r) = kw !! "title_id"
  ∧ Some (review_pk r) = kw !! "pk".
Proof.
  unfold viewsets.get_object. simpl. unfold ReviewViewSet.get_queryset.
  destruct (shortcuts.get_title_or_404 _ _) as [t|e] eqn:Ht; simpl; [|done].
  apply get_title_or_404_found in Ht as [_ Ht].
  unfold shortcuts.get_by_pk_or_404.
  destruct (kw !! "pk") as [i|]; [|done].
  destruct (find _ _) as [x|] eqn:Hf; simpl; [|done].
  apply find_some_elem in Hf as [[Hq Hin]%list_elem_of_filter Hp].
  apply bool_decide_eq_true in Hp.
  destruct (permissions.check_object_permissions _ _ _); simpl; [|done].
  intros [= ->]. rewrite Ht, Hq, Hp. done.
Qed.

(** What a request to the review endpoint can do to the store. *)
Lemma review_dispatch_cases req kw st :
  let answer := viewsets.dispatch endpoints.review_viewset req kw st in
  (answer.2 = st ∧ status_code (answer.1) ≠ status.HTTP_201_CREATED)
  ∨ (∃ attrs author title text score,
       method req = "POST" ∧ user req = Some author
       ∧ viewsets.is_valid endpoints.review_viewset req kw false st = Return attrs
       ∧ shortcuts.get_title_or_404 (kw !! "title_id") st = Return title
       ∧ attrs !! "text" = Some (VStr text)
       ∧ attrs !! "score" = Some (VInt score)
       ∧ let r := {| review_pk :=
                       next_pk review_pk (reviews st) (sequence "reviews" st);
                     review_text := text; review_author := user_pk author;
                     review_score := score; review_title := title_pk title |} in
         answer = ({| status_code := status.HTTP_201_CREATED;
                      body := Reviews [r] |},
                   set_reviews (λ rs, rs ++ [r])
                     (set_sequence "reviews" (review_pk r) st)))
  ∨ (∃ partial r attrs,
       r ∈ reviews st
       ∧ viewsets.is_valid endpoints.review_viewset req kw partial st
         = Return attrs
       ∧ answer.2 = (endpoints.review_update r attrs st).2
       ∧ status_code (answer.1) = status.HTTP_200_OK)
  ∨ method req = "DELETE".
Proof.
  intros answer. subst answer. unfold viewsets.dispatch, viewsets.handle.
  destruct (permissions.check_permissions _ _) as [[]|e]; simpl;
    [|left; split; [done|apply exception_handler_not_created]].
  destruct (viewsets.route _ _) as [[]|] eqn:Hr.
  - left. unfold viewsets.list_.
    destruct (viewsets.get_queryset _ _ _); simpl; split; try done.
    apply exception_handler_not_created.
  - apply route_create in Hr as [Hm _]. unfold viewsets.create.
    destruct (viewsets.is_valid _ _ _ _ _) as [attrs|e] eqn:Hv;
      [|left; split; [done|apply exception_handler_not_created]].
    destruct (review_is_valid_fields _ _ _ _ _ Hv) as [Hf Ha].
    destruct (Ha Hm) as (author & Hu & _).
    simpl. unfold ReviewViewSet.perform_create.
    destruct (shortcuts.get_title_or_404 _ _) as [title|e] eqn:Ht;
      [|left; split; [done|apply exception_handler_not_created]].
    simpl. rewrite Hu. unfold ReviewViewSet.save.
    destruct (attrs !! "text") as [[text|]|] eqn:Htx;
      try (left; split; [done|apply exception_handler_not_created]).
    destruct (attrs !! "score") as [[|score]|] eqn:Hsc;
      try (left; split; [done|apply exception_handler_not_created]).
    right. left. exists attrs, author, title, text, score.
    repeat (split; [done|]). reflexivity.
  - left. unfold viewsets.retrieve.
    destruct (viewsets.get_object _ _ _ _); simpl; split; try done.
    apply exception_handler_not_created.
  - unfold viewsets.update.
    destruct (viewsets.get_object _ _ _ _) as [r|e] eqn:Hg;
      [|left; split; [done|apply exception_handler_not_created]].
    apply review_get_object_stored in Hg as [Hin _].
    destruct (viewsets.is_valid _ _ _ _ _) as [attrs|e] eqn:Hv;
      [|left; split; [done|apply exception_handler_not_created]].
    right. right. left. exists false, r, attrs.
    split; [done|]. split; [exact Hv|]. done.
  - unfold viewsets.update.
    destruct (viewsets.get_object _ _ _ _) as [r|e] eqn:Hg;
      [|left; split; [done|apply exception_handler_not_created]].
    apply review_get_object_stored in Hg as [Hin _].
    destruct (viewsets.is_valid _ _ _ _ _) as [attrs|e] eqn:Hv;
      [|left; split; [done|apply exception_handler_not_created]].
    right. right. left. exists true, r, attrs.
    split; [done|]. split; [exact Hv|]. done.
  - right. right. right. by apply route_destroy in Hr.
  - left. destruct (bool_decide (method req = "OPTIONS")); simpl.
    + split; [reflexivity|]. by intros [=].
    + split; [reflexivity|].
      apply (exception_handler_not_created MethodNotAllowed).
Qed.
End review_store.

Section review_invariants.
Context `{ReviewsApp} `{Permissions}.
Implicit Types (req : Request Value) (kw : Kwargs) (st : Store).

Lemma NoDup_map_eq {A B} `{EqDecision B} (g : A → B) (l : list A) x y :
  NoDup (map g l) → x ∈ l → y ∈ l → g x = g y → x = y.
Proof.
  induction l as [|a l IH]; simpl; intros Hnd Hx Hy Hg;
    [by apply elem_of_nil in Hx|].
  apply NoDup_cons in Hnd as [Ha Hnd].
  apply elem_of_cons in Hx as [->|Hx]; apply elem_of_cons in Hy as [->|Hy].
  - done.
  - destruct Ha. rewrite Hg. by apply list_elem_of_fmap_2.
  - destruct Ha. rewrite <- Hg. by apply list_elem_of_fmap_2.
  - by apply IH.
Qed.

(** Overwriting the row of a stored review keeps every column the new
    row shares with the old one. *)
Lemma map_overwrite_review {B} (f : Review → B) (l : list Review) r r' :
  NoDup (map review_pk l) → r ∈ l → f r' = f r →
  map f (map (λ x, if bool_decide (review_pk x = review_pk r) then r' else x) l)
  = map f l.
Proof.
  intros Hnd Hr Hf. rewrite map_map. apply map_ext_in.
  intros x Hx%list_elem_of_In. case_bool_decide as Hpk; [|done].
  by rewrite (NoDup_map_eq review_pk l x r Hnd Hx Hr Hpk).
Qed.

(** X15.  The review endpoint keeps reviews unique: when no two stored
    reviews share their author and title, nor their key, the same holds
    after any request other than a DELETE, whatever its path, user and
    payload. *)
Theorem review_endpoint_keeps_unique req kw st :
  reviews_unique st → method req ≠ "DELETE" →
  reviews_unique (viewsets.dispatch endpoints.review_viewset req kw st).2.
Proof.
  intros [Hpair Hpk] Hm.
  destruct (review_dispatch_cases req kw st)
    as [[-> _]|[(attrs & author & title & text & score & Hpost & Hu & Hv & Ht
                 & _ & _ & ->)
               |[(partial & r & attrs & Hin & _ & -> & _)|?]]];
    [done| | |done].
  - destruct (review_is_valid_fields _ _ _ _ _ Hv) as [_ Ha].
    destruct (Ha Hpost) as (author' & Hu' & Hex).
    assert (author' = author) as -> by congruence.
    apply get_title_or_404_found in Ht as [_ Ht].
    unfold reviews_unique. simpl. rewrite !map_app. simpl. split.
    + apply NoDup_app. split; [done|]. split; [|apply NoDup_singleton].
      intros x Hx ->%list_elem_of_singleton.
      apply list_elem_of_fmap in Hx as (r & [= Hra Hrt] & Hr).
      apply not_true_iff_false in Hex. apply Hex.
      apply review_exists_spec. exists r. by rewrite Ht, Hrt.
    + apply NoDup_app. split; [done|]. split; [|apply NoDup_singleton].
      intros x Hx ->%list_elem_of_singleton.
      by apply (next_pk_fresh review_pk (reviews st) _ Hx).
  - unfold reviews_unique. simpl.
    by rewrite !map_overwrite_review.
Qed.

(** X16.  The review endpoint keeps scores in range: when every stored
    score lies between 1 and 10, the same holds after any request other
    than a DELETE. *)
Theorem review_endpoint_keeps_scores req kw st :
  scores_in_range st → method req ≠ "DELETE" →
  scores_in_range (viewsets.dispatch endpoints.review_viewset req kw st).2.
Proof.
  intros Hs Hm. unfold scores_in_range in *.
  destruct (review_dispatch_cases req kw st)
    as [[-> _]|[(attrs & author & title & text & score & Hpost & Hu & Hv & Ht
                 & _ & Hsc & ->)
               |[(partial & r & attrs & Hin & Hv & -> & _)|?]]];
    [done| | |done];
    destruct (review_is_valid_fields _ _ _ _ _ Hv) as [Hf _];
    destruct (review_attrs_typed _ _ _ Hf) as [Hscore _].
  - simpl. apply Forall_app. split; [done|].
    apply Forall_singleton. simpl.
    destruct (Hscore _ Hsc) as (z & [= <-] & Hz). done.
  - simpl. apply Forall_forall.
    intros x (y & -> & Hy)%list_elem_of_fmap.
    rewrite Forall_forall in Hs.
    case_bool_decide; [|by apply Hs]. simpl.
    destruct (attrs !! "score") as [[|z]|] eqn:Hsc; try by apply Hs.
    destruct (Hscore _ eq_refl) as (z' & [= <-] & Hz). done.
Qed.

(** X17.  A review that was created is listed: after a POST answered
    201, the answer shows one review, authored by the user of the
    request, attached to the title of the path, with a score from 1 to
    10; the reviews of that title are those listed before followed by
    this one, and no other stored review has changed. *)
Theorem review_created_is_listed req kw st :
  method req = "POST" →
  status_code (viewsets.dispatch endpoints.review_viewset req kw st).1
  = status.HTTP_201_CREATED →
  let answer := viewsets.dispatch endpoints.review_viewset req kw st in
  ∃ r author qs,
    body (answer.1) = Reviews [r]
    ∧ user req = Some author ∧ review_author r = user_pk author
    ∧ Some (review_title r) = kw !! "title_id"
    ∧ 1 ≤ review_score r ≤ 10
    ∧ reviews (answer.2) = reviews st ++ [r]
    ∧ ReviewViewSet.get_queryset kw st = Return qs
    ∧ ReviewViewSet.get_queryset kw (answer.2) = Return (qs ++ [r]).
Proof.
  intros Hm Hok answer. subst answer.
  destruct (review_dispatch_cases req kw st)
    as [[_ Hne]|[(attrs & author & title & text & score & Hpost & Hu & Hv & Ht
                  & _ & Hsc & Heq)
                |[(partial & r & attrs & _ & _ & _ & Hs)|Hd]]];
    [done| |by rewrite Hs in Hok|by rewrite Hm in Hd].
  destruct (review_is_valid_fields _ _ _ _ _ Hv) as [Hf _].
  destruct (review_attrs_typed _ _ _ Hf) as [Hscore _].
  destruct (Hscore _ Hsc) as (z & [= <-] & Hz).
  simpl in Heq. rewrite Heq. simpl.
  eexists _, author, _. split; [reflexivity|]. split; [done|].
  pose proof (get_title_or_404_found _ _ _ Ht) as [_ Hid].
  simpl. split; [done|]. split; [by rewrite Hid|]. split; [done|].
  split; [done|].
  unfold ReviewViewSet.get_queryset.
  rewrite (get_title_or_404_frame _ st (set_reviews _ _)) by reflexivity.
  rewrite Ht. simpl. split; [reflexivity|].
  rewrite filter_app. f_equal. f_equal.
  rewrite filter_cons_True by done. done.
Qed.
End review_invariants.

Lemma review_endpoint_keeps_unique_witness :
  reviews_unique
    (viewsets.dispatch (@endpoints.review_viewset demo.reviews_app demo.perms)
       {| method := "POST"; user := Some demo.alice;
          data := {[ "text" := VStr "long"; "score" := VInt 9 ]} |}
       {[ "title_id" := 2 ]} demo.store).2.
Proof.
  refine (review_endpoint_keeps_unique (H := demo.reviews_app)
            (H0 := demo.perms)
            {| method := "POST"; user := Some demo.alice;
               data := {[ "text" := VStr "long"; "score" := VInt 9 ]} |}
            {[ "title_id" := 2 ]} demo.store _ _); [|discriminate].
  split; by apply (bool_decide_unpack _).
Defined.

Lemma review_endpoint_keeps_scores_witness :
  scores_in_range
    (viewsets.dispatch (@endpoints.review_viewset demo.reviews_app demo.perms)
       {| method := "PATCH"; user := Some demo.alice;
          data := {[ "score" := VInt 10 ]} |}
       {[ "title_id" := 1; "pk" := 1 ]} demo.store).2.
Proof.
  refine (review_endpoint_keeps_scores (H := demo.reviews_app)
            (H0 := demo.perms)
            {| method := "PATCH"; user := Some demo.alice;
               data := {[ "score" := VInt 10 ]} |}
            {[ "title_id" := 1; "pk" := 1 ]} demo.store _ _); [|discriminate].
  unfold scores_in_range. simpl. repeat constructor; simpl; lia.
Defined.

Lemma review_created_is_listed_witness :
  let req := {| method := "POST"; user := Some demo.alice;
                data := {[ "text" := VStr "long"; "score" := VInt 9 ]} |} in
  let kw : Kwargs := {[ "title_id" := 2 ]} in
  let answer :=
    viewsets.dispatch (@endpoints.review_viewset demo.reviews_app demo.perms)
      req kw demo.store in
  ∃ r author qs,
    body (answer.1) = Reviews [r]
    ∧ user req = Some author ∧ review_author r = user_pk author
    ∧ Some (review_title r) = kw !! "title_id"
    ∧ 1 ≤ review_score r ≤ 10
    ∧ reviews (answer.2) = reviews demo.store ++ [r]
    ∧ ReviewViewSet.get_queryset kw demo.store = Return qs
    ∧ ReviewViewSet.get_queryset kw (answer.2) = Return (qs ++ [r]).
Proof.
  refine (review_created_is_listed (H := demo.reviews_app) (H0 := demo.perms)
            {| method := "POST"; user := Some demo.alice;
               data := {[ "text" := VStr "long"; "score" := VInt 9 ]} |}
            {[ "title_id" := 2 ]} demo.store _ _); reflexivity.
Defined.

(** ** Comments, listings, and the keys a review payload cannot set *)

Section comment_store.
Context `{ReviewsApp} `{Permissions}.
Implicit Types (req : Request Value) (kw : Kwargs) (st : Store).

Lemma get_review_or_404_found kw st title r :
  shortcuts.get_review_or_404 (kw !! "review_id") title st = Return r →
  r ∈ reviews st ∧ kw !! "review_id" = Some (review_pk r)
  ∧ review_title r = title_pk title.
Proof.
  unfold shortcuts.get_review_or_404.
  destruct (kw !! "review_id") as [i|]; [|done].
  destruct (find _ _) as [x|] eqn:Hf; [|done]. intros [= ->].
  apply find_some_elem in Hf as [Hin [Hp Hq]%andb_prop].
  apply bool_decide_eq_true in Hp, Hq. by subst.
Qed.

(** What a POST to the comment endpoint can do. *)
Lemma comment_post_cases req kw st :
  method req = "POST" →
  let answer := viewsets.dispatch endpoints.comment_viewset req kw st in
  (answer.2 = st ∧ status_code (answer.1) ≠ status.HTTP_201_CREATED)
  ∨ ∃ author title review text,
      user req = Some author
      ∧ shortcuts.get_title_or_404 (kw !! "title_id") st = Return title
      ∧ shortcuts.get_review_or_404 (kw !! "review_id") title st = Return review
      ∧ let c := {| comment_pk :=
                      next_pk comment_pk (comments st) (sequence "comments" st);
                    comment_text := text; comment_author := user_pk author;
                    comment_review := review_pk review |} in
        answer = ({| status_code := status.HTTP_201_CREATED;
                     body := Comments [c] |},
                  set_comments (λ cs, cs ++ [c])
                    (set_sequence "comments" (comment_pk c) st)).
Proof.
  intros Hm answer. subst answer. unfold viewsets.dispatch, viewsets.handle.
  destruct (permissions.check_permissions _ _) as [[]|e]; simpl;
    [|left; split; [done|apply exception_handler_not_created]].
  rewrite Hm. unfold viewsets.route. simpl.
  destruct (bool_decide (is_Some (kw !! "pk"))); simpl.
  { left. split; [done|]. apply (exception_handler_not_created MethodNotAllowed). }
  unfold viewsets.create.
  destruct (viewsets.is_valid _ _ _ _ _) as [attrs|e];
    [|left; split; [done|apply exception_handler_not_created]].
  simpl. unfold CommentViewSet.perform_create.
  destruct (shortcuts.get_title_or_404 _ _) as [title|e] eqn:Ht;
    [|left; split; [done|apply exception_handler_not_created]].
  simpl.
  destruct (shortcuts.get_review_or_404 _ _ _) as [review|e] eqn:Hr;
    [|left; split; [done|apply exception_handler_not_created]].
  simpl.
  destruct (user req) as [author|];
    [|left; split; [done|apply (exception_handler_not_created ServerError)]].
  unfold CommentViewSet.save.
  destruct (attrs !! "text") as [[text|]|];
    try (left; split; [done|apply (exception_handler_not_created ServerError)]).
  right. exists author, title, review, text. done.
Qed.

(** X18.  A comment that was created is listed under its review: after a
    POST answered 201, the answer shows one comment, authored by the
    user of the request and attached to the review of the path, which is
    a stored review of the title of the path; the comments of that
    review are those listed before followed by this one, and the stored
    reviews are untouched. *)
Theorem comment_created_is_listed req kw st :
  method req = "POST" →
  status_code (viewsets.dispatch endpoints.comment_viewset req kw st).1
  = status.HTTP_201_CREATED →
  let answer := viewsets.dispatch endpoints.comment_viewset req kw st in
  ∃ c author review qs,
    body (answer.1) = Comments [c]
    ∧ user req = Some author ∧ comment_author c = user_pk author
    ∧ review ∈ reviews st ∧ comment_review c = review_pk review
    ∧ kw !! "review_id" = Some (review_pk review)
    ∧ kw !! "title_id" = Some (review_title review)
    ∧ comments (answer.2) = comments st ++ [c]
    ∧ reviews (answer.2) = reviews st
    ∧ CommentViewSet.get_queryset kw st = Return qs
    ∧ CommentViewSet.get_queryset kw (answer.2) = Return (qs ++ [c]).
Proof.
  intros Hm Hok answer. subst answer.
  destruct (comment_post_cases req kw st Hm)
    as [[_ Hne]|(author & title & review & text & Hu & Ht & Hr & Heq)];
    [done|].
  simpl in Heq. rewrite Heq. simpl.
  pose proof (get_title_or_404_found _ _ _ Ht) as [_ Htid].
  pose proof (get_review_or_404_found _ _ _ _ Hr) as (Hin & Hrid & Hrt).
  eexists _, author, review, _.
  split; [reflexivity|]. repeat (split; [done|]).
  split; [by rewrite Htid, Hrt|]. split; [done|]. split; [done|].
  unfold CommentViewSet.get_queryset.
  rewrite (get_title_or_404_frame _ st (set_comments _ _)) by reflexivity.
  rewrite Ht. simpl.
  rewrite (get_review_or_404_frame _ _ st (set_comments _ _)) by reflexivity.
  rewrite Hr. simpl. split; [reflexivity|].
  rewrite filter_app. f_equal. f_equal.
  rewrite filter_cons_True by done. done.
Qed.

(** X19.  A listing shows the rows of its path and no others: the reviews
    listed under a title are exactly the stored reviews of that title,
    and the comments listed under a review of a title are exactly the
    stored comments of that review, which is a stored review of that
    title. *)
Theorem listings_follow_the_path kw st :
  (∀ qs, ReviewViewSet.get_queryset kw st = Return qs →
         ∀ r, r ∈ qs ↔ r ∈ reviews st ∧ Some (review_title r) = kw !! "title_id")
  ∧ (∀ qs, CommentViewSet.get_queryset kw st = Return qs →
           (∃ review, review ∈ reviews st
                      ∧ Some (review_pk review) = kw !! "review_id"
                      ∧ Some (review_title review) = kw !! "title_id")
           ∧ ∀ c, c ∈ qs ↔ c ∈ comments st
                           ∧ Some (comment_review c) = kw !! "review_id").
Proof.
  split; intros qs.
  - unfold ReviewViewSet.get_queryset.
    destruct (shortcuts.get_title_or_404 _ _) as [t|e] eqn:Ht; simpl; [|done].
    apply get_title_or_404_found in Ht as [_ Ht]. intros [= <-] r.
    rewrite list_elem_of_filter, Ht. split; intros [? ?]; split; congruence.
  - unfold CommentViewSet.get_queryset.
    destruct (shortcuts.get_title_or_404 _ _) as [t|e] eqn:Ht; simpl; [|done].
    destruct (shortcuts.get_review_or_404 _ _ _) as [r|e] eqn:Hr; simpl;
      [|done].
    apply get_title_or_404_found in Ht as [_ Ht].
    apply get_review_or_404_found in Hr as (Hin & Hrid & Hrt).
    intros [= <-]. split.
    + exists r. by rewrite Ht, Hrid, Hrt.
    + intros c. rewrite list_elem_of_filter, Hrid.
      split; intros [? ?]; split; congruence.
Qed.
End comment_store.

Lemma comment_created_is_listed_witness :
  let req := {| method := "POST"; user := Some demo.root;
                data := {[ "text" := VStr "agreed" ]} |} in
  let kw : Kwargs := {[ "title_id" := 1; "review_id" := 1 ]} in
  let answer :=
    viewsets.dispatch (@endpoints.comment_viewset demo.reviews_app demo.perms)
      req kw demo.store in
  ∃ c author review qs,
    body (answer.1) = Comments [c]
    ∧ user req = Some author ∧ comment_author c = user_pk author
    ∧ review ∈ reviews demo.store ∧ comment_review c = review_pk review
    ∧ kw !! "review_id" = Some (review_pk review)
    ∧ kw !! "title_id" = Some (review_title review)
    ∧ comments (answer.2) = comments demo.store ++ [c]
    ∧ reviews (answer.2) = reviews demo.store
    ∧ CommentViewSet.get_queryset kw demo.store = Return qs
    ∧ CommentViewSet.get_queryset kw (answer.2) = Return (qs ++ [c]).
Proof.
  refine (comment_created_is_listed (H := demo.reviews_app) (H0 := demo.perms)
            {| method := "POST"; user := Some demo.root;
               data := {[ "text" := VStr "agreed" ]} |}
            {[ "title_id" := 1; "review_id" := 1 ]} demo.store _ _);
    reflexivity.
Defined.

Section review_read_only.
Context `{ReviewsApp} `{Permissions}.
Implicit Types (kw : Kwargs) (st : Store).

Lemma review_is_valid_ignores (m : string) (u : option User)
    (d : gmap string Value) kw partial st k v :
  k ∈ serializers.read_only ReviewSerializer.Meta →
  viewsets.is_valid endpoints.review_viewset
    {| method := m; user := u; data := <[k:=v]> d |} kw partial st
  = viewsets.is_valid endpoints.review_viewset
      {| method := m; user := u; data := d |} kw partial st.
Proof.
  intros Hk. simpl. unfold ReviewSerializer.is_valid. simpl.
  rewrite is_valid_insert_other.
  - by destruct (serializers.is_valid _ _ _ _).
  - unfold serializers.writable_fields. rewrite list_elem_of_filter. tauto.
Qed.

(** X20.  The author and the title of a review cannot be set through the
    payload: with any value put under [author] or [title], the review
    endpoint answers and stores what it does without it. *)
Theorem review_payload_cannot_set_read_only (m : string) (u : option User)
    (d : gmap string Value) kw st k v :
  k ∈ ["author"; "title"] →
  viewsets.dispatch endpoints.review_viewset
    {| method := m; user := u; data := <[k:=v]> d |} kw st
  = viewsets.dispatch endpoints.review_viewset
      {| method := m; user := u; data := d |} kw st.
Proof.
  intros Hk.
  assert (k ∈ serializers.read_only ReviewSerializer.Meta) as Hro.
  { simpl. apply elem_of_cons in Hk as [->|Hk]; [repeat constructor|].
    apply list_elem_of_singleton in Hk as ->. repeat constructor. }
  unfold viewsets.dispatch, viewsets.handle, viewsets.create, viewsets.update.
  rewrite !(review_is_valid_ignores m u d kw _ st k v Hro).
  reflexivity.
Qed.
End review_read_only.

Lemma review_payload_read_only_witness :
  viewsets.dispatch (@endpoints.review_viewset demo.reviews_app demo.perms)
    {| method := "POST"; user := Some demo.alice;
       data := <["author" := VStr "root"]>
                 {[ "text" := VStr "long"; "score" := VInt 9 ]} |}
    {[ "title_id" := 2 ]} demo.store
  = viewsets.dispatch (@endpoints.review_viewset demo.reviews_app demo.perms)
      {| method := "POST"; user := Some demo.alice;
         data := {[ "text" := VStr "long"; "score" := VInt 9 ]} |}
      {[ "title_id" := 2 ]} demo.store.
Proof.
  refine (review_payload_cannot_set_read_only (H := demo.reviews_app)
            (H0 := demo.perms) "POST" (Some demo.alice)
            {[ "text" := VStr "long"; "score" := VInt 9 ]}
            {[ "title_id" := 2 ]} demo.store "author" (VStr "root") _).
  apply list_elem_of_here.
Defined.

(** ** Titles: the range of the rating *)

Section titles_more.
Implicit Types (st : Store) (t : Title).

Lemma sum_bounds (xs : list Z) lo hi :
  Forall (λ s, lo ≤ s ≤ hi) xs →
  lo * Z.of_nat (length xs) ≤ foldr Z.add 0 xs ≤ hi * Z.of_nat (length xs).
Proof.
  induction 1 as [|x xs Hx _ IH]; [simpl; lia|].
  cbn [foldr length]. rewrite Nat2Z.inj_succ. lia.
Qed.

(** X22.  The rating stays within the scores: when every stored score
    lies between 1 and 10, the rating of every title that has one lies
    between 1 and 10 as well. *)
Theorem rating_in_range st t r :
  scores_in_range st →
  TitleSerializer.rating (TitleViewSet.annotate st t) = Some r →
  1 ≤ r ≤ 10.
Proof.
  unfold scores_in_range, TitleSerializer.rating. simpl. intros Hs.
  assert (Forall (λ s, 1 ≤ s ≤ 10) (TitleViewSet.reviews__score t st)) as Hf.
  { unfold TitleViewSet.reviews__score. apply Forall_forall.
    intros s (x & -> & [_ Hx]%list_elem_of_filter)%list_elem_of_fmap.
    rewrite Forall_forall in Hs. by apply Hs. }
  destruct (TitleViewSet.reviews__score t st) as [|x xs] eqn:Hsc; [done|].
  rewrite Avg_cons. simpl fmap. intros [= <-].
  unfold TitleSerializer.IntegerField_to_representation. cbn [Qnum Qden].
  change (S (length xs)) with (length (x :: xs)).
  rewrite Zpos_of_nat_length.
  pose proof (sum_bounds _ 1 10 Hf) as Hb.
  cbn [foldr] in *.
  set (a := x + foldr Z.add 0 xs) in *.
  set (b := Z.of_nat (length (x :: xs))) in *.
  assert (0 < b) by (subst b; simpl; lia).
  rewrite Z.quot_div_nonneg by lia.
  split.
  - apply Z.div_le_lower_bound; lia.
  - apply Z.div_le_upper_bound; lia.
Qed.
End titles_more.

Lemma rating_in_range_witness :
  1 ≤ default 0 (TitleSerializer.rating
                   (TitleViewSet.annotate demo.store demo.film)) ≤ 10.
Proof.
  refine (rating_in_range demo.store demo.film 1 _ _); [|reflexivity].
  unfold scores_in_range. simpl. repeat constructor; simpl; lia.
Defined.

(** ** The users viewset *)

Section users_rows.
Implicit Types (u : User) (l : list User).

(** Overwriting the row of a stored user keeps the keys, and keeps the
    usernames distinct when no other row carries the new username. *)
Lemma overwrite_user_row l u0 u :
  NoDup (map user_pk l) → NoDup (map username l) →
  u0 ∈ l → user_pk u = user_pk u0 →
  (∀ y, y ∈ l → username y = username u → user_pk y = user_pk u0) →
  let l' := map (λ x, if bool_decide (user_pk x = user_pk u) then u else x) l in
  map user_pk l' = map user_pk l ∧ NoDup (map username l').
Proof.
  intros Hpk Hname Hin Hu Hfree l'. subst l'. split.
  - rewrite map_map. apply map_ext. intros x.
    case_bool_decide; congruence.
  - rewrite map_map.
    change (NoDup ((λ x, username (if bool_decide (user_pk x = user_pk u)
                                   then u else x)) <$> l)).
    change (NoDup (user_pk <$> l)) in Hpk.
    change (NoDup (username <$> l)) in Hname.
    apply NoDup_alt. intros i j v Hi Hj.
    rewrite list_lookup_fmap in Hi, Hj.
    destruct (l !! i) as [a|] eqn:Ha; [|done].
    destruct (l !! j) as [b|] eqn:Hb; [|done].
    simpl in Hi, Hj. injection Hi as Hi. injection Hj as Hj.
    assert (a ∈ l) as Hal by (by eapply list_elem_of_lookup_2).
    assert (b ∈ l) as Hbl by (by eapply list_elem_of_lookup_2).
    rewrite NoDup_alt in Hpk. rewrite NoDup_alt in Hname.
    destruct (decide (user_pk a = user_pk u)) as [Hap|Hap];
      destruct (decide (user_pk b = user_pk u)) as [Hbp|Hbp].
    + apply (Hpk i j (user_pk a)); rewrite list_lookup_fmap.
      * by rewrite Ha.
      * rewrite Hb. simpl. congruence.
    + rewrite (bool_decide_eq_true_2 _ Hap) in Hi.
      rewrite (bool_decide_eq_false_2 _ Hbp) in Hj.
      destruct Hbp. rewrite Hu. apply Hfree; [done|congruence].
    + rewrite (bool_decide_eq_false_2 _ Hap) in Hi.
      rewrite (bool_decide_eq_true_2 _ Hbp) in Hj.
      destruct Hap. rewrite Hu. apply Hfree; [done|congruence].
    + rewrite (bool_decide_eq_false_2 _ Hap) in Hi.
      rewrite (bool_decide_eq_false_2 _ Hbp) in Hj.
      apply (Hname i j v); rewrite list_lookup_fmap.
      * by rewrite Ha; simpl; rewrite Hi.
      * by rewrite Hb; simpl; rewrite Hj.
Qed.
End users_rows.

Section users_unique.
Context `{UsersApp}.
Implicit Types (u : User) (st : Store) (vd : gmap string string).

Lemma update_username (m : serializers.Meta) u vd :
  m = UserSerializer.Meta ∨ m = ReadOnlyRole.Meta →
  username (UserSerializer.update m u vd)
  = default (username u) (vd !! "username").
Proof.
  intros [->| ->]; unfold UserSerializer.update;
    [rewrite writable_UserSerializer|rewrite writable_ReadOnlyRole]; simpl;
    repeat match goal with |- context [vd !! ?f] => destruct (vd !! f) end;
    reflexivity.
Qed.

Lemma username_is_unique_others (table : list User) pk v y :
  UserSerializer.username_is_unique table (Some pk) v = true →
  y ∈ table → username y = v → user_pk y = pk.
Proof.
  unfold UserSerializer.username_is_unique.
  intros Hu%negb_true_iff Hy Hv.
  destruct (decide (user_pk y = pk)) as [|Hne]; [done|].
  apply not_true_iff_false in Hu. destruct Hu.
  apply existsb_exists. exists y. rewrite <- list_elem_of_In.
  split; [done|]. rewrite (bool_decide_eq_true_2 _ Hv).
  rewrite bool_decide_eq_false_2; [done|]. congruence.
Qed.

(** A validated PATCH of a stored user keeps keys and usernames
    distinct. *)
Lemma patch_keeps_users (m : serializers.Meta) st u0 payload vd :
  m = UserSerializer.Meta ∨ m = ReadOnlyRole.Meta →
  usernames_unique st → users_keyed st → u0 ∈ users st →
  serializers.is_valid m (UserSerializer.rules (users st) (Some (user_pk u0)))
    true payload = Return vd →
  let st' := UserSerializer.save_row (UserSerializer.update m u0 vd) st in
  usernames_unique st' ∧ users_keyed st'.
Proof.
  intros Hm Hname Hpk Hin Hv st'. subst st'.
  unfold usernames_unique, users_keyed in *. simpl.
  destruct (overwrite_user_row (users st) u0 (UserSerializer.update m u0 vd))
    as [Hk Hn]; try done.
  - apply update_pk.
  - intros y Hy. rewrite (update_username m u0 vd Hm).
    destruct (vd !! "username") as [v|] eqn:Hvd; simpl.
    + destruct (is_valid_lookup _ _ _ _ _ _ _ Hv Hvd) as (v0 & _ & Hrv).
      intros Hyv.
      apply username_validated in Hrv as (_ & _ & _ & Hu).
      by apply (username_is_unique_others (users st) _ v).
    + intros Hyv.
      by rewrite (NoDup_map_eq username (users st) y u0 Hname Hy Hin Hyv).
  - split; [done|]. by rewrite Hk.
Qed.

(** The [me] action keeps keys and usernames distinct. *)
Lemma me_keeps_users (req : Request string) st u :
  user req = Some u → u ∈ users st →
  usernames_unique st → users_keyed st →
  usernames_unique (UserViewSet.get_user_info req st).2
  ∧ users_keyed (UserViewSet.get_user_info req st).2.
Proof.
  intros Hu Hin Hname Hpk. unfold UserViewSet.get_user_info. rewrite Hu.
  case_bool_decide; [|by case_bool_decide].
  destruct (serializers.is_valid _ _ _ _) as [vd|e] eqn:Hv; simpl; [|done].
  apply (patch_keeps_users _ st u (data req) vd); try done.
  destruct (is_admin u); auto.
Qed.

(** X23.  A request on [me] keeps usernames and keys distinct: when the
    caller is a stored user and no two stored users share a username or
    a key, the same holds after the request, whatever its method and
    payload. *)
Theorem me_keeps_usernames_unique (req : Request string) st u :
  user req = Some u → u ∈ users st →
  usernames_unique st → users_keyed st →
  usernames_unique (UserViewSet.get_user_info req st).2
  ∧ users_keyed (UserViewSet.get_user_info req st).2.
Proof.
  intros Hu Hin Hname Hpk. unfold UserViewSet.get_user_info. rewrite Hu.
  destruct (decide (method req = "PATCH")) as [Hm|Hm].
  - rewrite (bool_decide_eq_true_2 _ Hm).
    destruct (serializers.is_valid _ _ _ _) as [vd|e] eqn:Hv; simpl; [|done].
    apply (patch_keeps_users _ st u (data req) vd); try done.
    destruct (is_admin u); auto.
  - rewrite (bool_decide_eq_false_2 _ Hm). by case_bool_decide.
Qed.
End users_unique.

Lemma me_keeps_usernames_unique_witness :
  let st' := (@UserViewSet.get_user_info demo.users_app
                {| method := "PATCH"; user := Some demo.alice;
                   data := {[ "username" := "alicia" ]} |} demo.store).2 in
  usernames_unique st' ∧ users_keyed st'.
Proof.
  refine (me_keeps_usernames_unique (H := demo.users_app)
            {| method := "PATCH"; user := Some demo.alice;
               data := {[ "username" := "alicia" ]} |}
            demo.store demo.alice _ _ _ _).
  - reflexivity.
  - apply list_elem_of_here.
  - by apply (bool_decide_unpack _).
  - by apply (bool_decide_unpack _).
Defined.

Section users_endpoint.
Context `{UsersApp} `{AdminApp}.
Implicit Types (c : UserViewSetActions.Call) (st : Store).

Lemma users_filter_queryset_elem term (queryset : list User) u :
  u ∈ UserViewSetActions.filter_queryset term queryset → u ∈ queryset.
Proof.
  unfold UserViewSetActions.filter_queryset. destruct term; [|done].
  rewrite !list_elem_of_In, filter_In. tauto.
Qed.

(** X24.  The users viewset allows POST, GET, PATCH and DELETE only: a
    request with any other method, PUT among them, that passes the
    permission check is answered 405 and changes nothing. *)
Theorem users_method_not_allowed c st :
  permissions.check_permissions UserViewSetActions.permission_classes
    (UserViewSetActions.request c) = Return tt →
  method (UserViewSetActions.request c) ∉ UserViewSetActions.http_method_names →
  UserViewSetActions.dispatch c st
  = ({| answer_status := status.HTTP_405_METHOD_NOT_ALLOWED;
        answer_body := NoContent |}, st).
Proof.
  intros Hp Hm. unfold UserViewSetActions.dispatch, UserViewSetActions.handle.
  case_bool_decide as Hl.
  - unfold UserViewSetActions.me.
    assert (permissions.check_permissions [IsAuthenticated]
              (UserViewSetActions.request c) = Return tt) as ->.
    { revert Hp. unfold permissions.check_permissions,
        UserViewSetActions.permission_classes. simpl.
      destruct (bool_decide (is_Some _)); [done|].
      by destruct (user (UserViewSetActions.request c)). }
    simpl. rewrite bool_decide_eq_false_2; [done|].
    intros Hin. apply Hm. unfold UserViewSetActions.http_method_names.
    apply elem_of_cons in Hin as [->|Hin];
      [|apply list_elem_of_singleton in Hin as ->].
    + apply list_elem_of_further, list_elem_of_here.
    + do 2 apply list_elem_of_further. apply list_elem_of_here.
  - rewrite Hp. simpl. by rewrite (bool_decide_eq_false_2 _ Hm).
Qed.

(** X25.  An anonymous request to the users viewset is answered 401,
    whatever its method, URL and payload, and whatever the project's own
    permission class says; nothing is looked up or stored. *)
Theorem users_anonymous_401 c st :
  user (UserViewSetActions.request c) = None →
  UserViewSetActions.dispatch c st
  = ({| answer_status := status.HTTP_401_UNAUTHORIZED;
        answer_body := NoContent |}, st).
Proof.
  intros Hu. unfold UserViewSetActions.dispatch, UserViewSetActions.handle,
    UserViewSetActions.me, permissions.check_permissions,
    UserViewSetActions.permission_classes.
  simpl. rewrite Hu. by case_bool_decide.
Qed.

(** X26.  The users viewset keeps usernames and keys distinct: when no
    two stored users share a username or a key, the same holds after any
    request other than a DELETE, on [users/me/] as on the other URLs; the
    user of the request is a stored user, as authentication has it. *)
Theorem users_endpoint_keeps_unique c st :
  usernames_unique st → users_keyed st →
  authenticated (UserViewSetActions.request c) st →
  method (UserViewSetActions.request c) ≠ "DELETE" →
  usernames_unique (UserViewSetActions.dispatch c st).2
  ∧ users_keyed (UserViewSetActions.dispatch c st).2.
Proof.
  intros Hname Hpk Hauth Hm.
  unfold UserViewSetActions.dispatch, UserViewSetActions.handle.
  case_bool_decide as Hme.
  { unfold UserViewSetActions.me.
    destruct (permissions.check_permissions _ _) as [[]|e]; simpl; [|done].
    destruct (negb _); [done|].
    destruct (user (UserViewSetActions.request c)) as [u|] eqn:Hu.
    - pose proof (me_keeps_users (UserViewSetActions.request c) st u Hu
                    (Hauth u Hu) Hname Hpk) as Hkeep.
      by destruct (UserViewSet.get_user_info _ st).
    - unfold UserViewSet.get_user_info. by rewrite Hu. }
  destruct (permissions.check_permissions _ _) as [[]|e]; simpl; [|done].
  destruct (negb _); [done|].
  destruct (UserViewSetActions.lookup c) as [name|] eqn:Hl.
  - case_bool_decide.
    { unfold UserViewSetActions.retrieve.
      by destruct (UserViewSetActions.get_object c st). }
    case_bool_decide; [|by case_bool_decide].
    unfold UserViewSetActions.partial_update, UserViewSetActions.get_object.
    rewrite Hl.
    destruct (find _ _) as [u0|] eqn:Hg; simpl; [|done].
    apply find_some_elem in Hg as [Hin%users_filter_queryset_elem _].
    destruct (permissions.check_object_permissions _ _ _); simpl; [|done].
    destruct (serializers.is_valid _ _ _ _) as [vd|e] eqn:Hv; simpl; [|done].
    apply (patch_keeps_users UserSerializer.Meta st u0
             (data (UserViewSetActions.request c)) vd); auto.
  - case_bool_decide; [done|]. case_bool_decide; [|done].
    unfold UserViewSetActions.create.
    destruct (serializers.is_valid _ _ _ _) as [vd|e] eqn:Hv; simpl; [|done].
    destruct (is_valid_required _ _ _ _ "username" Hv) as [name Hd];
      [rewrite writable_UserSerializer; repeat constructor|done|].
    destruct (is_valid_present _ _ _ _ _ "username" name Hv)
      as (v' & Hrv & Hvd);
      [rewrite writable_UserSerializer; repeat constructor|done|].
    apply username_validated in Hrv as (_ & _ & _ & Hu).
    apply username_is_unique_fresh in Hu.
    unfold usernames_unique, users_keyed in *. simpl. rewrite !map_app. simpl.
    rewrite update_username, update_pk, Hvd by auto. simpl. split.
    + apply NoDup_app. split; [done|]. split; [|apply NoDup_singleton].
      by intros x Hx ->%list_elem_of_singleton.
    + apply NoDup_app. split; [done|]. split; [|apply NoDup_singleton].
      intros x Hx ->%list_elem_of_singleton.
      by apply (next_pk_fresh user_pk (users st) _ Hx).
Qed.

(** X27.  A request to the users viewset for a username that no stored
    user carries, passing the permission check, is answered 404 for GET,
    PATCH and DELETE alike, and changes nothing.  The name is not [me],
    which the router binds to the [me] action. *)
Theorem users_unknown_username_404 c st name :
  permissions.check_permissions UserViewSetActions.permission_classes
    (UserViewSetActions.request c) = Return tt →
  method (UserViewSetActions.request c) ∈ ["GET"; "PATCH"; "DELETE"] →
  UserViewSetActions.lookup c = Some name → name ≠ "me" →
  name ∉ map username (users st) →
  UserViewSetActions.dispatch c st
  = ({| answer_status := status.HTTP_404_NOT_FOUND;
        answer_body := NoContent |}, st).
Proof.
  intros Hp Hm Hl Hme Hfresh.
  assert (UserViewSetActions.get_object c st = Raise Http404) as Hg.
  { unfold UserViewSetActions.get_object.
    rewrite Hl. destruct (find _ _) as [u|] eqn:Hf; [|done].
    apply find_some_elem
      in Hf as [Hin%users_filter_queryset_elem Hu%bool_decide_eq_true].
    destruct Hfresh. rewrite <- Hu. by apply list_elem_of_fmap_2. }
  unfold UserViewSetActions.dispatch, UserViewSetActions.handle.
  rewrite Hp, Hl. rewrite bool_decide_eq_false_2 by congruence. simpl.
  unfold UserViewSetActions.retrieve, UserViewSetActions.partial_update,
    UserViewSetActions.destroy. rewrite Hg.
  repeat (apply elem_of_cons in Hm as [->|Hm]);
    [..|by apply elem_of_nil in Hm]; reflexivity.
Qed.
(** X31.  [users/me/] is open to every authenticated user, whatever the
    admin-only permission of the viewset says: a GET there is answered
    200 with the caller's own record and changes nothing, a PATCH there
    is answered and stored as [get_user_info] does, and any other method
    is answered 405 and changes nothing. *)
Theorem users_me_is_the_action c st u :
  UserViewSetActions.lookup c = Some "me" →
  user (UserViewSetActions.request c) = Some u →
  let req := UserViewSetActions.request c in
  let answer := UserViewSetActions.dispatch c st in
  (method req = "GET" →
   answer = ({| answer_status := status.HTTP_200_OK;
                answer_body :=
                  One (UserSerializer.to_representation UserSerializer.Meta u) |},
             st))
  ∧ (method req = "PATCH" →
     answer_status (answer.1)
     = status_code (UserViewSet.get_user_info req st).1
     ∧ answer.2 = (UserViewSet.get_user_info req st).2)
  ∧ (method req ∉ ["GET"; "PATCH"] →
     answer = ({| answer_status := status.HTTP_405_METHOD_NOT_ALLOWED;
                  answer_body := NoContent |}, st)).
Proof.
  intros Hl Hu req answer. subst req answer.
  unfold UserViewSetActions.dispatch, UserViewSetActions.handle.
  rewrite (bool_decide_eq_true_2 _ Hl). unfold UserViewSetActions.me.
  assert (permissions.check_permissions [IsAuthenticated]
            (UserViewSetActions.request c) = Return tt) as ->.
  { unfold permissions.check_permissions. simpl. by rewrite Hu. }
  simpl. split; [|split].
  - intros Hm. rewrite Hm. simpl.
    unfold UserViewSet.get_user_info. by rewrite Hu, Hm.
  - intros Hm. rewrite Hm. simpl.
    by destruct (UserViewSet.get_user_info _ st).
  - intros Hm. by rewrite (bool_decide_eq_false_2 _ Hm).
Qed.
End users_endpoint.

Lemma users_me_is_the_action_witness :
  @UserViewSetActions.dispatch demo.users_app demo_admin.admin_app
    {| UserViewSetActions.request :=
         {| method := "GET"; user := Some demo.alice; data := ∅ |};
       UserViewSetActions.lookup := Some "me";
       UserViewSetActions.search := None |} demo.store
  = ({| answer_status := status.HTTP_200_OK;
        answer_body :=
          One (@UserSerializer.to_representation UserSerializer.Meta
                 demo.alice) |},
     demo.store).
Proof.
  refine (proj1 (users_me_is_the_action (H := demo.users_app)
                   (H0 := demo_admin.admin_app)
                   {| UserViewSetActions.request :=
                        {| method := "GET"; user := Some demo.alice;
                           data := ∅ |};
                      UserViewSetActions.lookup := Some "me";
                      UserViewSetActions.search := None |}
                   demo.store demo.alice _ _) _); reflexivity.
Defined.

Lemma users_method_not_allowed_witness :
  @UserViewSetActions.dispatch demo.users_app demo_admin.admin_app
    {| UserViewSetActions.request :=
         {| method := "PUT"; user := Some demo.root;
            data := {[ "bio" := "x" ]} |};
       UserViewSetActions.lookup := Some "alice";
       UserViewSetActions.search := None |} demo.store
  = ({| answer_status := status.HTTP_405_METHOD_NOT_ALLOWED;
        answer_body := NoContent |}, demo.store).
Proof.
  refine (users_method_not_allowed (H := demo.users_app)
            (H0 := demo_admin.admin_app)
            {| UserViewSetActions.request :=
                 {| method := "PUT"; user := Some demo.root;
                    data := {[ "bio" := "x" ]} |};
               UserViewSetActions.lookup := Some "alice";
               UserViewSetActions.search := None |} demo.store _ _);
    [reflexivity|].
  simpl. intros Hin. unfold UserViewSetActions.http_method_names in Hin.
  repeat (apply elem_of_cons in Hin as [Hin|Hin]; [discriminate Hin|]).
  by apply elem_of_nil in Hin.
Defined.

Lemma users_anonymous_401_witness :
  @UserViewSetActions.dispatch demo.users_app demo_admin.admin_app
    {| UserViewSetActions.request :=
         {| method := "GET"; user := None; data := ∅ |};
       UserViewSetActions.lookup := None;
       UserViewSetActions.search := None |} demo.store
  = ({| answer_status := status.HTTP_401_UNAUTHORIZED;
        answer_body := NoContent |}, demo.store).
Proof.
  refine (users_anonymous_401 (H := demo.users_app)
            (H0 := demo_admin.admin_app)
            {| UserViewSetActions.request :=
                 {| method := "GET"; user := None; data := ∅ |};
               UserViewSetActions.lookup := None;
               UserViewSetActions.search := None |} demo.store _).
  reflexivity.
Defined.

Lemma users_endpoint_keeps_unique_witness :
  let st' :=
    (@UserViewSetActions.dispatch demo.users_app demo_admin.admin_app
       {| UserViewSetActions.request :=
            {| method := "POST"; user := Some demo.root;
               data := {[ "username" := "carol";
                          "email" := "carol@example.com";
                          "role" := "moderator" ]} |};
          UserViewSetActions.lookup := None;
          UserViewSetActions.search := None |} demo.store).2 in
  usernames_unique st' ∧ users_keyed st'.
Proof.
  refine (users_endpoint_keeps_unique (H := demo.users_app)
            (H0 := demo_admin.admin_app)
            {| UserViewSetActions.request :=
                 {| method := "POST"; user := Some demo.root;
                    data := {[ "username" := "carol";
                               "email" := "carol@example.com";
                               "role" := "moderator" ]} |};
               UserViewSetActions.lookup := None;
               UserViewSetActions.search := None |} demo.store _ _ _ _).
  - by apply (bool_decide_unpack _).
  - by apply (bool_decide_unpack _).
  - intros u [= <-]. apply list_elem_of_further, list_elem_of_here.
  - discriminate.
Defined.

Lemma users_unknown_username_witness :
  @UserViewSetActions.dispatch demo.users_app demo_admin.admin_app
    {| UserViewSetActions.request :=
         {| method := "PATCH"; user := Some demo.root;
            data := {[ "role" := "admin" ]} |};
       UserViewSetActions.lookup := Some "carol";
       UserViewSetActions.search := None |} demo.store
  = ({| answer_status := status.HTTP_404_NOT_FOUND;
        answer_body := NoContent |}, demo.store).
Proof.
  refine (users_unknown_username_404 (H := demo.users_app)
            (H0 := demo_admin.admin_app)
            {| UserViewSetActions.request :=
                 {| method := "PATCH"; user := Some demo.root;
                    data := {[ "role" := "admin" ]} |};
               UserViewSetActions.lookup := Some "carol";
               UserViewSetActions.search := None |} demo.store "carol"
            _ _ _ _ _); try reflexivity.
  - apply list_elem_of_further, list_elem_of_here.
  - discriminate.
  - simpl. intros Hin.
    repeat (apply elem_of_cons in Hin as [Hin|Hin]; [discriminate Hin|]).
    by apply elem_of_nil in Hin.
Defined.

(** The users viewset on the concrete store: the admin creates a
    moderator, and promotes Alice by her username. *)
Example users_admin_writes :
  let call m name payload :=
    {| UserViewSetActions.request :=
         {| method := m; user := Some demo.root; data := payload |};
       UserViewSetActions.lookup := name;
       UserViewSetActions.search := None |} in
  let created :=
    @UserViewSetActions.dispatch demo.users_app demo_admin.admin_app
      (call "POST" None {[ "username" := "carol";
                           "email" := "carol@example.com";
                           "role" := "moderator" ]}) demo.store in
  let promoted :=
    @UserViewSetActions.dispatch demo.users_app demo_admin.admin_app
      (call "PATCH" (Some "alice") {[ "role" := "admin" ]}) demo.store in
  answer_status (created.1) = 201
  ∧ map (λ u, (username u, role u)) (users (created.2))
    = [("alice", "user"); ("root", "admin"); ("carol", "moderator")]
  ∧ answer_status (promoted.1) = 200
  ∧ map (λ u, (username u, role u)) (users (promoted.2))
    = [("alice", "admin"); ("root", "admin")].
Proof. vm_compute. repeat split. Qed.

(** [users/me/] is the [me] action, not the row of a user named [me]:
    Alice, who is no admin, reads her own record there while the URL of
    her username is closed to her, and a DELETE there is answered 405. *)
Example users_me_route :
  let call m u name :=
    {| UserViewSetActions.request := {| method := m; user := u; data := ∅ |};
       UserViewSetActions.lookup := Some name;
       UserViewSetActions.search := None |} in
  let run c :=
    @UserViewSetActions.dispatch demo.users_app demo_admin.admin_app c
      demo.store in
  answer_status (run (call "GET" (Some demo.alice) "me")).1 = 200
  ∧ answer_status (run (call "GET" (Some demo.alice) "alice")).1 = 403
  ∧ run (call "DELETE" (Some demo.root) "me")
    = ({| answer_status := 405; answer_body := NoContent |}, demo.store)
  ∧ answer_status (run (call "GET" None "me")).1 = 401.
Proof. vm_compute. repeat split. Qed.

(** ** Categories and genres *)

Section catalog.
Context `{CatalogApp} `{AdminApp}.
Implicit Types (c : ListCreateDestroyViewSet.Call) (table : Table).

Lemma catalog_filter_queryset_elem term (queryset : list SlugRow) r :
  r ∈ ListCreateDestroyViewSet.filter_queryset term queryset → r ∈ queryset.
Proof.
  unfold ListCreateDestroyViewSet.filter_queryset. destruct term; [|done].
  rewrite !list_elem_of_In, filter_In. tauto.
Qed.

(** X28.  A category or a genre can be deleted by its slug and nothing
    else: on the URL of one row, a request that passes the permission
    check with a method other than DELETE and OPTIONS (a GET, a PUT, a
    PATCH) is answered 405, and the table is unchanged. *)
Theorem catalog_row_only_deletes c table s :
  permissions.check_permissions ListCreateDestroyViewSet.permission_classes
    (ListCreateDestroyViewSet.request c) = Return tt →
  ListCreateDestroyViewSet.slug c = Some s →
  method (ListCreateDestroyViewSet.request c) ∉ ["DELETE"; "OPTIONS"] →
  ListCreateDestroyViewSet.dispatch c table
  = ({| answer_status := status.HTTP_405_METHOD_NOT_ALLOWED;
        answer_body := NoContent |}, table).
Proof.
  intros Hp Hs Hm.
  apply not_elem_of_cons in Hm as [Hd Hm].
  apply not_elem_of_cons in Hm as [Ho _].
  unfold ListCreateDestroyViewSet.dispatch, ListCreateDestroyViewSet.handle.
  rewrite Hp, Hs. simpl.
  by rewrite (bool_decide_eq_false_2 _ Ho), (bool_decide_eq_false_2 _ Hd).
Qed.

(** X29.  A permitted DELETE on the URL of a slug: when no row carries
    the slug the answer is 404 and the table is unchanged; when the
    answer is 204, a row with that slug was stored and the table is left
    without the rows of its key, the other rows staying as they were
    and in their order. *)
Theorem catalog_delete c table s :
  permissions.check_permissions ListCreateDestroyViewSet.permission_classes
    (ListCreateDestroyViewSet.request c) = Return tt →
  method (ListCreateDestroyViewSet.request c) = "DELETE" →
  ListCreateDestroyViewSet.slug c = Some s →
  let answer := ListCreateDestroyViewSet.dispatch c table in
  (s ∉ map row_slug (rows table) →
   answer = ({| answer_status := status.HTTP_404_NOT_FOUND;
                answer_body := NoContent |}, table))
  ∧ (answer_status (answer.1) = status.HTTP_204_NO_CONTENT →
     ∃ r, r ∈ rows table ∧ row_slug r = s
          ∧ rows (answer.2)
            = List.filter (λ x, negb (bool_decide (row_pk x = row_pk r)))
                (rows table)
          ∧ (r ∉ rows (answer.2))
          ∧ ∀ x, x ∈ rows table → row_pk x ≠ row_pk r → x ∈ rows (answer.2)).
Proof.
  intros Hp Hm Hs answer. subst answer.
  unfold ListCreateDestroyViewSet.dispatch, ListCreateDestroyViewSet.handle.
  rewrite Hp, Hs, Hm. simpl.
  unfold ListCreateDestroyViewSet.destroy, ListCreateDestroyViewSet.get_object.
  rewrite Hs.
  destruct (find _ _) as [r|] eqn:Hf; simpl.
  - apply find_some_elem in Hf as [Hin Hr%bool_decide_eq_true].
    apply catalog_filter_queryset_elem in Hin. split.
    + intros Hfresh. destruct Hfresh. rewrite <- Hr.
      by apply list_elem_of_fmap_2.
    + destruct (permissions.check_object_permissions _ _ _) as [[]|e]; simpl.
      * intros _. exists r. split; [done|]. split; [done|].
        split; [done|]. split.
        -- rewrite list_elem_of_In, filter_In.
           rewrite bool_decide_eq_true_2 by done. by intros [_ [=]].
        -- intros x Hx Hne. rewrite list_elem_of_In, filter_In.
           rewrite <- list_elem_of_In. split; [done|].
           by rewrite bool_decide_eq_false_2.
      * by destruct e.
  - split; [done|]. done.
Qed.

(** X30.  The answers never show a key: every row serialized in the
    answer to a request on categories or genres, listed or just
    created, holds the name and the slug of a row stored after the
    request, and nothing else. *)
Theorem catalog_answers_hide_key c table d :
  let answer := ListCreateDestroyViewSet.dispatch c table in
  (answer_body (answer.1) = One d
   ∨ ∃ ds, answer_body (answer.1) = Many ds ∧ d ∈ ds) →
  (∃ r, r ∈ rows (answer.2)
        ∧ d !! "name" = Some (row_name r) ∧ d !! "slug" = Some (row_slug r))
  ∧ ∀ f, is_Some (d !! f) → f = "name" ∨ f = "slug".
Proof.
  intros answer Hd.
  assert (∃ r, r ∈ rows (answer.2) ∧ d = CategorySerializer.to_representation r)
    as (r & Hin & ->).
  { subst answer. revert Hd.
    unfold ListCreateDestroyViewSet.dispatch, ListCreateDestroyViewSet.handle.
    destruct (permissions.check_permissions _ _) as [[]|e]; simpl;
      [|destruct e; intros [?|(? & ? & ?)]; done].
    case_bool_decide; simpl; [intros [?|(? & ? & ?)]; done|].
    destruct (ListCreateDestroyViewSet.slug c) as [s|].
    - case_bool_decide; [|intros [?|(? & ? & ?)]; done].
      unfold ListCreateDestroyViewSet.destroy.
      destruct (ListCreateDestroyViewSet.get_object _ _) as [r|e]; simpl;
        [|destruct e]; intros [?|(? & ? & ?)]; done.
    - destruct (_ || _); simpl.
      + intros [?|(ds & [= <-] & Hin)]; [done|].
        apply list_elem_of_fmap in Hin as (r & -> & Hin).
        exists r. split; [|done].
        by apply catalog_filter_queryset_elem in Hin.
      + case_bool_decide; [|intros [?|(? & ? & ?)]; done].
        unfold ListCreateDestroyViewSet.create.
        destruct (serializers.is_valid _ _ _ _) as [vd|e]; simpl;
          [|destruct e; intros [?|(? & ? & ?)]; done].
        destruct (vd !! "name") as [name|];
          [|intros [?|(? & ? & ?)]; done].
        destruct (vd !! "slug") as [sl|];
          [|intros [?|(? & ? & ?)]; done].
        simpl. intros [[= <-]|(? & ? & ?)]; [|done].
        eexists. split; [|reflexivity].
        apply elem_of_app. right. apply list_elem_of_here. }
  unfold CategorySerializer.to_representation. split.
  - exists r. split; [done|]. split; [by rewrite lookup_insert_eq|].
    rewrite lookup_insert_ne by done. by rewrite lookup_singleton_eq.
  - intros f [v Hf].
    destruct (decide (f = "name")) as [|Hn]; [by left|].
    destruct (decide (f = "slug")) as [|Hsl]; [by right|].
    rewrite lookup_insert_ne in Hf by done.
    by rewrite lookup_singleton_ne in Hf.
Qed.
End catalog.

Lemma catalog_row_only_deletes_witness :
  @ListCreateDestroyViewSet.dispatch demo_admin.catalog_app demo_admin.admin_app
    {| ListCreateDestroyViewSet.request :=
         {| method := "GET"; user := None; data := ∅ |};
       ListCreateDestroyViewSet.slug := Some "films";
       ListCreateDestroyViewSet.search := None |} demo_admin.categories
  = ({| answer_status := status.HTTP_405_METHOD_NOT_ALLOWED;
        answer_body := NoContent |}, demo_admin.categories).
Proof.
  refine (catalog_row_only_deletes (H := demo_admin.catalog_app)
            (H0 := demo_admin.admin_app)
            {| ListCreateDestroyViewSet.request :=
                 {| method := "GET"; user := None; data := ∅ |};
               ListCreateDestroyViewSet.slug := Some "films";
               ListCreateDestroyViewSet.search := None |}
            demo_admin.categories "films" _ _ _); try reflexivity.
  simpl. intros Hin.
  repeat (apply elem_of_cons in Hin as [Hin|Hin]; [discriminate Hin|]).
  by apply elem_of_nil in Hin.
Defined.

Lemma catalog_delete_witness :
  let answer :=
    @ListCreateDestroyViewSet.dispatch demo_admin.catalog_app
      demo_admin.admin_app
      {| ListCreateDestroyViewSet.request :=
           {| method := "DELETE"; user := Some demo.root; data := ∅ |};
         ListCreateDestroyViewSet.slug := Some "films";
         ListCreateDestroyViewSet.search := None |} demo_admin.categories in
  ∃ r, r ∈ rows demo_admin.categories ∧ row_slug r = "films"
       ∧ rows (answer.2)
         = List.filter (λ x, negb (bool_decide (row_pk x = row_pk r)))
             (rows demo_admin.categories)
       ∧ (r ∉ rows (answer.2))
       ∧ ∀ x, x ∈ rows demo_admin.categories → row_pk x ≠ row_pk r →
              x ∈ rows (answer.2).
Proof.
  refine (proj2 (catalog_delete (H := demo_admin.catalog_app)
                   (H0 := demo_admin.admin_app)
                   {| ListCreateDestroyViewSet.request :=
                        {| method := "DELETE"; user := Some demo.root;
                           data := ∅ |};
                      ListCreateDestroyViewSet.slug := Some "films";
                      ListCreateDestroyViewSet.search := None |}
                   demo_admin.categories "films" _ _ _) _); reflexivity.
Defined.

Lemma catalog_answers_hide_key_witness :
  let d : gmap string string := {[ "name" := "Music"; "slug" := "music" ]} in
  let answer :=
    @ListCreateDestroyViewSet.dispatch demo_admin.catalog_app
      demo_admin.admin_app
      {| ListCreateDestroyViewSet.request :=
           {| method := "POST"; user := Some demo.root; data := d |};
         ListCreateDestroyViewSet.slug := None;
         ListCreateDestroyViewSet.search := None |} demo_admin.categories in
  (∃ r, r ∈ rows (answer.2)
        ∧ d !! "name" = Some (row_name r) ∧ d !! "slug" = Some (row_slug r))
  ∧ ∀ f, is_Some (d !! f) → f = "name" ∨ f = "slug".
Proof.
  refine (catalog_answers_hide_key (H := demo_admin.catalog_app)
            (H0 := demo_admin.admin_app)
            {| ListCreateDestroyViewSet.request :=
                 {| method := "POST"; user := Some demo.root;
                    data := {[ "name" := "Music"; "slug" := "music" ]} |};
               ListCreateDestroyViewSet.slug := None;
               ListCreateDestroyViewSet.search := None |}
            demo_admin.categories
            {[ "name" := "Music"; "slug" := "music" ]} _).
  left. vm_compute. reflexivity.
Defined.

(** The categories on the concrete table: anyone lists them, the admin
    adds one and it is listed, a taken slug is refused. *)
Example categories_run :
  let call m u payload :=
    {| ListCreateDestroyViewSet.request :=
         {| method := m; user := u; data := payload |};
       ListCreateDestroyViewSet.slug := None;
       ListCreateDestroyViewSet.search := None |} in
  let run c t :=
    @ListCreateDestroyViewSet.dispatch demo_admin.catalog_app
      demo_admin.admin_app c t in
  let added :=
    run (call "POST" (Some demo.root)
           {[ "name" := "Music"; "slug" := "music" ]}) demo_admin.categories in
  answer_status (added.1) = 201
  ∧ map row_slug (rows (added.2)) = ["films"; "books"; "music"]
  ∧ answer_status (run (call "GET" None ∅) (added.2)).1 = 200
  ∧ answer_status
      (run (call "POST" (Some demo.root)
              {[ "name" := "Cinema"; "slug" := "films" ]})
         demo_admin.categories).1 = 400
  ∧ answer_status
      (run (call "POST" (Some demo.alice)
              {[ "name" := "Music"; "slug" := "music" ]})
         demo_admin.categories).1 = 403.
Proof. vm_compute. repeat split. Qed.
